(** * Volt Stream Analyzer: the playlist analyzer of [playlist_analyzer.py]

    A shallow embedding of [PlaylistAnalyzer] (the M3U parser, the link
    probe, the bounded-concurrency batch check and the report) together with
    the properties stated about it.

    Conventions of the embedding:
    - a Python [str] is a [string]; a character is a code point below 256;
    - a Python [int] is a [Z]; a Python [float] is a binary64 number, a
      finite one given by the rational it denotes (a [Q] kept in lowest
      terms), and [/], [*] and [round] give the nearest binary64 number,
      a tie going to the even significand;
    - a Python [dict] is an association list in insertion order with unique
      keys, a Python [list] is a [list];
    - the network is the environment: what one HTTP request does is an
      [outcome] handed to the probe. *)

From Stdlib Require Import ZArith NArith QArith Qround Qabs Ascii String List Lia.
From Stdlib.Strings Require Byte.
From stdpp Require Import base list strings relations sorting.

Set Warnings "-register-all".

#[local] Open Scope Z_scope.
#[local] Open Scope string_scope.
#[local] Open Scope list_scope.

(** ** Python strings *)

Module PyStr.

Definition dquote : ascii := ascii_of_nat 34.
Definition newline : ascii := ascii_of_nat 10.
Definition comma : ascii := ascii_of_nat 44.

(** [str.isspace] on one character, for code points below 256. *)
Definition isspace (c : ascii) : bool :=
  let n := nat_of_ascii c in
  ((9 <=? n)%nat && (n <=? 13)%nat)
  || ((28 <=? n)%nat && (n <=? 32)%nat)
  || (n =? 133)%nat || (n =? 160)%nat.

Definition is_empty (s : string) : bool :=
  match s with EmptyString => true | String _ _ => false end.

Fixpoint lstrip (s : string) : string :=
  match s with
  | EmptyString => EmptyString
  | String c r => if isspace c then lstrip r else s
  end.

Fixpoint rstrip (s : string) : string :=
  match s with
  | EmptyString => EmptyString
  | String c r =>
      let r' := rstrip r in
      if isspace c && is_empty r' then EmptyString else String c r'
  end.

(** [s.strip()] *)
Definition strip (s : string) : string := rstrip (lstrip s).

(** [s.split(sep)] for a one-character separator: never an empty list. *)
Fixpoint split (sep : ascii) (s : string) : list string :=
  match s with
  | EmptyString => [EmptyString]
  | String c r =>
      if Ascii.eqb c sep then EmptyString :: split sep r
      else match split sep r with
           | h :: t => String c h :: t
           | [] => [String c EmptyString]
           end
  end.

(** [s.split(sep, 1)]: one piece when [sep] does not occur, else two. *)
Fixpoint split1 (sep : ascii) (s : string) : list string :=
  match s with
  | EmptyString => [EmptyString]
  | String c r =>
      if Ascii.eqb c sep then [EmptyString; r]
      else match split1 sep r with
           | h :: t => String c h :: t
           | [] => [String c EmptyString]
           end
  end.

(** [s.startswith(p)] *)
Definition startswith (p s : string) : bool := String.prefix p s.

(** [s[n:]] *)
Fixpoint drop (n : nat) (s : string) : string :=
  match n, s with
  | O, _ => s
  | S _, EmptyString => EmptyString
  | S n', String _ r => drop n' r
  end.

(** [s[:n]] *)
Fixpoint take (n : nat) (s : string) : string :=
  match n, s with
  | O, _ => EmptyString
  | S _, EmptyString => EmptyString
  | S n', String c r => String c (take n' r)
  end.

(** The tail of the two patterns, a run of characters other than the double
    quote and then a double quote: the run, when a double quote follows. *)
Fixpoint until_quote (s : string) : option string :=
  match s with
  | EmptyString => None
  | String c r =>
      if Ascii.eqb c dquote then Some EmptyString
      else match until_quote r with
           | Some g => Some (String c g)
           | None => None
           end
  end.

(** [re.search] for a literal [lit] (ending in a double quote) followed by
    that tail: group 1 of the leftmost match. *)
Fixpoint re_search_quoted (lit : string) (s : string) : option string :=
  let here :=
    if startswith lit s then until_quote (drop (String.length lit) s)
    else None in
  match here with
  | Some g => Some g
  | None =>
      match s with
      | EmptyString => None
      | String _ r => re_search_quoted lit r
      end
  end.

End PyStr.

(** ** Python values and dictionaries *)

(** A [float]: a finite binary64 number other than the zero with the sign
    bit set, given by its value; that zero; and the two infinities. No
    operation of the program gives a NaN. *)
Inductive pyfloat : Type :=
| Finite (q : Q)
| NegZero
| Infinity (negative : bool).

Inductive pyval : Type :=
| VBool (b : bool)
| VInt (z : Z)
| VFloat (x : pyfloat)
| VStr (s : string)
| VList (l : list pyval)
| VDict (d : list (string * pyval)).

Module PyDict.

Section Dict.
Context {V : Type}.

(** [k in d] / [d.get(k)] *)
Fixpoint get (k : string) (d : list (string * V)) : option V :=
  match d with
  | [] => None
  | (k', v) :: r => if String.eqb k k' then Some v else get k r
  end.

(** [d.get(k, dflt)] *)
Definition get_default (k : string) (dflt : V) (d : list (string * V)) : V :=
  match get k d with
  | Some v => v
  | None => dflt
  end.

(** [d[k] = v]: an existing key keeps its place, a new one goes last. *)
Fixpoint set (k : string) (v : V) (d : list (string * V)) : list (string * V) :=
  match d with
  | [] => [(k, v)]
  | (k', v') :: r =>
      if String.eqb k k' then (k', v) :: r else (k', v') :: set k v r
  end.

(** [{**a, **b}] *)
Definition merge (a b : list (string * V)) : list (string * V) :=
  fold_left (fun acc kv => set (fst kv) (snd kv) acc) b a.

Definition has_key (k : string) (d : list (string * V)) : bool :=
  match get k d with Some _ => true | None => false end.

(** Truth value of a dict: non-empty. *)
Definition truthy (d : list (string * V)) : bool :=
  match d with [] => false | _ :: _ => true end.
End Dict.

End PyDict.

Abbreviation sdict := (list (string * string)).
Abbreviation pydict := (list (string * pyval)).

(** A dict of strings seen as a dict of values. *)
Definition inject (d : sdict) : pydict :=
  List.map (fun kv => (fst kv, VStr (snd kv))) d.

(** ** Exceptions and results *)

(** The classes of the exceptions the request and the dictionary accesses
    raise. Every one of them derives from [Exception]. *)
Inductive exn_class : Type :=
| AsyncioTimeoutError
| ServerTimeoutError
| ClientConnectorError
| ClientSSLError
| InvalidURL
| KeyError
| ValueError
| OtherException.

Record exn : Type := Exn { exn_cls : exn_class; exn_str : string }.

(** The classes named by the [except] clauses of the source. *)
Inductive except_class : Type := ExceptTimeoutError | ExceptException.

(** [isinstance(e, c)]: aiohttp's [ServerTimeoutError] derives from
    [asyncio.TimeoutError]. *)
Definition isinstance (e : exn) (c : except_class) : bool :=
  match c with
  | ExceptException => true
  | ExceptTimeoutError =>
      match exn_cls e with
      | AsyncioTimeoutError | ServerTimeoutError => true
      | _ => false
      end
  end.

(** A computation returns a value or raises. *)
Inductive res (A : Type) : Type :=
| Ret (a : A)
| Raise (e : exn).
Arguments Ret {A} a.
Arguments Raise {A} e.

#[export] Instance res_ret : MRet res := fun A a => Ret a.

#[export] Instance res_bind : MBind res := fun A B k m =>
  match m with
  | Ret a => k a
  | Raise e => Raise e
  end.

(** [try: body except c1: h1 except c2: h2 ...]: the first clause whose
    class the exception is an instance of handles it, and an exception no
    clause matches propagates. *)
Fixpoint handle {A : Type} (e : exn)
    (clauses : list (except_class * (exn -> res A))) : res A :=
  match clauses with
  | [] => Raise e
  | (c, h) :: rest => if isinstance e c then h e else handle e rest
  end.

Definition try_except {A : Type} (body : res A)
    (clauses : list (except_class * (exn -> res A))) : res A :=
  match body with
  | Ret a => Ret a
  | Raise e => handle e clauses
  end.

(** [d[k]] *)
Definition getitem {V : Type} (k : string) (d : list (string * V)) : res V :=
  match PyDict.get k d with
  | Some v => Ret v
  | None => Raise (Exn KeyError k)
  end.

(** [for x in l] with a body that may raise: the results in order. *)
Fixpoint for_each {A B : Type} (f : A -> res B) (l : list A) : res (list B) :=
  match l with
  | [] => Ret []
  | x :: r => y ← f x; ys ← for_each f r; Ret (y :: ys)
  end.

(** ** Python numbers *)

Module PyNum.

(** The integer nearest to [n / d], a tie going to the even one. *)
Definition nearest_int (n : Z) (d : positive) : Z :=
  let q := (n / Zpos d)%Z in
  let r := (n mod Zpos d)%Z in
  if (2 * r <? Zpos d)%Z then q
  else if (Zpos d <? 2 * r)%Z then (q + 1)%Z
  else if Z.even q then q else (q + 1)%Z.

(** [2 ** k <= n / d] *)
Definition pow2_le (k : Z) (n d : positive) : bool :=
  if (0 <=? k)%Z then (Zpos d * 2 ^ k <=? Zpos n)%Z
  else (Zpos d <=? Zpos n * 2 ^ (- k))%Z.

(** The binary exponent of [n / d]: the [k] with
    [2 ** k <= n / d < 2 ** (k + 1)]. *)
Definition exponent (n d : positive) : Z :=
  let k := (Z.log2 (Zpos n) - Z.log2 (Zpos d))%Z in
  if pow2_le k n d then k else (k - 1)%Z.

(** The exponent of the spacing of the binary64 numbers around [n / d]: a
    significand of 53 bits, and the spacing [2 ** -1074] of the subnormal
    numbers at the least. *)
Definition ulp_exponent (n d : positive) : Z :=
  Z.max (exponent n d - 52) (-1074).

(** [m * 2 ** e] *)
Definition scaled (m e : Z) : Q :=
  Qred (if (0 <=? e)%Z then inject_Z (m * 2 ^ e) else m # Z.to_pos (2 ^ (- e))).

(** The binary64 number nearest to [n / d], a tie going to the even
    significand; nothing when that is [2 ** 1024] or more, beyond the
    largest float. *)
Definition nearest_binary64 (n d : positive) : option Q :=
  let e := ulp_exponent n d in
  let m := if (0 <=? e)%Z then nearest_int (Zpos n) (d * Z.to_pos (2 ^ e))
           else nearest_int (Zpos n * 2 ^ (- e)) d in
  if (0 <=? e)%Z && (2 ^ 1024 <=? m * 2 ^ e)%Z then None else Some (scaled m e).

(** [0.0] or [-0.0] *)
Definition zero (negative : bool) : pyfloat :=
  if negative then NegZero else Finite 0.

(** The float of the given sign whose magnitude is nearest to [n / d]: an
    infinity beyond the largest float, a zero below half the smallest. *)
Definition rounded (negative : bool) (n d : positive) : pyfloat :=
  match nearest_binary64 n d with
  | None => Infinity negative
  | Some q =>
      if (Qnum q =? 0)%Z then zero negative
      else Finite (if negative then Qopp q else q)
  end.

(** The float nearest to a rational. *)
Definition of_Q (x : Q) : pyfloat :=
  match Qnum x with
  | Z0 => Finite 0
  | Zpos n => rounded false n (Qden x)
  | Zneg n => rounded true n (Qden x)
  end.

(** [a / b] on ints: the float nearest to the quotient. *)
Definition truediv (a b : Z) : res pyfloat :=
  let negate := xorb (a <? 0)%Z (b <? 0)%Z in
  match a, b with
  | _, Z0 => Raise (Exn OtherException "division by zero")
  | Z0, _ => Ret (zero negate)
  | _, _ =>
      match rounded negate (Z.to_pos (Z.abs a)) (Z.to_pos (Z.abs b)) with
      | Infinity _ =>
          Raise (Exn OtherException "integer division result too large for a float")
      | x => Ret x
      end
  end.

(** [x * k] for a float [x] and a positive int [k]: [k] becomes the float
    nearest to it, and the product is the float nearest to the exact one. *)
Definition mul_int (x : pyfloat) (k : positive) : res pyfloat :=
  match nearest_binary64 k 1 with
  | None => Raise (Exn OtherException "int too large to convert to float")
  | Some y =>
      Ret (match x with
           | Finite q => of_Q (q * y)
           | NegZero => NegZero
           | Infinity s => Infinity s
           end)
  end.

(** [10 ** n] as a positive. *)
Definition pow10 (n : nat) : positive := Pos.pow 10 (Pos.of_nat n).

Definition scale (ndigits : nat) : positive :=
  match ndigits with O => 1%positive | S _ => pow10 ndigits end.

(** [round(x, ndigits)]: the value of [x] goes to the nearest multiple of
    [10 ** -ndigits], a tie going to the even one, and the result is the
    float nearest to that multiple, with the sign of [x]. A float of
    magnitude [2 ** 53] or more is an integer, which [round] gives back. *)
Definition round (x : pyfloat) (ndigits : nat) : pyfloat :=
  match x with
  | Finite q =>
      if Qle_bool (inject_Z (2 ^ 53)) (Qabs q) then x
      else
        let p := scale ndigits in
        match nearest_int (Qnum q * Zpos p) (Qden q) with
        | Z0 => zero (Qnum q <? 0)%Z
        | Zpos n => rounded false n p
        | Zneg n => rounded true n p
        end
  | NegZero => NegZero
  | Infinity s => Infinity s
  end.

(** A float of magnitude at most [hi]. *)
Definition within (hi : Z) (x : pyfloat) : Prop :=
  match x with
  | Finite q => (- inject_Z hi <= q)%Q /\ (q <= inject_Z hi)%Q
  | NegZero => True
  | Infinity _ => False
  end.

(** The number a value denotes, when it denotes one. *)
Definition value (v : pyval) : option Q :=
  match v with
  | VInt z => Some (inject_Z z)
  | VFloat (Finite q) => Some q
  | VFloat NegZero => Some 0%Q
  | VFloat (Infinity _) => None
  | VBool b => Some (inject_Z (if b then 1 else 0))
  | _ => None
  end.

End PyNum.

(** Truth value of a value, as [if v:] and [not v] take it. *)
Definition py_truthy (v : pyval) : bool :=
  match v with
  | VBool b => b
  | VInt z => negb (z =? 0)%Z
  | VFloat (Finite q) => negb (Qnum q =? 0)%Z
  | VFloat NegZero => false
  | VFloat (Infinity _) => true
  | VStr s => negb (PyStr.is_empty s)
  | VList l => match l with [] => false | _ :: _ => true end
  | VDict d => PyDict.truthy d
  end.

(** ** The probe: [check_link] *)

(** What the server answered: the status and the seconds the answer took,
    the float that [total_seconds()] gives. *)
Record response : Type := Response { status : Z; elapsed : Q }.

(** What one HEAD request does: it gives a response or raises. *)
Abbreviation outcome := (res response).

Definition working_statuses : list Z := [200; 301; 302; 403].

(** [x in l] on ints. *)
Definition int_in (x : Z) (l : list Z) : bool := existsb (Z.eqb x) l.

Definition check_link (url : string) (timeout : Z) (net : outcome) : res pydict :=
  try_except
    (resp ← net;
     let response_time := elapsed resp in
     let is_working := int_in (status resp) working_statuses in
     Ret [ ("url", VStr url);
           ("working", VBool is_working);
           ("status_code", VInt (status resp));
           ("response_time", VFloat (PyNum.round (Finite response_time) 2)) ])
    [ (ExceptTimeoutError, fun _ =>
         Ret [ ("url", VStr url);
               ("working", VBool false);
               ("status_code", VInt 0);
               ("error", VStr "Timeout");
               ("response_time", VInt timeout) ]);
      (ExceptException, fun e =>
         Ret [ ("url", VStr url);
               ("working", VBool false);
               ("status_code", VInt 0);
               ("error", VStr (PyStr.take 50 (exn_str e)));
               ("response_time", VInt 0) ]) ].

(** A ProbeResult with its four mandatory fields, each of its type. *)
Definition populated (url : string) (d : pydict) : Prop :=
  PyDict.get "url" d = Some (VStr url)
  /\ (exists b, PyDict.get "working" d = Some (VBool b))
  /\ (exists n, PyDict.get "status_code" d = Some (VInt n))
  /\ (exists t, PyDict.get "response_time" d = Some t /\ PyNum.value t <> None).

(** ** The analyzer and its methods *)

(** The attributes of a [PlaylistAnalyzer]. *)
Record analyzer : Type := Analyzer {
  channels : list sdict;
  total_channels : Z;
  working_channels : Z;
  dead_channels : Z;
  checked_channels : list pydict
}.

(** [__init__] *)
Definition init : analyzer :=
  {| channels := []; total_channels := 0; working_channels := 0;
     dead_channels := 0; checked_channels := [] |}.

(** A method reads and writes the attributes of [self], and returns or
    raises. *)
Definition method (A : Type) : Type := analyzer -> res (A * analyzer).

#[export] Instance method_ret : MRet method := fun A a self => Ret (a, self).

#[export] Instance method_bind : MBind method := fun A B k m self =>
  match m self with
  | Ret (a, self') => k a self'
  | Raise e => Raise e
  end.

(** [self.f] *)
Definition read {A : Type} (f : analyzer -> A) : method A :=
  fun self => Ret (f self, self).

(** An assignment to attributes of [self]. *)
Definition write (f : analyzer -> analyzer) : method unit :=
  fun self => Ret (tt, f self).

(** A computation that does not touch [self]. *)
Definition lift {A : Type} (m : res A) : method A :=
  fun self => match m with Ret a => Ret (a, self) | Raise e => Raise e end.

Definition set_channels (v : list sdict) (self : analyzer) : analyzer :=
  {| channels := v; total_channels := total_channels self;
     working_channels := working_channels self;
     dead_channels := dead_channels self;
     checked_channels := checked_channels self |}.

Definition set_total_channels (v : Z) (self : analyzer) : analyzer :=
  {| channels := channels self; total_channels := v;
     working_channels := working_channels self;
     dead_channels := dead_channels self;
     checked_channels := checked_channels self |}.

Definition set_working_channels (v : Z) (self : analyzer) : analyzer :=
  {| channels := channels self; total_channels := total_channels self;
     working_channels := v;
     dead_channels := dead_channels self;
     checked_channels := checked_channels self |}.

Definition set_dead_channels (v : Z) (self : analyzer) : analyzer :=
  {| channels := channels self; total_channels := total_channels self;
     working_channels := working_channels self;
     dead_channels := v;
     checked_channels := checked_channels self |}.

Definition set_checked_channels (v : list pydict) (self : analyzer) : analyzer :=
  {| channels := channels self; total_channels := total_channels self;
     working_channels := working_channels self;
     dead_channels := dead_channels self;
     checked_channels := v |}.

(** [len(l)] *)
Definition len {A : Type} (l : list A) : Z := Z.of_nat (length l).

(** *** [get_basic_stats] *)

(** The counting loop: [categories[group] = categories.get(group, 0) + 1]. *)
Definition count_categories (chans : list sdict) : list (string * Z) :=
  fold_left
    (fun categories channel =>
       let group := PyDict.get_default "group" "Uncategorized" channel in
       PyDict.set group (PyDict.get_default group 0 categories + 1) categories)
    chans [].

(** [sorted(items, key=lambda x: x[1], reverse=True)]: by decreasing count,
    items of equal count in their original order. *)
Fixpoint insert_desc (x : string * Z) (l : list (string * Z)) : list (string * Z) :=
  match l with
  | [] => [x]
  | y :: r => if (snd y <=? snd x)%Z then x :: l else y :: insert_desc x r
  end.

Definition sorted_desc (l : list (string * Z)) : list (string * Z) :=
  fold_right insert_desc [] l.

Definition int_dict (d : list (string * Z)) : pyval :=
  VDict (List.map (fun kv => (fst kv, VInt (snd kv))) d).

Definition get_basic_stats : method pydict :=
  chans ← read channels;
  let categories := count_categories chans in
  let sorted_categories := sorted_desc categories in
  total ← read total_channels;
  mret [ ("total_channels", VInt total);
         ("categories", int_dict sorted_categories);
         ("top_5_categories", int_dict (firstn 5 sorted_categories)) ].

(** *** [parse_m3u] *)

Definition group_title_re : string := "group-title=" ++ String PyStr.dquote "".
Definition tvg_logo_re : string := "tvg-logo=" ++ String PyStr.dquote "".

(** The branch of an [#EXTINF:] line: the new [current_channel] when the
    text after the prefix has a comma, nothing otherwise. *)
Definition parse_extinf (line : string) : option sdict :=
  let info := PyStr.drop 8 line in
  let parts := PyStr.split1 PyStr.comma info in
  match parts with
  | [attributes; rest] =>
      let channel_name := PyStr.strip rest in
      let group :=
        match PyStr.re_search_quoted group_title_re attributes with
        | Some g => g
        | None => "Uncategorized"
        end in
      let logo :=
        match PyStr.re_search_quoted tvg_logo_re attributes with
        | Some g => g
        | None => ""
        end in
      Some [ ("name", channel_name); ("group", group); ("logo", logo);
             ("attributes", attributes) ]
  | _ => None
  end.

Definition is_skipped (line : string) : bool :=
  PyStr.is_empty line || String.eqb line "#EXTM3U".

Definition is_extinf (line : string) : bool :=
  PyStr.startswith "#EXTINF:" line.

Definition is_url (line : string) : bool :=
  PyStr.startswith "http://" line || PyStr.startswith "https://" line.

(** One turn of the loop over the lines, on [current_channel] and
    [self.channels]. *)
Definition parse_line (st : sdict * list sdict) (raw : string)
    : sdict * list sdict :=
  let '(current_channel, chans) := st in
  let line := PyStr.strip raw in
  if is_skipped line then st
  else if is_extinf line then
    match parse_extinf line with
    | Some c => (c, chans)
    | None => st
    end
  else if is_url line then
    if PyDict.truthy current_channel
    then ([], chans ++ [PyDict.set "url" line current_channel])
    else st
  else st.

Definition parse_lines (lines : list string) (st : sdict * list sdict)
    : sdict * list sdict :=
  fold_left parse_line lines st.

(** [content.strip().split('\n')] *)
Definition lines_of (content : string) : list string :=
  PyStr.split PyStr.newline (PyStr.strip content).

(** [parse_m3u(content=content)]; [None] is the default of the parameter. *)
Definition parse_m3u (content : option string) : method pydict :=
  match content with
  | None | Some EmptyString => mret [ ("error", VStr "No content provided") ]
  | Some text =>
      chans ← read channels;
      let '(_, chans') := parse_lines (lines_of text) ([], chans) in
      _ ← write (set_channels chans');
      _ ← write (set_total_channels (len chans'));
      get_basic_stats
  end.

(** *** [get_detailed_report] *)

(** [len(v)] on a value. *)
Definition py_len (v : pyval) : res Z :=
  match v with
  | VStr s => Ret (Z.of_nat (String.length s))
  | VList l => Ret (len l)
  | VDict d => Ret (len d)
  | _ => Raise (Exn OtherException "object has no len()")
  end.

(** [u[:60] + '...' if len(u) > 60 else u]; the url of a checked channel is
    the [str] the probe was given. *)
Definition truncate_url (v : pyval) : res pyval :=
  match v with
  | VStr u =>
      Ret (VStr (if (60 <? Z.of_nat (String.length u))%Z
                 then PyStr.take 60 u ++ "..." else u))
  | _ => Raise (Exn OtherException "url is not a str")
  end.

Definition is_dead (ch : pydict) : bool :=
  negb (py_truthy (PyDict.get_default "working" (VBool false) ch)).

Definition dead_entry (ch : pydict) : res pyval :=
  name ← getitem "name" ch;
  url ← getitem "url" ch;
  shown ← truncate_url url;
  Ret (VDict [ ("name", name);
               ("url", shown);
               ("error", PyDict.get_default "error" (VStr "No response") ch) ]).

(** [health_percentage] *)
Definition health_of (working total : Z) : res pyval :=
  if (total >? 0)%Z
  then
    quotient ← PyNum.truediv working total;
    percentage ← PyNum.mul_int quotient 100;
    Ret (VFloat (PyNum.round percentage 1))
  else Ret (VInt 0).

Definition channel_value (ch : sdict) : pyval := VDict (inject ch).

Definition get_detailed_report : method pydict :=
  stats ← get_basic_stats;
  total ← read total_channels;
  working ← read working_channels;
  health_percentage ← lift (health_of working total);
  stats_total ← lift (getitem "total_channels" stats);
  stats_categories ← lift (getitem "categories" stats);
  total_categories ← lift (py_len stats_categories);
  dead ← read dead_channels;
  checked ← read checked_channels;
  chans ← read channels;
  let report :=
    [ ("summary",
       VDict [ ("total_channels", stats_total);
               ("total_categories", VInt total_categories);
               ("working_channels", VInt working);
               ("dead_channels", VInt dead);
               ("health_percentage", health_percentage);
               ("checked", VBool (len checked >? 0)%Z) ]);
      ("categories", stats_categories);
      ("channels_sample", VList (List.map channel_value (firstn 10 chans))) ] in
  match checked with
  | [] => mret report
  | _ :: _ =>
      dead_list ← lift (for_each dead_entry (List.filter is_dead checked));
      mret (PyDict.set "dead_channels_list" (VList (firstn 10 dead_list)) report)
  end.

(** The report on [self] once its health percentage is [health_percentage]. *)
Definition report_with (health_percentage : pyval) (self : analyzer)
    : res (pydict * analyzer) :=
  let report :=
    [ ("summary",
       VDict [ ("total_channels", VInt (total_channels self));
               ("total_categories",
                VInt (len (List.map (fun kv : string * Z => (fst kv, VInt (snd kv)))
                             (sorted_desc (count_categories (channels self))))));
               ("working_channels", VInt (working_channels self));
               ("dead_channels", VInt (dead_channels self));
               ("health_percentage", health_percentage);
               ("checked", VBool (len (checked_channels self) >? 0)%Z) ]);
      ("categories", int_dict (sorted_desc (count_categories (channels self))));
      ("channels_sample",
       VList (List.map channel_value (firstn 10 (channels self)))) ] in
  match checked_channels self with
  | [] => Ret (report, self)
  | _ :: _ =>
      match for_each dead_entry (List.filter is_dead (checked_channels self)) with
      | Ret dead_list =>
          Ret (PyDict.set "dead_channels_list" (VList (firstn 10 dead_list)) report,
               self)
      | Raise e => Raise e
      end
  end.

(** ** The batch: [check_all_links] *)

(** What [check_with_limit] computes once it holds a slot, the body of
    [async with semaphore]; the probe runs with its default timeout of 5
    seconds. *)
Definition check_with_limit (channel : sdict) (net : outcome) : res pydict :=
  url ← getitem "url" channel;
  result ← check_link url 5 net;
  Ret (PyDict.merge (inject channel) result).

(** The tasks of one [asyncio.gather] over a semaphore. A task waits for a
    slot, holds one while its probe is in flight, and is done with the
    result of its body once it has left [async with], which gives the slot
    back whether the body returned or raised. Tasks are interleaved in any
    order. *)
Module Sched.

Inductive task : Type :=
| Waiting
| InFlight
| Done (r : res pydict).

(** [value] is the counter of the semaphore, [tasks] the tasks in the order
    of [self.channels]. *)
Record state : Type := State { value : nat; tasks : list task }.

(** [asyncio.Semaphore(max_concurrent)] and one task per channel. *)
Definition start (max_concurrent : nat) (chans : list sdict) : state :=
  State max_concurrent (List.map (fun _ => Waiting) chans).

Inductive step (chans : list sdict) (net : nat -> outcome) : state -> state -> Prop :=
| step_acquire (i : nat) (v : nat) (ts : list task) :
    ts !! i = Some Waiting ->
    step chans net (State (S v) ts) (State v (<[i := InFlight]> ts))
| step_release (i : nat) (v : nat) (ts : list task) (ch : sdict) :
    ts !! i = Some InFlight ->
    chans !! i = Some ch ->
    step chans net (State v ts)
      (State (S v) (<[i := Done (check_with_limit ch (net i))]> ts)).

Definition is_in_flight (t : task) : bool :=
  match t with InFlight => true | _ => false end.

Definition is_waiting (t : task) : bool :=
  match t with Waiting => true | _ => false end.

(** The number of probes in flight. *)
Definition in_flight (st : state) : nat :=
  length (List.filter is_in_flight (tasks st)).

Definition waiting (st : state) : nat :=
  length (List.filter is_waiting (tasks st)).

(** What is left to do: two steps for a waiting task, one for a probe in
    flight. *)
Definition remaining (st : state) : nat := 2 * waiting st + in_flight st.

Definition result_of (t : task) : option (res pydict) :=
  match t with Done r => Some r | _ => None end.

(** The results of the tasks in task order, once every task is done. *)
Fixpoint results (ts : list task) : option (list (res pydict)) :=
  match ts with
  | [] => Some []
  | t :: rest =>
      match result_of t, results rest with
      | Some r, Some rs => Some (r :: rs)
      | _, _ => None
      end
  end.

(** [await asyncio.gather] of the tasks, at the barrier: the list of the
    values in task order, or an exception a task raised (of several, the
    model keeps the first in task order). *)
Definition gather (st : state) : option (res (list pydict)) :=
  match results (tasks st) with
  | Some rs => Some (for_each (fun r => r) rs)
  | None => None
  end.

End Sched.

(** [sum(1 for ch in checked if ch.get('working', False))] *)
Definition count_working (checked : list pydict) : Z :=
  len (List.filter
         (fun ch => py_truthy (PyDict.get_default "working" (VBool false) ch))
         checked).

(** The assignments after the barrier and the return. *)
Definition record_checked (checked : list pydict) : method (list pydict) :=
  _ ← write (set_checked_channels checked);
  now_checked ← read checked_channels;
  _ ← write (set_working_channels (count_working now_checked));
  working ← read working_channels;
  _ ← write (set_dead_channels (len now_checked - working));
  read checked_channels.

(** [check_all_links(max_concurrent)] on [self], the network answering the
    probe of task [i] with [net i]: the semaphore refuses a negative
    initial value, and otherwise the call returns from a state in which
    every task is done. *)
Inductive check_all_links (max_concurrent : Z) (net : nat -> outcome)
    (self : analyzer) : res (list pydict * analyzer) -> Prop :=
| check_value_error :
    (max_concurrent < 0)%Z ->
    check_all_links max_concurrent net self
      (Raise (Exn ValueError "Semaphore initial value must be >= 0"))
| check_barrier (st : Sched.state) (r : res (list pydict)) :
    (0 <= max_concurrent)%Z ->
    rtc (Sched.step (channels self) net)
        (Sched.start (Z.to_nat max_concurrent) (channels self)) st ->
    Sched.gather st = Some r ->
    check_all_links max_concurrent net self
      (match r with
       | Ret checked => record_checked checked self
       | Raise e => Raise e
       end).

(** The probes of all channels, each with the answer of its own task. *)
Definition probe_all (chans : list sdict) (net : nat -> outcome)
    : list (res pydict) :=
  imap (fun i ch => check_with_limit ch (net i)) chans.

(** A ChannelRecord carries a url. *)
Definition has_url (ch : sdict) : Prop := PyDict.get "url" ch <> None.

(** The keys a probe result may carry. *)
Definition probe_keys : list string :=
  ["url"; "working"; "status_code"; "error"; "response_time"].

(** ** The states of an analyzer in use *)

(** The states the methods lead to from a new analyzer. *)
Inductive reachable : analyzer -> Prop :=
| reach_init : reachable init
| reach_parse self content r self' :
    reachable self ->
    parse_m3u content self = Ret (r, self') ->
    reachable self'
| reach_check self max_concurrent net checked self' :
    reachable self ->
    check_all_links max_concurrent net self (Ret (checked, self')) ->
    reachable self'
| reach_stats self r self' :
    reachable self ->
    get_basic_stats self = Ret (r, self') ->
    reachable self'
| reach_report self r self' :
    reachable self ->
    get_detailed_report self = Ret (r, self') ->
    reachable self'.

Definition channel_ok (ch : sdict) : Prop :=
  PyDict.get "name" ch <> None /\ PyDict.get "url" ch <> None.

Definition checked_ok (ch : pydict) : Prop :=
  PyDict.get "name" ch <> None /\ exists u, PyDict.get "url" ch = Some (VStr u).

(** What holds of every state in use. *)
Record consistent (self : analyzer) : Prop := Consistent {
  total_is_len : total_channels self = len (channels self);
  channels_ok : Forall channel_ok (channels self);
  checked_are_ok : Forall checked_ok (checked_channels self);
  checked_le : (length (checked_channels self) <= length (channels self))%nat;
  working_is_count : working_channels self = count_working (checked_channels self);
  dead_is_rest :
    dead_channels self = (len (checked_channels self) - working_channels self)%Z
}.

(** ** What the parser emits *)

(** The records one [parse_m3u] of [text] appends to [self.channels]. *)
Definition emitted (text : string) : list sdict :=
  snd (parse_lines (lines_of text) ([], [])).

(** The lines the loop does not skip, stripped. *)
Definition seen (lines : list string) : list string :=
  List.filter (fun l => negb (is_skipped l)) (List.map PyStr.strip lines).

Definition seen_lines (text : string) : list string := seen (lines_of text).

(** The [current_channel] a line sets: that of an [#EXTINF:] line with a
    comma. *)
Definition metadata_of (line : string) : option sdict :=
  if is_extinf line then parse_extinf line else None.

(** A line that neither sets [current_channel] nor is a URL line. *)
Definition idle (line : string) : Prop :=
  metadata_of line = None /\ is_url line = false.

(** [ch] is the metadata of a line [m] completed with the URL line [u] as
    its url, only idle lines standing between [m] and [u]. *)
Definition explained (ls : list string) (ch : sdict) : Prop :=
  exists before m c between u after,
    ls = before ++ m :: between ++ u :: after
    /\ metadata_of m = Some c
    /\ Forall idle between
    /\ is_url u = true
    /\ ch = PyDict.set "url" u c.

(** [cur] is empty, or the metadata of a line after which only idle lines
    came. *)
Definition pending (ls : list string) (cur : sdict) : Prop :=
  cur = [] \/
  exists before m between,
    ls = before ++ m :: between
    /\ metadata_of m = Some cur
    /\ Forall idle between.

(** Every task that is done holds the result of the body on its own channel
    and its own answer. *)
Definition done_right (chans : list sdict) (net : nat -> outcome)
    (st : Sched.state) : Prop :=
  forall i r, Sched.tasks st !! i = Some (Sched.Done r) ->
    exists ch, chans !! i = Some ch /\ r = check_with_limit ch (net i).

(** ** The statements under study *)

(** A field of the summary of a report. *)
Definition summary_field (k : string) (report : pydict) : option pyval :=
  match PyDict.get "summary" report with
  | Some (VDict summary) => PyDict.get k summary
  | _ => None
  end.

(** Two reports in a row on the same analyzer. *)
Definition report_twice : method (pydict * pydict) :=
  first ← get_detailed_report;
  second ← get_detailed_report;
  mret (first, second).

(** "healthPercentage is 0 if and only if the total channel count is 0". *)
Definition health_zero_only_without_channels (self : analyzer) : Prop :=
  forall report h q,
    get_detailed_report self = Ret (report, self) ->
    summary_field "health_percentage" report = Some h ->
    PyNum.value h = Some q ->
    (q == 0)%Q <-> total_channels self = 0.

(** "the Report omits the health and dead-list fields entirely and
    summary.checked is false". *)
Definition unchecked_report_omits_health (self : analyzer) : Prop :=
  checked_channels self = [] ->
  forall report,
    get_detailed_report self = Ret (report, self) ->
    PyDict.get "dead_channels_list" report = None
    /\ summary_field "health_percentage" report = None
    /\ summary_field "working_channels" report = None
    /\ summary_field "dead_channels" report = None
    /\ summary_field "checked" report = Some (VBool false).

(** "a record only when an #EXTINF: line is immediately followed by a URL
    line": the url of the record is a URL line that comes right after a
    metadata line, among the lines the parser does not skip. *)
Definition adjacent (ls : list string) (ch : sdict) : Prop :=
  exists before m u after,
    ls = before ++ m :: u :: after
    /\ is_extinf m = true
    /\ is_url u = true
    /\ PyDict.get "url" ch = Some u.

Definition emitted_only_when_adjacent (text : string) : Prop :=
  Forall (adjacent (seen_lines text)) (emitted text).

(** ** Sample inputs *)

Definition nl : string := String PyStr.newline "".

Definition one_channel_playlist : string :=
  "#EXTM3U" ++ nl ++ "#EXTINF:-1,News" ++ nl ++ "http://a.example/live".

Definition playlist_with_option_line : string :=
  "#EXTINF:-1,News" ++ nl ++ "#EXTVLCOPT:network-caching=1000" ++ nl
  ++ "http://a.example/live".

Definition twin_playlist : string :=
  "#EXTINF:-1,One" ++ nl ++ "http://a.example/live" ++ nl
  ++ "#EXTINF:-1,Two" ++ nl ++ "http://a.example/live".

Definition news_channel : sdict :=
  [ ("name", "News"); ("group", "Uncategorized"); ("logo", "");
    ("attributes", "-1"); ("url", "http://a.example/live") ].

(** The analyzer after [parse_m3u] of the one channel playlist. *)
Definition parsed_one : analyzer :=
  {| channels := [news_channel]; total_channels := 1; working_channels := 0;
     dead_channels := 0; checked_channels := [] |}.

(** A network on which every request times out. *)
Definition all_time_out : nat -> outcome :=
  fun _ => Raise (Exn AsyncioTimeoutError "").

Definition timed_out_news : pydict :=
  [ ("name", VStr "News"); ("group", VStr "Uncategorized"); ("logo", VStr "");
    ("attributes", VStr "-1"); ("url", VStr "http://a.example/live");
    ("working", VBool false); ("status_code", VInt 0);
    ("error", VStr "Timeout"); ("response_time", VInt 5) ].

(** The analyzer after [check_all_links] on that network. *)
Definition checked_one : analyzer :=
  {| channels := [news_channel]; total_channels := 1; working_channels := 0;
     dead_channels := 1; checked_channels := [timed_out_news] |}.

(** The analyzer after [parse_m3u] of the playlist whose two channels share
    one url. *)
Definition twin_parsed : analyzer :=
  match parse_m3u (Some twin_playlist) init with
  | Ret (_, self) => self
  | Raise _ => init
  end.

(** ** The rest of the analyzer: files, [analyze_playlist] and the endpoint *)

(** The file system: the text that reading a path gives. *)
Abbreviation files := (list (string * string)).

(** What reading makes of the bytes of a file. *)
Module PyFile.

#[local] Open Scope N_scope.

(** A byte [10xxxxxx]. *)
Definition is_continuation (b : N) : bool := (128 <=? b) && (b <? 192).

(** The low [bits] bits of a byte. *)
Definition low (bits : N) (b : N) : N := N.land b (N.ones bits).

(** [bytes.decode('utf-8', errors='ignore')], on the values of the bytes and
    to code points: a byte that starts no sequence is dropped; a sequence
    cut by a byte that does not continue it is dropped up to that byte; a
    sequence cut by the end of the data is dropped. The second byte decides
    on the sequences that are too long for their code point, on the
    surrogates and on the code points above [10FFFF]. *)
Fixpoint utf8_decode (bs : list N) : list N :=
  match bs with
  | [] => []
  | b0 :: rest =>
      if b0 <? 128 then b0 :: utf8_decode rest
      else if b0 <? 194 then utf8_decode rest
      else if b0 <? 224 then
        match rest with
        | [] => []
        | b1 :: rest1 =>
            if is_continuation b1
            then N.lor (N.shiftl (low 5 b0) 6) (low 6 b1) :: utf8_decode rest1
            else utf8_decode rest
        end
      else if b0 <? 240 then
        match rest with
        | [] => []
        | b1 :: rest1 =>
            if negb (is_continuation b1)
               || (b0 =? 224) && (b1 <? 160)
               || (b0 =? 237) && (160 <=? b1)
            then utf8_decode rest
            else
              match rest1 with
              | [] => []
              | b2 :: rest2 =>
                  if is_continuation b2
                  then N.lor (N.shiftl (low 4 b0) 12)
                         (N.lor (N.shiftl (low 6 b1) 6) (low 6 b2))
                       :: utf8_decode rest2
                  else utf8_decode rest1
              end
        end
      else if b0 <? 245 then
        match rest with
        | [] => []
        | b1 :: rest1 =>
            if negb (is_continuation b1)
               || (b0 =? 240) && (b1 <? 144)
               || (b0 =? 244) && (144 <=? b1)
            then utf8_decode rest
            else
              match rest1 with
              | [] => []
              | b2 :: rest2 =>
                  if negb (is_continuation b2) then utf8_decode rest1
                  else
                    match rest2 with
                    | [] => []
                    | b3 :: rest3 =>
                        if is_continuation b3
                        then N.lor (N.shiftl (low 3 b0) 18)
                               (N.lor (N.shiftl (low 6 b1) 12)
                                  (N.lor (N.shiftl (low 6 b2) 6) (low 6 b3)))
                             :: utf8_decode rest3
                        else utf8_decode rest2
                    end
              end
        end
      else utf8_decode rest
  end.

(** The translation of line ends of a file opened in text mode: a carriage
    return with the line feed after it, or alone, is read as a line feed. *)
Fixpoint universal_newlines (cs : list N) : list N :=
  match cs with
  | [] => []
  | c :: rest =>
      if c =? 13 then
        10 :: match rest with
              | c' :: rest' =>
                  if c' =? 10 then universal_newlines rest'
                  else universal_newlines rest
              | [] => []
              end
      else c :: universal_newlines rest
  end.

(** Code points as a [string], when each of them is below 256. *)
Fixpoint to_str (cs : list N) : option string :=
  match cs with
  | [] => Some EmptyString
  | c :: rest =>
      if c <? 256
      then match to_str rest with
           | Some s => Some (String (ascii_of_N c) s)
           | None => None
           end
      else None
  end.

(** [open(path, 'r', encoding='utf-8', errors='ignore').read()] on a file
    of the given bytes. *)
Definition read_text (content : list Byte.byte) : option string :=
  to_str (universal_newlines (utf8_decode (List.map Byte.to_N content))).

End PyFile.

(** [open(path, 'r', encoding='utf-8', errors='ignore').read()] *)
Definition read_file (path : string) (fs : files) : res string :=
  match PyDict.get path fs with
  | Some text => Ret text
  | None => Raise (Exn OtherException "No such file or directory")
  end.

(** [parse_m3u(file_path, content)]: a non-empty path replaces [content] by
    the text of the file. *)
Definition parse_m3u_file (fs : files) (file_path content : option string)
    : method pydict :=
  match file_path with
  | Some path =>
      if PyStr.is_empty path then parse_m3u content
      else text ← lift (read_file path fs); parse_m3u (Some text)
  | None => parse_m3u content
  end.

(** The value a method returns, without the analyzer. *)
Definition returned {A : Type} (r : res (A * analyzer)) : res A :=
  match r with
  | Ret (a, _) => Ret a
  | Raise e => Raise e
  end.

(** [analyze_playlist(file_path, check_links)] with the files [fs] and the
    network [net]: a new analyzer parses the file, checks the links with the
    default of 20 slots when asked to and when there is a channel, and
    reports. *)
Inductive analyze_playlist (fs : files) (net : nat -> outcome)
    (file_path : string) (check_links : bool) : res pydict -> Prop :=
| analyze_unreadable e :
    parse_m3u_file fs (Some file_path) None init = Raise e ->
    analyze_playlist fs net file_path check_links (Raise e)
| analyze_unchecked stats analyzer :
    parse_m3u_file fs (Some file_path) None init = Ret (stats, analyzer) ->
    check_links && (total_channels analyzer >? 0) = false ->
    analyze_playlist fs net file_path check_links
      (returned (get_detailed_report analyzer))
| analyze_checked stats analyzer r :
    parse_m3u_file fs (Some file_path) None init = Ret (stats, analyzer) ->
    check_links && (total_channels analyzer >? 0) = true ->
    check_all_links 20 net analyzer r ->
    analyze_playlist fs net file_path check_links
      (match r with
       | Ret (_, analyzer') => returned (get_detailed_report analyzer')
       | Raise e => Raise e
       end).

(** [analyze_playlist_sync]: [asyncio.run] of [analyze_playlist]. *)
Definition analyze_playlist_sync := analyze_playlist.

(** The endpoint of [api.py]. *)
Module Api.

(** What a view returns: the JSON body and the status. *)
Record http_response : Type := Http { http_body : pyval; http_status : Z }.

(** [os.remove(path)] *)
Fixpoint without (path : string) (fs : files) : files :=
  match fs with
  | [] => []
  | (p, text) :: rest =>
      if String.eqb path p then without path rest else (p, text) :: without path rest
  end.

Definition os_remove (path : string) (fs : files) : res files :=
  match PyDict.get path fs with
  | Some _ => Ret (without path fs)
  | None => Raise (Exn OtherException "No such file or directory")
  end.

(** The files of a request: the bytes uploaded under each name. *)
Abbreviation uploads := (list (string * list Byte.byte)).

(** [file.save(path)]: the bytes of the upload become the file, which then
    reads as [PyFile.read_text] has it. An upload whose text has a character
    that is no character of [string] is outside the model. *)
Definition save (upload : list Byte.byte) (path : string) (fs : files)
    : option files :=
  match PyFile.read_text upload with
  | Some text => Some (PyDict.set path text fs)
  | None => None
  end.

(** [analyze()] on the uploaded files [request_files]: the response and the
    files it leaves. *)
Inductive analyze (request_files : uploads) (fs : files) (net : nat -> outcome)
    : res (http_response * files) -> Prop :=
| analyze_no_playlist :
    PyDict.get "playlist" request_files = None ->
    analyze request_files fs net
      (Ret (Http (VDict [ ("error", VStr "No playlist file") ]) 400, fs))
| analyze_playlist_file upload saved r :
    PyDict.get "playlist" request_files = Some upload ->
    save upload "temp.m3u" fs = Some saved ->
    analyze_playlist_sync saved net "temp.m3u" true r ->
    analyze request_files fs net
      (match r with
       | Ret report =>
           match os_remove "temp.m3u" saved with
           | Ret fs' => Ret (Http (VDict report) 200, fs')
           | Raise e => Raise e
           end
       | Raise e => Raise e
       end).

End Api.

(** ** Measures used in the properties *)

(** [s.isspace()] or [s == ''] : nothing but whitespace. *)
Fixpoint blank (s : string) : bool :=
  match s with
  | EmptyString => true
  | String c r => PyStr.isspace c && blank r
  end.

(** No double quote in [s]. *)
Fixpoint quote_free (s : string) : bool :=
  match s with
  | EmptyString => true
  | String c r => negb (Ascii.eqb c PyStr.dquote) && quote_free r
  end.

(** [channel.get('group', 'Uncategorized')] *)
Definition group_of (channel : sdict) : string :=
  PyDict.get_default "group" "Uncategorized" channel.

(** The number of channels of group [g]. *)
Definition occurrences (g : string) (chans : list sdict) : Z :=
  len (List.filter (fun ch => String.eqb (group_of ch) g) chans).

(** The sum of the counts of a histogram. *)
Definition total_count (d : list (string * Z)) : Z :=
  fold_right (fun kv acc => snd kv + acc) 0 d.

(** The answer of a request counts as working. *)
Definition answer_ok (o : outcome) : bool :=
  match o with
  | Ret resp => int_in (status resp) working_statuses
  | Raise _ => false
  end.

(** The entries of a list value. *)
Definition list_field (k : string) (d : pydict) : option (list pyval) :=
  match PyDict.get k d with
  | Some (VList l) => Some l
  | _ => None
  end.

(** The length of a string value. *)
Definition str_length (v : pyval) : option nat :=
  match v with
  | VStr s => Some (String.length s)
  | _ => None
  end.

(** [g] is what the pattern made of [lit], a run without double quote and a
    double quote extracts from [a], or [dflt] when [a] has no match. *)
Definition extracted (lit dflt a g : string) : Prop :=
  (quote_free g = true
   /\ exists pre post, a = (pre ++ lit ++ g ++ String PyStr.dquote post)%string)
  \/ (g = dflt
      /\ forall pre x post,
           a <> (pre ++ lit ++ x ++ String PyStr.dquote post)%string).

(** No comma in [s]. *)
Fixpoint comma_free (s : string) : bool :=
  match s with
  | EmptyString => true
  | String c r => negb (Ascii.eqb c PyStr.comma) && comma_free r
  end.

(** A line that sets [current_channel]. *)
Definition is_metadata (line : string) : bool :=
  match metadata_of line with Some _ => true | None => false end.

(** The counting loop of [get_basic_stats] from a histogram [acc]. *)
Definition count_into (acc : list (string * Z)) (chans : list sdict)
    : list (string * Z) :=
  fold_left
    (fun categories channel =>
       let group := PyDict.get_default "group" "Uncategorized" channel in
       PyDict.set group (PyDict.get_default group 0 categories + 1) categories)
    chans acc.

(** [a] comes before [b] in the order of the sort: its count is not smaller. *)
Definition count_ge (a b : string * Z) : Prop := snd b <= snd a.

(** An upload whose two lines are parted by a lone carriage return, and the
    text its file reads as. *)
Definition carriage_return_upload : list Byte.byte :=
  String.list_byte_of_string
    ("#EXTINF:-1,News" ++ String (ascii_of_nat 13) "" ++ "http://a.example/live").

Definition playlist_text : string :=
  "#EXTINF:-1,News" ++ nl ++ "http://a.example/live".

(** A network on which every request is answered with status 200. *)
Definition all_ok : nat -> outcome :=
  fun _ => Ret (Response 200 (1 # 4)).

Definition live_news : pydict :=
  [ ("name", VStr "News"); ("group", VStr "Uncategorized"); ("logo", VStr "");
    ("attributes", VStr "-1"); ("url", VStr "http://a.example/live");
    ("working", VBool true); ("status_code", VInt 200);
    ("response_time", VFloat (Finite (1 # 4))) ].

(** The analyzer after [check_all_links] on that network. *)
Definition live_one : analyzer :=
  {| channels := [news_channel]; total_channels := 1; working_channels := 1;
     dead_channels := 0; checked_channels := [live_news] |}.

(** * Properties *)

(** ** Runs of the batch *)

Module SchedFacts.
Import Sched.

Section Run.
Variable chans : list sdict.
Variable net : nat -> outcome.

Lemma filter_insert_count (p : task -> bool) (ts : list task) i x y :
  ts !! i = Some x ->
  (length (List.filter p (<[i := y]> ts)) + (if p x then 1 else 0)
   = length (List.filter p ts) + (if p y then 1 else 0))%nat.
Proof.
  revert i; induction ts as [|t ts IH]; intros [|i] H; simpl in *; try discriminate.
  - injection H as ->. destruct (p x), (p y); simpl; lia.
  - specialize (IH i H). destruct (p t); simpl; lia.
Qed.

Lemma step_length st st' :
  step chans net st st' -> length (tasks st') = length (tasks st).
Proof. intros []; simpl; apply length_insert. Qed.

Lemma step_slots st st' :
  step chans net st st' ->
  (value st' + in_flight st' = value st + in_flight st)%nat.
Proof.
  intros [i v ts Hi|i v ts ch Hi Hc]; unfold in_flight; simpl.
  - pose proof (filter_insert_count is_in_flight ts i _ InFlight Hi) as E.
    simpl in E. lia.
  - pose proof (filter_insert_count is_in_flight ts i _
                  (Done (check_with_limit ch (net i))) Hi) as E.
    simpl in E. lia.
Qed.

Lemma step_remaining st st' :
  step chans net st st' -> (S (remaining st') = remaining st)%nat.
Proof.
  intros [i v ts Hi|i v ts ch Hi Hc]; unfold remaining, in_flight, waiting; simpl.
  - pose proof (filter_insert_count is_in_flight ts i _ InFlight Hi) as E1.
    pose proof (filter_insert_count is_waiting ts i _ InFlight Hi) as E2.
    simpl in *. lia.
  - pose proof (filter_insert_count is_in_flight ts i _
                  (Done (check_with_limit ch (net i))) Hi) as E1.
    pose proof (filter_insert_count is_waiting ts i _
                  (Done (check_with_limit ch (net i))) Hi) as E2.
    simpl in *. lia.
Qed.


Lemma step_done_right st st' :
  step chans net st st' -> done_right chans net st -> done_right chans net st'.
Proof.
  intros [i v ts Hi|i v ts ch Hi Hc] H j r; simpl in *.
  - destruct (decide (i = j)) as [->|Hne].
    + rewrite list_lookup_insert_eq by (eapply lookup_lt_Some; eauto). discriminate.
    + rewrite list_lookup_insert_ne by done. apply H.
  - destruct (decide (i = j)) as [->|Hne].
    + rewrite list_lookup_insert_eq by (eapply lookup_lt_Some; eauto).
      intros [= <-]. eauto.
    + rewrite list_lookup_insert_ne by done. apply H.
Qed.

Lemma start_in_flight n : in_flight (start n chans) = 0%nat.
Proof. unfold in_flight, start; simpl. induction chans; simpl; auto. Qed.

Lemma run_invariant n st :
  rtc (step chans net) (start n chans) st ->
  (value st + in_flight st = n)%nat
  /\ length (tasks st) = length chans
  /\ done_right chans net st.
Proof.
  intros H. revert st H.
  apply (rtc_ind_r (fun st =>
           (value st + in_flight st = n)%nat
           /\ length (tasks st) = length chans
           /\ done_right chans net st)).
  - rewrite start_in_flight. simpl. split; [lia|]. split.
    + apply length_map.
    + intros i r. unfold start; simpl. rewrite list_lookup_fmap.
      destruct (chans !! i); discriminate.
  - intros y z _ Hs (I1 & I2 & I3). split; [|split].
    + rewrite (step_slots _ _ Hs). exact I1.
    + rewrite (step_length _ _ Hs). exact I2.
    + eapply step_done_right; eauto.
Qed.

Lemma results_all_done ts rs : results ts = Some rs -> ts = List.map Done rs.
Proof.
  revert rs; induction ts as [|t ts IH]; intros rs; simpl.
  - intros [= <-]. reflexivity.
  - destruct t as [| |r]; simpl; try discriminate.
    destruct (results ts) as [rs'|]; try discriminate.
    intros [= <-]. simpl. f_equal. auto.
Qed.

Lemma results_probe_all n st rs :
  rtc (step chans net) (start n chans) st ->
  results (tasks st) = Some rs -> rs = probe_all chans net.
Proof.
  intros Hrun Hres. destruct (run_invariant n st Hrun) as (_ & Hlen & Hdone).
  apply results_all_done in Hres.
  apply list_eq. intros i. unfold probe_all. rewrite list_lookup_imap.
  destruct (rs !! i) as [r|] eqn:Hr.
  - assert (tasks st !! i = Some (Done r)) as Ht.
    { rewrite Hres, list_lookup_fmap, Hr. reflexivity. }
    destruct (Hdone i r Ht) as (ch & Hch & ->). rewrite Hch. reflexivity.
  - apply lookup_ge_None in Hr.
    assert (length chans <= i)%nat as Hge.
    { rewrite <- Hlen, Hres, length_map. exact Hr. }
    apply lookup_ge_None in Hge. rewrite Hge. reflexivity.
Qed.

Lemma gather_probe_all n st r :
  rtc (step chans net) (start n chans) st ->
  gather st = Some r -> r = for_each (fun x => x) (probe_all chans net).
Proof.
  intros Hrun. unfold gather. destruct (results (tasks st)) as [rs|] eqn:E;
    [|discriminate].
  intros [= <-]. f_equal. eapply results_probe_all; eauto.
Qed.

Lemma filter_pos (p : task -> bool) ts :
  (0 < length (List.filter p ts))%nat -> exists i t, ts !! i = Some t /\ p t = true.
Proof.
  induction ts as [|t ts IH]; simpl; [lia|].
  destruct (p t) eqn:E.
  - intros _. exists 0%nat, t. auto.
  - intros H. destruct (IH H) as (i & t' & Hi & Hp). exists (S i), t'. auto.
Qed.

Lemma can_step n st :
  (0 < n)%nat ->
  (value st + in_flight st = n)%nat ->
  length (tasks st) = length chans ->
  (0 < remaining st)%nat ->
  exists st', step chans net st st'.
Proof.
  intros Hn Hv Hlen Hrem. destruct st as [v ts]; simpl in *.
  destruct (Nat.eq_dec (in_flight (State v ts)) 0%nat) as [Hz|Hnz].
  - unfold remaining in Hrem. rewrite Hz in Hrem.
    destruct (filter_pos is_waiting ts) as (i & t & Hi & Hp).
    { unfold waiting in Hrem; simpl in Hrem. lia. }
    destruct t; try discriminate.
    rewrite Hz in Hv. destruct v as [|v]; [lia|].
    eexists. apply step_acquire. exact Hi.
  - destruct (filter_pos is_in_flight ts) as (i & t & Hi & Hp).
    { unfold in_flight in Hnz; simpl in Hnz. lia. }
    destruct t; try discriminate.
    destruct (chans !! i) as [ch|] eqn:Hc.
    + eexists. eapply step_release; eauto.
    + apply lookup_ge_None in Hc. apply lookup_lt_Some in Hi. lia.
Qed.

Lemma reaches_barrier n st :
  (0 < n)%nat ->
  rtc (step chans net) (start n chans) st ->
  exists st', rtc (step chans net) st st' /\ remaining st' = 0%nat.
Proof.
  intros Hn. remember (remaining st) as k eqn:Hk. revert st Hk.
  induction k as [|k IH]; intros st Hk Hrun.
  - exists st. split; [apply rtc_refl|auto].
  - destruct (run_invariant n st Hrun) as (Hv & Hlen & _).
    destruct (can_step n st Hn Hv Hlen) as [st1 Hs]; [lia|].
    pose proof (step_remaining _ _ Hs) as Hr.
    destruct (IH st1) as (st' & Hrun' & Hz); [lia|eapply rtc_r; eauto|].
    exists st'. split; [eapply rtc_l; eauto|exact Hz].
Qed.

Lemma remaining_zero_results_aux ts :
  (2 * length (List.filter is_waiting ts)
   + length (List.filter is_in_flight ts) = 0)%nat ->
  exists rs, results ts = Some rs.
Proof.
  unfold remaining, waiting, in_flight; simpl.
  induction ts as [|t ts IH]; simpl; [eauto|].
  destruct t as [| |r]; simpl; try lia.
  intros H. destruct (IH H) as [rs ->]. eauto.
Qed.

Lemma remaining_zero_results st :
  remaining st = 0%nat -> exists rs, results (tasks st) = Some rs.
Proof.
  destruct st as [v ts]. intros H. apply remaining_zero_results_aux. exact H.
Qed.
End Run.
End SchedFacts.

Lemma for_each_imap {A : Type} (f : nat -> A -> res pydict) (l : list A) :
  (forall i x, l !! i = Some x -> exists y, f i x = Ret y) ->
  exists ys, for_each (fun r => r) (imap f l) = Ret ys
    /\ length ys = length l
    /\ forall i x, l !! i = Some x -> exists y, f i x = Ret y /\ ys !! i = Some y.
Proof.
  revert f; induction l as [|a l IH]; intros f H; simpl.
  - exists []. repeat split; auto. intros i x Hx. destruct i; discriminate.
  - destruct (H 0%nat a eq_refl) as [y Hy].
    destruct (IH (f ∘ S)) as (ys & E & Hlen & Hys).
    { intros i x Hx. apply (H (S i) x Hx). }
    exists (y :: ys). rewrite Hy. simpl. rewrite E. simpl.
    repeat split; [simpl; lia|].
    intros [|i] x Hx; simpl in *.
    + injection Hx as <-. eauto.
    + apply Hys. exact Hx.
Qed.

Lemma check_link_ret url timeout (net : outcome) :
  exists d, check_link url timeout net = Ret d.
Proof. destruct net as [[st el]|[c msg]]; [|destruct c]; eexists; reflexivity. Qed.

Lemma body_returns ch (o : outcome) :
  has_url ch ->
  exists url result,
    PyDict.get "url" ch = Some url
    /\ check_link url 5 o = Ret result
    /\ check_with_limit ch o = Ret (PyDict.merge (inject ch) result).
Proof.
  unfold has_url, check_with_limit, getitem. intros H.
  destruct (PyDict.get "url" ch) as [url|]; [|congruence].
  destruct (check_link_ret url 5 o) as [d Hd].
  exists url, d. repeat split; auto. simpl. rewrite Hd. reflexivity.
Qed.

Lemma probe_all_returns chans net :
  Forall has_url chans ->
  exists checked,
    for_each (fun r => r) (probe_all chans net) = Ret checked
    /\ length checked = length chans
    /\ forall i ch, chans !! i = Some ch ->
         exists url result,
           PyDict.get "url" ch = Some url
           /\ check_link url 5 (net i) = Ret result
           /\ checked !! i = Some (PyDict.merge (inject ch) result).
Proof.
  intros Hall. unfold probe_all.
  destruct (for_each_imap (fun i ch => check_with_limit ch (net i)) chans)
    as (ys & E & Hlen & Hys).
  { intros i ch Hi. destruct (body_returns ch (net i)) as (u & d & _ & _ & Hb).
    - eapply Forall_lookup_1; eauto.
    - eauto. }
  exists ys. repeat split; auto.
  intros i ch Hi. destruct (Hys i ch Hi) as (y & Hy & Hyi).
  destruct (body_returns ch (net i)) as (u & d & Hu & Hd & Hb).
  { eapply Forall_lookup_1; eauto. }
  exists u, d. repeat split; auto. congruence.
Qed.

Lemma record_checked_eq checked self :
  record_checked checked self =
  Ret (checked,
       {| channels := channels self; total_channels := total_channels self;
          working_channels := count_working checked;
          dead_channels := len checked - count_working checked;
          checked_channels := checked |}).
Proof. reflexivity. Qed.

Lemma check_all_links_exists max_concurrent net self :
  0 < max_concurrent ->
  Forall has_url (channels self) ->
  exists checked self',
    check_all_links max_concurrent net self (Ret (checked, self')).
Proof.
  intros Hmax Hurl.
  destruct (SchedFacts.reaches_barrier (channels self) net (Z.to_nat max_concurrent)
              (Sched.start (Z.to_nat max_concurrent) (channels self)))
    as (st & Hrun & Hz); [lia|apply rtc_refl|].
  destruct (SchedFacts.remaining_zero_results st Hz) as [rs Hrs].
  assert (Sched.gather st = Some (for_each (fun r => r) rs)) as Hg.
  { unfold Sched.gather. rewrite Hrs. reflexivity. }
  pose proof (SchedFacts.gather_probe_all _ _ _ _ _ Hrun Hg) as E.
  destruct (probe_all_returns (channels self) net Hurl) as (checked & Hc & _).
  pose proof (check_barrier max_concurrent net self st _ ltac:(lia) Hrun Hg) as B.
  rewrite E, Hc, record_checked_eq in B. eauto.
Qed.

Lemma check_all_links_inv max_concurrent net self r :
  check_all_links max_concurrent net self r ->
  0 <= max_concurrent ->
  Forall has_url (channels self) ->
  exists checked,
    r = record_checked checked self
    /\ for_each (fun x => x) (probe_all (channels self) net) = Ret checked.
Proof.
  intros [Hneg|st r' Hpos Hrun Hg] Hmax Hurl; [lia|].
  pose proof (SchedFacts.gather_probe_all _ _ _ _ _ Hrun Hg) as ->.
  destruct (probe_all_returns (channels self) net Hurl) as (checked & Hc & _).
  rewrite Hc. eauto.
Qed.

(** ** Dictionaries and the parser loop *)

Module DictFacts.
Section Facts.
Context {V : Type}.
Implicit Types (d : list (string * V)) (k : string) (v : V).

Lemma get_set_eq k v d : PyDict.get k (PyDict.set k v d) = Some v.
Proof.
  induction d as [|[k' v'] d IH]; simpl.
  - rewrite String.eqb_refl. reflexivity.
  - destruct (String.eqb k k') eqn:E; simpl; rewrite E; auto.
Qed.

Lemma get_set_ne k k' v d :
  k <> k' -> PyDict.get k (PyDict.set k' v d) = PyDict.get k d.
Proof.
  intros Hne. induction d as [|[k2 v2] d IH]; simpl.
  - apply String.eqb_neq in Hne. rewrite Hne. reflexivity.
  - destruct (String.eqb k' k2) eqn:E; simpl.
    + apply String.eqb_eq in E. subst k2.
      apply String.eqb_neq in Hne. rewrite Hne. reflexivity.
    + destruct (String.eqb k k2); auto.
Qed.

End Facts.

Lemma get_inject k (d : sdict) :
  PyDict.get k (inject d) = option_map VStr (PyDict.get k d).
Proof.
  induction d as [|[k' v'] d IH]; simpl; auto.
  destruct (String.eqb k k'); auto.
Qed.
End DictFacts.

Module ParseFacts.

Lemma extinf_not_url line : is_extinf line = true -> is_url line = false.
Proof.
  unfold is_extinf, is_url, PyStr.startswith.
  destruct line as [|c r]; [discriminate|].
  cbn [String.prefix]. destruct (ascii_dec "#" c) as [<-|]; [|discriminate].
  intros _. destruct (ascii_dec "h" "#") as [E|]; [discriminate E|]. reflexivity.
Qed.

Lemma metadata_named line c :
  metadata_of line = Some c -> PyDict.get "name" c <> None.
Proof.
  unfold metadata_of, parse_extinf. destruct (is_extinf line); [|discriminate].
  destruct (PyStr.split1 PyStr.comma (PyStr.drop 8 line)) as [|a [|b [|? ?]]];
    try discriminate.
  intros [= <-]. simpl. discriminate.
Qed.

Lemma seen_cons raw lines :
  seen (raw :: lines) =
  if is_skipped (PyStr.strip raw) then seen lines else PyStr.strip raw :: seen lines.
Proof. unfold seen; simpl. destruct (is_skipped (PyStr.strip raw)); reflexivity. Qed.

Lemma explained_more ls extra ch : explained ls ch -> explained (ls ++ extra) ch.
Proof.
  intros (before & m & c & between & u & after & -> & Hm & Hb & Hu & ->).
  exists before, m, c, between, u, (after ++ extra).
  repeat split; auto. rewrite <- !app_assoc. simpl. rewrite <- app_assoc. reflexivity.
Qed.

Lemma pending_idle ls cur l : pending ls cur -> idle l -> pending (ls ++ [l]) cur.
Proof.
  intros [->|(before & m & between & -> & Hm & Hb)] Hl; [left; reflexivity|].
  right. exists before, m, (between ++ [l]). repeat split; auto.
  - rewrite <- app_assoc. reflexivity.
  - apply Forall_app. split; auto.
Qed.

Lemma parse_lines_explained lines : forall done cur new,
  Forall (explained done) new ->
  pending done cur ->
  Forall (explained (done ++ seen lines)) (snd (parse_lines lines (cur, new)))
  /\ pending (done ++ seen lines) (fst (parse_lines lines (cur, new))).
Proof.
  induction lines as [|raw lines IH]; intros done cur new Hnew Hcur.
  - unfold seen; simpl. rewrite app_nil_r. auto.
  - rewrite seen_cons. unfold parse_lines in *. simpl.
    set (line := PyStr.strip raw).
    destruct (is_skipped line) eqn:Hskip; [apply IH; auto|].
    replace (done ++ line :: seen lines) with ((done ++ [line]) ++ seen lines)
      by (rewrite <- app_assoc; reflexivity).
    assert (Forall (explained (done ++ [line])) new) as Hnew'.
    { eapply Forall_impl; [exact Hnew|]. intros ch. apply explained_more. }
    destruct (is_extinf line) eqn:Hext.
    + destruct (parse_extinf line) as [c|] eqn:Hp.
      * apply IH; auto. right. exists done, line, []. repeat split; auto.
        unfold metadata_of. rewrite Hext. exact Hp.
      * apply IH; auto. apply pending_idle; auto. split.
        -- unfold metadata_of. rewrite Hext. exact Hp.
        -- apply extinf_not_url. exact Hext.
    + destruct (is_url line) eqn:Hurl.
      * destruct (PyDict.truthy cur) eqn:Ht.
        -- apply IH; [|left; reflexivity].
           apply Forall_app. split; auto. constructor; [|constructor].
           destruct Hcur as [->|(before & m & between & -> & Hm & Hb)];
             [discriminate|].
           exists before, m, cur, between, line, []. repeat split; auto.
           rewrite <- app_assoc. reflexivity.
        -- apply IH; auto. destruct cur; [left; reflexivity|discriminate].
      * apply IH; auto. apply pending_idle; auto. split; auto.
        unfold metadata_of. rewrite Hext. reflexivity.
Qed.

Lemma parse_lines_no_url lines : forall cur new,
  Forall (fun l => is_url l = false) (seen lines) ->
  snd (parse_lines lines (cur, new)) = new.
Proof.
  induction lines as [|raw lines IH]; intros cur new H; [reflexivity|].
  rewrite seen_cons in H. unfold parse_lines in *. simpl.
  set (line := PyStr.strip raw) in *.
  destruct (is_skipped line) eqn:Hskip; [apply IH; auto|].
  inversion H as [|? ? Hl Hrest]; subst.
  destruct (is_extinf line); [destruct (parse_extinf line)|]; try (apply IH; auto).
  rewrite Hl. apply IH; auto.
Qed.

Lemma parse_lines_acc lines : forall cur chans,
  parse_lines lines (cur, chans) =
  (fst (parse_lines lines (cur, [])), chans ++ snd (parse_lines lines (cur, []))).
Proof.
  induction lines as [|raw lines IH]; intros cur chans.
  - simpl. rewrite app_nil_r. reflexivity.
  - unfold parse_lines in *. simpl.
    set (line := PyStr.strip raw).
    destruct (is_skipped line); [apply IH|].
    destruct (is_extinf line); [destruct (parse_extinf line); apply IH|].
    destruct (is_url line); [|apply IH].
    destruct (PyDict.truthy cur); [|apply IH].
    rewrite (IH [] (chans ++ _)), (IH [] [_]). simpl. rewrite <- app_assoc. reflexivity.
Qed.
End ParseFacts.

(** ** The equations of the two reporting methods *)

Lemma get_basic_stats_eq self :
  get_basic_stats self =
  Ret ([ ("total_channels", VInt (total_channels self));
         ("categories", int_dict (sorted_desc (count_categories (channels self))));
         ("top_5_categories",
          int_dict (firstn 5 (sorted_desc (count_categories (channels self))))) ],
       self).
Proof. reflexivity. Qed.

Lemma report_eq self :
  get_detailed_report self =
  match health_of (working_channels self) (total_channels self) with
  | Ret health_percentage => report_with health_percentage self
  | Raise e => Raise e
  end.
Proof.
  unfold get_detailed_report, report_with.
  cbv [mbind method_bind read lift mret method_ret get_basic_stats getitem
       py_len int_dict].
  cbn [PyDict.get String.eqb Ascii.eqb Bool.eqb].
  destruct (health_of (working_channels self) (total_channels self));
    [|reflexivity].
  destruct (checked_channels self) as [|c cs]; [reflexivity|].
  destruct (for_each dead_entry (List.filter is_dead (c :: cs))); reflexivity.
Qed.

Lemma report_eq_with self h :
  health_of (working_channels self) (total_channels self) = Ret h ->
  get_detailed_report self = report_with h self.
Proof. intros H. rewrite report_eq, H. reflexivity. Qed.

(** ** Rounding *)

Module NumFacts.

Lemma Qred_ge (a q : Q) : (a <= q)%Q -> (a <= Qred q)%Q.
Proof.
  intros H. eapply Qle_trans; [exact H|].
  apply Qle_lteq. right. symmetry. apply Qred_correct.
Qed.

Lemma Qred_le (q b : Q) : (q <= b)%Q -> (Qred q <= b)%Q.
Proof.
  intros H. eapply Qle_trans; [|exact H].
  apply Qle_lteq. right. apply Qred_correct.
Qed.

(** The nearest integer lies between the integers around the quotient. *)
Lemma nearest_int_between (n : Z) (d : positive) (lo hi : Z) :
  lo * Zpos d <= n -> n <= hi * Zpos d ->
  lo <= PyNum.nearest_int n d <= hi.
Proof.
  intros Hlo Hhi. unfold PyNum.nearest_int.
  pose proof (Z.div_mod n (Zpos d) ltac:(lia)) as Hdm.
  pose proof (Z.mod_pos_bound n (Zpos d) ltac:(lia)) as Hr.
  set (q := n / Zpos d) in *. set (r := n mod Zpos d) in *.
  assert (lo <= q) by nia.
  assert (q <= hi) by nia.
  assert (0 < r -> q + 1 <= hi) by nia.
  destruct (Z.ltb_spec (2 * r) (Zpos d)); [lia|].
  destruct (Z.ltb_spec (Zpos d) (2 * r)); [lia|].
  destruct (Z.even q); lia.
Qed.

Lemma nearest_int_multiple (k : Z) (d : positive) :
  PyNum.nearest_int (k * Zpos d) d = k.
Proof.
  unfold PyNum.nearest_int.
  rewrite Z.div_mul, Z.mod_mul by lia.
  destruct (Z.ltb_spec (2 * 0) (Zpos d)); [reflexivity|lia].
Qed.

(** The exponent is a lower bound: [2 ** exponent <= n / d]. *)
Lemma pow2_le_exponent (n d : positive) :
  PyNum.pow2_le (PyNum.exponent n d) n d = true.
Proof.
  unfold PyNum.exponent.
  set (k := Z.log2 (Zpos n) - Z.log2 (Zpos d)).
  destruct (PyNum.pow2_le k n d) eqn:E; [exact E|].
  pose proof (Z.log2_spec (Zpos n) ltac:(lia)) as [Hn1 Hn2].
  pose proof (Z.log2_spec (Zpos d) ltac:(lia)) as [Hd1 Hd2].
  pose proof (Z.log2_nonneg (Zpos n)) as Hln.
  pose proof (Z.log2_nonneg (Zpos d)) as Hld.
  set (ln := Z.log2 (Zpos n)) in *. set (ld := Z.log2 (Zpos d)) in *.
  unfold PyNum.pow2_le.
  destruct (Z.leb_spec 0 (k - 1)) as [Hk|Hk].
  - apply Z.leb_le.
    assert (2 ^ ln = 2 ^ (ld + 1) * 2 ^ (k - 1)) as E2.
    { rewrite <- Z.pow_add_r by lia. f_equal. unfold k. lia. }
    pose proof (Z.pow_pos_nonneg 2 (k - 1) ltac:(lia) Hk).
    rewrite <- Z.add_1_r in Hd2. nia.
  - apply Z.leb_le.
    assert (2 ^ (ld + 1) <= 2 ^ ln * 2 ^ (- (k - 1))) as E2.
    { rewrite <- Z.pow_add_r by lia. apply Z.pow_le_mono_r; unfold k; lia. }
    pose proof (Z.pow_pos_nonneg 2 (- (k - 1)) ltac:(lia) ltac:(lia)).
    rewrite <- Z.add_1_r in Hd2. nia.
Qed.

(** A quotient bounded by [b * 2 ** j], with [b] below [2 ** 53], has its
    spacing exponent at most [j]. *)
Lemma ulp_exponent_le (n d : positive) (b j : Z) :
  0 <= j -> 0 < b < 2 ^ 53 ->
  Zpos n <= b * 2 ^ j * Zpos d ->
  PyNum.ulp_exponent n d <= j.
Proof.
  intros Hj Hb Hn. unfold PyNum.ulp_exponent.
  apply Z.max_lub; [|lia].
  pose proof (pow2_le_exponent n d) as H.
  destruct (Z.le_gt_cases (PyNum.exponent n d) (52 + j)) as [|Hgt]; [lia|].
  exfalso. unfold PyNum.pow2_le in H.
  destruct (Z.leb_spec 0 (PyNum.exponent n d)) as [_|]; [|lia].
  apply Z.leb_le in H.
  assert (2 ^ (53 + j) <= 2 ^ PyNum.exponent n d) as Hp
    by (apply Z.pow_le_mono_r; lia).
  rewrite Z.pow_add_r in Hp by lia.
  pose proof (Z.pow_pos_nonneg 2 j ltac:(lia) Hj) as Hpj.
  set (E := 2 ^ PyNum.exponent n d) in *. set (P := 2 ^ j) in *.
  set (K := 2 ^ 53) in *.
  assert (Zpos d * (K * P) <= Zpos d * E)
    by (apply Z.mul_le_mono_nonneg_l; lia).
  assert (b * P * Zpos d < K * P * Zpos d).
  { apply Z.mul_lt_mono_pos_r; [lia|]. apply Z.mul_lt_mono_pos_r; lia. }
  lia.
Qed.

(** Rounding to binary64 does not cross a float: a quotient in
    [[0, b * 2 ** j]] has its nearest float there. *)
Lemma nearest_binary64_le (n d : positive) (b j : Z) :
  0 <= j -> 0 < b < 2 ^ 53 -> b * 2 ^ j < 2 ^ 1024 ->
  Zpos n <= b * 2 ^ j * Zpos d ->
  exists q, PyNum.nearest_binary64 n d = Some q
            /\ (0 <= q)%Q /\ (q <= inject_Z (b * 2 ^ j))%Q.
Proof.
  intros Hj Hb Hmax Hn.
  pose proof (ulp_exponent_le n d b j Hj Hb Hn) as He.
  unfold PyNum.nearest_binary64.
  set (e := PyNum.ulp_exponent n d) in *.
  pose proof (Z.pow_pos_nonneg 2 j ltac:(lia) Hj) as Hpj.
  destruct (Z.leb_spec 0 e) as [H0|H0].
  - pose proof (Z.pow_pos_nonneg 2 e ltac:(lia) H0) as Hpe.
    assert (2 ^ j = 2 ^ (j - e) * 2 ^ e) as Hsplit.
    { rewrite <- Z.pow_add_r by lia. f_equal. lia. }
    pose proof (Z.pow_pos_nonneg 2 (j - e) ltac:(lia) ltac:(lia)) as Hpje.
    destruct (nearest_int_between (Zpos n) (d * Z.to_pos (2 ^ e)) 0 (b * 2 ^ (j - e)))
      as [Hm0 Hm1].
    + lia.
    + rewrite Pos2Z.inj_mul, Z2Pos.id by lia. rewrite Hsplit in Hn. nia.
    + set (m := PyNum.nearest_int _ _) in *.
      assert (m * 2 ^ e <= b * 2 ^ j) as Hme by (rewrite Hsplit; nia).
      destruct (Z.leb_spec (2 ^ 1024) (m * 2 ^ e)); [lia|]. simpl.
      eexists. split; [reflexivity|]. unfold PyNum.scaled.
      destruct (Z.leb_spec 0 e); [|lia].
      split; [apply Qred_ge|apply Qred_le]; unfold Qle; simpl; nia.
  - simpl.
    pose proof (Z.pow_pos_nonneg 2 (- e) ltac:(lia) ltac:(lia)) as Hpe.
    destruct (nearest_int_between (Zpos n * 2 ^ (- e)) d 0 (b * 2 ^ j * 2 ^ (- e)))
      as [Hm0 Hm1].
    + nia.
    + nia.
    + set (m := PyNum.nearest_int _ _) in *.
      eexists. split; [reflexivity|]. unfold PyNum.scaled.
      destruct (Z.leb_spec 0 e); [lia|].
      split; [apply Qred_ge|apply Qred_le]; unfold Qle; simpl;
        rewrite ?Z2Pos.id by lia; nia.
Qed.

Lemma rounded_within (negative : bool) (n d : positive) (b j : Z) :
  0 <= j -> 0 < b < 2 ^ 53 -> b * 2 ^ j < 2 ^ 1024 ->
  Zpos n <= b * 2 ^ j * Zpos d ->
  PyNum.within (b * 2 ^ j) (PyNum.rounded negative n d).
Proof.
  intros Hj Hb Hmax Hn.
  destruct (nearest_binary64_le n d b j Hj Hb Hmax Hn) as (q & E & H0 & H1).
  unfold PyNum.rounded. rewrite E.
  pose proof (Z.pow_pos_nonneg 2 j ltac:(lia) Hj) as Hpj.
  destruct (Qnum q =? 0)%Z.
  - destruct negative; simpl; [exact I|].
    unfold Qle; simpl. lia.
  - destruct negative; simpl; unfold Qle in *; simpl in *; lia.
Qed.

Lemma rounded_nonneg (n d : positive) (hi : Z) :
  PyNum.within hi (PyNum.rounded false n d) ->
  exists q, PyNum.rounded false n d = Finite q
            /\ (0 <= q)%Q /\ (q <= inject_Z hi)%Q.
Proof.
  unfold PyNum.rounded.
  destruct (PyNum.nearest_binary64 n d) as [q|] eqn:E; [|intros []].
  assert (0 <= q)%Q as Hq.
  { revert E. unfold PyNum.nearest_binary64.
    set (e := PyNum.ulp_exponent n d).
    destruct (_ && _); [discriminate|]. intros [= <-].
    assert (0 <= (if (0 <=? e)%Z
                  then PyNum.nearest_int (Zpos n) (d * Z.to_pos (2 ^ e))
                  else PyNum.nearest_int (Zpos n * 2 ^ (- e)) d)) as Hm.
    { destruct (Z.leb_spec 0 e).
      - generalize (d * Z.to_pos (2 ^ e))%positive. intros d'.
        apply (nearest_int_between _ _ 0 (Zpos n)); [lia|nia].
      - pose proof (Z.pow_pos_nonneg 2 (- e) ltac:(lia) ltac:(lia)).
        apply (nearest_int_between _ _ 0 (Zpos n * 2 ^ (- e))); nia. }
    set (m := if (0 <=? e)%Z then _ else _) in *.
    unfold PyNum.scaled. apply Qred_ge.
    destruct (Z.leb_spec 0 e).
    - pose proof (Z.pow_pos_nonneg 2 e ltac:(lia) ltac:(lia)).
      unfold Qle; simpl. nia.
    - unfold Qle; simpl. lia. }
  destruct (Qnum q =? 0)%Z; simpl.
  - intros [_ H]. exists 0%Q. split; [reflexivity|]. split; [apply Qle_refl|exact H].
  - intros [_ H]. exists q. auto.
Qed.

Lemma truediv_between (a b : Z) :
  (0 <= a <= b)%Z -> (0 < b)%Z ->
  exists q, PyNum.truediv a b = Ret (Finite q)
            /\ (0 <= q)%Q /\ (q <= 1)%Q.
Proof.
  intros Ha Hb. unfold PyNum.truediv.
  destruct b as [|pb|pb]; try lia.
  destruct a as [|pa|pa]; try lia.
  - exists 0%Q. split; [reflexivity|]. split; unfold Qle; simpl; lia.
  - cbn [Z.ltb Z.compare xorb Z.abs Z.to_pos].
    destruct (rounded_nonneg pa pb (1 * 2 ^ 0)) as (q & E & H0 & H1).
    { apply rounded_within; try lia; simpl; lia. }
    change (Z.to_pos (Z.abs (Z.pos pa))) with pa.
    change (Z.to_pos (Z.abs (Z.pos pb))) with pb.
    rewrite E. exists q. auto.
Qed.

Lemma hundred : PyNum.nearest_binary64 100 1 = Some 100%Q.
Proof. vm_compute. reflexivity. Qed.

Lemma mul_int_between (q : Q) :
  (0 <= q)%Q -> (q <= 1)%Q ->
  exists r, PyNum.mul_int (Finite q) 100 = Ret (Finite r)
            /\ (0 <= r)%Q /\ (r <= 100)%Q.
Proof.
  intros H0 H1. unfold PyNum.mul_int. rewrite hundred.
  unfold PyNum.of_Q.
  destruct q as [n d]. unfold Qle in H0, H1. simpl in H0, H1.
  cbn [Qmult Qnum Qden].
  destruct n as [|pn|pn]; try lia.
  - exists 0%Q. split; [reflexivity|]. split; unfold Qle; simpl; lia.
  - cbn [Z.mul].
    destruct (rounded_nonneg (pn * 100) (d * 1) (100 * 2 ^ 0)) as (r & E & Hr0 & Hr1).
    { apply rounded_within; try lia; simpl; lia. }
    change (Z.pos pn * 100) with (Z.pos (pn * 100)). cbv beta iota.
    rewrite E. exists r. auto.
Qed.

Lemma round_between (q : Q) :
  (0 <= q)%Q -> (q <= 100)%Q ->
  exists r, PyNum.round (Finite q) 1 = Finite r
            /\ (0 <= r)%Q /\ (r <= 100)%Q.
Proof.
  intros H0 H1. unfold PyNum.round.
  assert (Qle_bool (inject_Z (2 ^ 53)) (Qabs q) = false) as ->.
  { apply not_true_is_false. intros H. apply Qle_bool_iff in H.
    rewrite Qabs_pos in H by exact H0.
    pose proof (Qle_trans _ _ _ H H1) as C. unfold Qle in C. simpl in C. lia. }
  destruct q as [n d]. unfold Qle in H0, H1. simpl in H0, H1.
  change (PyNum.scale 1) with 10%positive. cbn [Qnum Qden]. cbv zeta.
  destruct (nearest_int_between (n * 10) d 0 1000 ltac:(lia) ltac:(lia)) as [Hm0 Hm1].
  destruct (PyNum.nearest_int (n * 10) d) as [|pm|pm]; try lia.
  - exists 0%Q. assert ((n <? 0)%Z = false) as -> by lia.
    split; [reflexivity|]. split; unfold Qle; simpl; lia.
  - destruct (rounded_nonneg pm 10 (100 * 2 ^ 0)) as (r & E & Hr0 & Hr1).
    { apply rounded_within; try lia; simpl; lia. }
    rewrite E. exists r. auto.
Qed.

(** The health percentage of consistent counts is computed, and lies
    between 0 and 100. *)
Lemma health_between (working total : Z) :
  (0 <= working <= total)%Z ->
  exists h q, health_of working total = Ret h
              /\ PyNum.value h = Some q
              /\ (0 <= q)%Q /\ (q <= 100)%Q.
Proof.
  intros H. unfold health_of. destruct (Z.gtb_spec total 0) as [Hpos|Hz].
  - destruct (truediv_between working total H Hpos) as (x & -> & A & B).
    destruct (mul_int_between x A B) as (y & Ey & C & D).
    destruct (round_between y C D) as (z & Ez & E & F).
    cbn [mbind res_bind]. rewrite Ey. cbn [mbind res_bind]. rewrite Ez.
    exists (VFloat (Finite z)), z. auto.
  - exists (VInt 0), (inject_Z 0). split; [reflexivity|]. split; [reflexivity|].
    split; unfold Qle; simpl; lia.
Qed.

Lemma health_unfold (working total : Z) :
  0 < total ->
  health_of working total =
  (quotient ← PyNum.truediv working total;
   percentage ← PyNum.mul_int quotient 100;
   Ret (VFloat (PyNum.round percentage 1))).
Proof.
  intros H. unfold health_of.
  destruct (Z.gtb_spec total 0); [reflexivity|lia].
Qed.

Lemma health_zero_working (total : Z) :
  exists h, health_of 0 total = Ret h /\ PyNum.value h = Some 0%Q.
Proof.
  unfold health_of. destruct (Z.gtb_spec total 0) as [Hpos|Hz].
  - destruct total as [|p|p]; try lia.
    exists (VFloat (Finite 0)). split; reflexivity.
  - exists (VInt 0). split; reflexivity.
Qed.

Lemma truediv_same (n : Z) : 0 < n -> PyNum.truediv n n = Ret (Finite 1).
Proof.
  intros Hn. destruct n as [|p|p]; try lia.
  unfold PyNum.truediv. cbn [Z.ltb Z.compare xorb].
  change (Z.to_pos (Z.abs (Z.pos p))) with p.
  assert (PyNum.nearest_binary64 p p = Some 1%Q) as E.
  { unfold PyNum.nearest_binary64, PyNum.ulp_exponent, PyNum.exponent.
    rewrite Z.sub_diag.
    assert (PyNum.pow2_le 0 p p = true) as ->.
    { unfold PyNum.pow2_le. simpl. apply Z.leb_le. lia. }
    change (Z.max (0 - 52) (-1074)) with (-52).
    cbn [Z.leb Z.compare andb Z.opp].
    rewrite (Z.mul_comm (Zpos p)), nearest_int_multiple.
    vm_compute. reflexivity. }
  unfold PyNum.rounded. rewrite E. reflexivity.
Qed.

Lemma health_full (n : Z) : 0 < n -> health_of n n = Ret (VFloat (Finite 100)).
Proof.
  intros Hn. rewrite health_unfold by exact Hn.
  rewrite truediv_same by exact Hn. vm_compute. reflexivity.
Qed.

(** [round] of a finite float is a finite float or a zero. *)
Lemma round_value (q : Q) (ndigits : nat) :
  exists v, PyNum.value (VFloat (PyNum.round (Finite q) ndigits)) = Some v.
Proof.
  unfold PyNum.round.
  destruct (Qle_bool (inject_Z (2 ^ 53)) (Qabs q)) eqn:Hbig; [eexists; reflexivity|].
  assert (Qabs q <= inject_Z (2 ^ 53))%Q as Hq.
  { apply Qlt_le_weak, Qnot_le_lt. intros H. apply Qle_bool_iff in H. congruence. }
  apply Qabs_Qle_condition in Hq as [Hlo Hhi].
  destruct q as [n d]. unfold Qle in Hlo, Hhi. simpl in Hlo, Hhi.
  cbn [Qnum Qden].
  set (p := PyNum.scale ndigits).
  destruct (nearest_int_between (n * Zpos p) d (- (2 ^ 53 * Zpos p)) (2 ^ 53 * Zpos p))
    as [Hm0 Hm1]; [nia|nia|].
  assert (forall s pm, Zpos pm <= 2 ^ 53 * Zpos p ->
            exists v, PyNum.value (VFloat (PyNum.rounded s pm p)) = Some v) as Hr.
  { intros s pm Hpm.
    pose proof (rounded_within s pm p 1 53 ltac:(lia) ltac:(lia) ltac:(lia)
                  ltac:(lia)) as W.
    destruct (PyNum.rounded s pm p); [eexists; reflexivity|eexists; reflexivity|].
    destruct W. }
  destruct (PyNum.nearest_int (n * Zpos p) d) as [|pm|pm].
  - destruct (n <? 0)%Z; eexists; reflexivity.
  - apply Hr. lia.
  - apply Hr. lia.
Qed.

End NumFacts.

(** ** Consistency of the states in use *)

Module StateFacts.
Import DictFacts.

Lemma explained_ok ls ch : explained ls ch -> channel_ok ch.
Proof.
  intros (before & m & c & between & u & after & _ & Hm & _ & _ & ->).
  split.
  - rewrite get_set_ne by discriminate. eapply ParseFacts.metadata_named; eauto.
  - rewrite get_set_eq. discriminate.
Qed.

Lemma emitted_explained text : Forall (explained (seen_lines text)) (emitted text).
Proof.
  unfold emitted, seen_lines.
  destruct (ParseFacts.parse_lines_explained (lines_of text) [] [] []) as [H _];
    [constructor|left; reflexivity|exact H].
Qed.

Lemma parse_m3u_text text self :
  text <> EmptyString ->
  parse_m3u (Some text) self =
  get_basic_stats
    (set_total_channels (len (channels self ++ emitted text))
       (set_channels (channels self ++ emitted text) self)).
Proof.
  intros Hne. destruct text as [|c r]; [congruence|].
  unfold parse_m3u. cbv [mbind method_bind read write].
  rewrite ParseFacts.parse_lines_acc. reflexivity.
Qed.

Lemma parse_m3u_empty content self :
  content = None \/ content = Some EmptyString ->
  parse_m3u content self = Ret ([ ("error", VStr "No content provided") ], self).
Proof. intros [->| ->]; reflexivity. Qed.

Lemma merged_ok (ch : sdict) url timeout (o : outcome) result :
  PyDict.get "name" ch <> None ->
  check_link url timeout o = Ret result ->
  checked_ok (PyDict.merge (inject ch) result).
Proof.
  intros Hname Hres.
  assert (PyDict.get "name" (inject ch) <> None) as Hn.
  { rewrite get_inject. destruct (PyDict.get "name" ch); [discriminate|congruence]. }
  destruct o as [[st el]|[c msg]]; [|destruct c]; simpl in Hres;
    injection Hres as <-; unfold PyDict.merge; cbn [fold_left fst snd];
    (split; [rewrite !get_set_ne by discriminate; exact Hn|]);
    exists url; rewrite ?get_set_ne by discriminate; apply get_set_eq.
Qed.

Lemma merged_fields (ch : sdict) url timeout (o : outcome) result k :
  PyDict.get "url" ch = Some url ->
  check_link url timeout o = Ret result ->
  k = "url" \/ ~ In k probe_keys ->
  PyDict.get k (PyDict.merge (inject ch) result)
  = option_map VStr (PyDict.get k ch).
Proof.
  intros Hurl Hres Hk.
  destruct o as [[st el]|[c msg]]; [|destruct c]; simpl in Hres;
    injection Hres as <-; unfold PyDict.merge; cbn [fold_left fst snd];
    (destruct Hk as [->|Hk];
     [rewrite !get_set_ne by discriminate;
      rewrite get_set_eq, Hurl; reflexivity
     |rewrite !get_set_ne by (intros ->; apply Hk; simpl; tauto);
      apply get_inject]).
Qed.

Lemma merged_probe (ch : sdict) url timeout (o : outcome) result :
  check_link url timeout o = Ret result ->
  populated url (PyDict.merge (inject ch) result)
  /\ PyDict.get "working" (PyDict.merge (inject ch) result)
     = Some (VBool (answer_ok o)).
Proof.
  intros Hres. unfold check_link, try_except in Hres.
  destruct o as [[st el]|[c msg]]; [|destruct c];
    cbn [mbind res_bind handle isinstance exn_cls elapsed status] in Hres;
    injection Hres as <-; unfold PyDict.merge, populated;
    cbn [fold_left fst snd answer_ok status];
    repeat split;
    try (eexists;
         repeat first [rewrite get_set_eq | rewrite get_set_ne by discriminate];
         reflexivity);
    try (repeat first [rewrite get_set_eq | rewrite get_set_ne by discriminate];
         reflexivity);
    (eexists; split;
     [repeat first [rewrite get_set_eq | rewrite get_set_ne by discriminate];
      reflexivity|]);
    try discriminate.
  change (PyNum.value (VFloat (PyNum.round (Finite el) 2)) <> None).
  destruct (NumFacts.round_value el 2) as [v Hv]. congruence.
Qed.

Lemma count_working_bounds checked :
  0 <= count_working checked <= len checked.
Proof.
  unfold count_working, len. split; [lia|].
  apply Nat2Z.inj_le. apply List.filter_length_le.
Qed.

Lemma stats_keeps self r self' : get_basic_stats self = Ret (r, self') -> self' = self.
Proof. rewrite get_basic_stats_eq. congruence. Qed.

Lemma report_keeps self r self' :
  get_detailed_report self = Ret (r, self') -> self' = self.
Proof.
  rewrite report_eq. destruct (health_of _ _); [|discriminate].
  unfold report_with. cbv zeta. destruct (checked_channels self); [congruence|].
  destruct (for_each dead_entry _); congruence.
Qed.

Lemma channel_ok_has_url ch : channel_ok ch -> has_url ch.
Proof. intros [_ H]. exact H. Qed.

Lemma check_keeps_consistent max_concurrent net self checked self' :
  consistent self ->
  check_all_links max_concurrent net self (Ret (checked, self')) ->
  consistent self'.
Proof.
  intros C H.
  assert (Forall has_url (channels self)) as Hurl.
  { eapply Forall_impl; [apply (channels_ok _ C)|]. apply channel_ok_has_url. }
  inversion H as [|st r Hpos Hrun Hg E].
  pose proof (SchedFacts.gather_probe_all _ _ _ _ _ Hrun Hg) as ->.
  destruct (probe_all_returns (channels self) net Hurl) as (c & Hc & Hlen & Hidx).
  rewrite Hc, record_checked_eq in E. injection E as <- <-.
  constructor; simpl.
  - apply (total_is_len _ C).
  - apply (channels_ok _ C).
  - apply Forall_lookup_2. intros i x Hx.
    destruct (channels self !! i) as [ch|] eqn:Hch.
    + destruct (Hidx i ch Hch) as (u & d & _ & Hd & Hi).
      rewrite Hi in Hx. injection Hx as <-.
      eapply merged_ok; [|exact Hd].
      pose proof (Forall_lookup_1 _ _ _ _ (channels_ok _ C) Hch) as [Hn _]. exact Hn.
    + apply lookup_ge_None in Hch. apply lookup_lt_Some in Hx. lia.
  - lia.
  - reflexivity.
  - reflexivity.
Qed.

Lemma parse_keeps_consistent content self r self' :
  consistent self ->
  parse_m3u content self = Ret (r, self') ->
  consistent self'.
Proof.
  intros C H.
  destruct content as [text|]; [destruct (string_dec text EmptyString) as [->|Hne]|].
  - rewrite parse_m3u_empty in H by auto. injection H as _ <-. exact C.
  - rewrite parse_m3u_text, get_basic_stats_eq in H by exact Hne.
    injection H as _ <-. destruct C as [C1 C2 C3 C4 C5 C6].
    constructor; simpl; auto.
    + apply Forall_app. split; [exact C2|].
      eapply Forall_impl; [apply emitted_explained|]. apply explained_ok.
    + rewrite length_app. lia.
  - rewrite parse_m3u_empty in H by auto. injection H as _ <-. exact C.
Qed.

Lemma init_consistent : consistent init.
Proof. constructor; simpl; auto; reflexivity. Qed.

Lemma reachable_consistent self : reachable self -> consistent self.
Proof.
  induction 1 as [|self content r self' _ IH H|self mc net checked self' _ IH H
                  |self r self' _ IH H|self r self' _ IH H].
  - apply init_consistent.
  - eapply parse_keeps_consistent; eauto.
  - eapply check_keeps_consistent; eauto.
  - apply stats_keeps in H. subst. exact IH.
  - apply report_keeps in H. subst. exact IH.
Qed.
End StateFacts.

Module ReportFacts.

Lemma for_each_ret {A B : Type} (f : A -> res B) (l : list A) :
  Forall (fun x => exists y, f x = Ret y) l -> exists ys, for_each f l = Ret ys.
Proof.
  induction 1 as [|x l [y Hy] _ [ys Hys]]; simpl; [eauto|].
  rewrite Hy. simpl. rewrite Hys. simpl. eauto.
Qed.

Lemma dead_entry_ret ch : checked_ok ch -> exists v, dead_entry ch = Ret v.
Proof.
  intros [Hn [u Hu]]. unfold dead_entry, getitem.
  destruct (PyDict.get "name" ch) as [n|]; [|congruence].
  rewrite Hu. simpl. eauto.
Qed.

Lemma dead_list_ret checked :
  Forall checked_ok checked ->
  exists dead_list, for_each dead_entry (List.filter is_dead checked) = Ret dead_list.
Proof.
  intros H. apply for_each_ret. apply List.Forall_forall. intros ch Hin.
  apply List.filter_In in Hin as [Hin _].
  apply dead_entry_ret. eapply List.Forall_forall in H; eauto.
Qed.

Lemma counts_in_range self :
  consistent self -> 0 <= working_channels self <= total_channels self.
Proof.
  intros C. rewrite (working_is_count _ C), (total_is_len _ C).
  pose proof (StateFacts.count_working_bounds (checked_channels self)).
  pose proof (checked_le _ C). unfold len in *. lia.
Qed.

Lemma health_returns self :
  consistent self ->
  exists h, health_of (working_channels self) (total_channels self) = Ret h.
Proof.
  intros C.
  destruct (NumFacts.health_between _ _ (counts_in_range self C)) as (h & _ & E & _).
  eauto.
Qed.

Lemma report_returns self :
  consistent self ->
  exists report, get_detailed_report self = Ret (report, self).
Proof.
  intros C. rewrite report_eq.
  destruct (health_returns self C) as [h ->]. unfold report_with. cbv zeta.
  pose proof (checked_are_ok _ C) as H.
  destruct (checked_channels self) as [|c cs] eqn:E; [eauto|].
  destruct (dead_list_ret (c :: cs) H) as [dl ->]. eauto.
Qed.

Lemma report_health self report :
  get_detailed_report self = Ret (report, self) ->
  summary_field "total_channels" report = Some (VInt (total_channels self))
  /\ summary_field "working_channels" report = Some (VInt (working_channels self))
  /\ summary_field "dead_channels" report = Some (VInt (dead_channels self))
  /\ (exists h,
        health_of (working_channels self) (total_channels self) = Ret h
        /\ summary_field "health_percentage" report = Some h)
  /\ summary_field "checked" report
     = Some (VBool (len (checked_channels self) >? 0)%Z).
Proof.
  rewrite report_eq.
  destruct (health_of _ _) as [h|]; [|discriminate].
  unfold report_with. cbv zeta.
  destruct (checked_channels self) as [|c cs].
  - intros [= <-]. repeat split; try reflexivity. exists h. split; reflexivity.
  - destruct (for_each dead_entry _) as [dl|]; [|discriminate].
    intros [= <-]. repeat split; try reflexivity. exists h. split; reflexivity.
Qed.

Lemma report_dead_list self report :
  get_detailed_report self = Ret (report, self) ->
  match checked_channels self with
  | [] => PyDict.get "dead_channels_list" report = None
  | _ :: _ => exists l, PyDict.get "dead_channels_list" report = Some (VList l)
  end.
Proof.
  rewrite report_eq.
  destruct (health_of _ _) as [h|]; [|discriminate].
  unfold report_with. cbv zeta.
  destruct (checked_channels self) as [|c cs].
  - intros [= <-]. reflexivity.
  - destruct (for_each dead_entry _) as [dl|]; [|discriminate].
    intros [= <-]. eexists. reflexivity.
Qed.
End ReportFacts.

(** ** The probe *)

(** C1. For every url, timeout and behaviour of the request (a response, a
    timeout, any other exception), [check_link] returns, and what it returns
    is a ProbeResult with its url, working, status_code and response_time
    fields, and with an error text exactly when the request raised: nothing
    is raised to the caller. *)
Theorem check_link_never_raises (url : string) (timeout : Z) (net : outcome) :
  exists d,
    check_link url timeout net = Ret d
    /\ populated url d
    /\ match net with
       | Ret _ => PyDict.get "error" d = None
       | Raise _ => exists msg, PyDict.get "error" d = Some (VStr msg)
       end.
Proof.
  destruct net as [[st el]|[c msg]]; [|destruct c];
    (eexists; split; [reflexivity|]);
    (split; [|first [reflexivity | eexists; reflexivity]]);
    (split; [reflexivity|]);
    (split; [eexists; reflexivity|]);
    (split; [eexists; reflexivity|]);
    (eexists; split; [reflexivity|]); try discriminate.
  destruct (NumFacts.round_value el 2) as [v Hv]. cbn [elapsed]. congruence.
Qed.

(** C2. On a response, the result has working = true exactly when the status
    is 200, 301, 302 or 403, and it carries that status. *)
Theorem working_iff_status (url : string) (timeout : Z) (st : Z) (el : Q) :
  exists d b,
    check_link url timeout (Ret (Response st el)) = Ret d
    /\ PyDict.get "status_code" d = Some (VInt st)
    /\ PyDict.get "working" d = Some (VBool b)
    /\ (b = true <-> st = 200 \/ st = 301 \/ st = 302 \/ st = 403).
Proof.
  eexists. exists (int_in st working_statuses).
  split; [reflexivity|]. split; [reflexivity|]. split; [reflexivity|].
  unfold int_in, working_statuses. simpl.
  rewrite !orb_true_iff, !Z.eqb_eq. intuition discriminate.
Qed.

(** The scenario of the spec: a status of 403 counts as working. *)
Example forbidden_is_working :
  exists d, check_link "http://a.example/live" 5 (Ret (Response 403 (1 # 4))) = Ret d
            /\ PyDict.get "working" d = Some (VBool true).
Proof. eexists. split; reflexivity. Qed.

Lemma take_length (n : nat) (s : string) : (String.length (PyStr.take n s) <= n)%nat.
Proof.
  revert s; induction n as [|n IH]; intros [|c r]; simpl; try lia.
  specialize (IH r). lia.
Qed.

(** C5. When the request raises, the result has working = false and
    status_code = 0; for a timeout the error is Timeout and response_time is
    the timeout given; for any other exception the error is the first 50
    characters of its message and response_time is 0. *)
Theorem failure_results (url : string) (timeout : Z) (e : exn) :
  exists d,
    check_link url timeout (Raise e) = Ret d
    /\ PyDict.get "working" d = Some (VBool false)
    /\ PyDict.get "status_code" d = Some (VInt 0)
    /\ (if isinstance e ExceptTimeoutError
        then PyDict.get "error" d = Some (VStr "Timeout")
             /\ PyDict.get "response_time" d = Some (VInt timeout)
        else exists detail,
               PyDict.get "error" d = Some (VStr detail)
               /\ detail = PyStr.take 50 (exn_str e)
               /\ (String.length detail <= 50)%nat
               /\ PyDict.get "response_time" d = Some (VInt 0)).
Proof.
  destruct e as [c msg]. destruct c;
    (eexists; split; [reflexivity|]);
    (split; [reflexivity|]); (split; [reflexivity|]); cbn [isinstance exn_cls];
    try (split; reflexivity);
    (eexists; split; [reflexivity|]); (split; [reflexivity|]);
    (split; [apply take_length|reflexivity]).
Qed.

(** ** The batch *)

(** C9. In every state a run of the batch goes through, the probes in flight
    are at most [max_concurrent], and the free slots and the probes in flight
    add up to [max_concurrent]: a slot is taken by each probe in flight and by
    nothing else. *)
Theorem in_flight_bounded (self : analyzer) (max_concurrent : Z)
    (net : nat -> outcome) (st : Sched.state) :
  0 <= max_concurrent ->
  rtc (Sched.step (channels self) net)
      (Sched.start (Z.to_nat max_concurrent) (channels self)) st ->
  Z.of_nat (Sched.in_flight st) <= max_concurrent
  /\ Z.of_nat (Sched.value st) + Z.of_nat (Sched.in_flight st) = max_concurrent.
Proof.
  intros Hmax Hrun.
  destruct (SchedFacts.run_invariant _ _ _ _ Hrun) as (Hv & _ & _).
  lia.
Qed.

(** C3. With at least one slot and channels that carry a url,
    [check_all_links] returns, and whenever it returns, the list it returns
    (and stores in [checked_channels]) is as long as [self.channels], and its
    element at position [i] is a checked result for channel [i]: it has the
    url, working, status_code and response_time of a probe of the url of
    channel [i], its working flag is the one the answer given to task [i]
    earns, and it carries every field of channel [i] that is not a field of
    a probe result. Records are paired by position, also when two of them
    share a url. *)
Theorem check_all_links_one_per_record (self : analyzer) (max_concurrent : Z)
    (net : nat -> outcome) :
  0 < max_concurrent ->
  Forall has_url (channels self) ->
  (exists checked self', check_all_links max_concurrent net self (Ret (checked, self')))
  /\ forall r, check_all_links max_concurrent net self r ->
       exists checked self',
         r = Ret (checked, self')
         /\ length checked = length (channels self)
         /\ checked_channels self' = checked
         /\ forall i ch, channels self !! i = Some ch ->
              exists url d,
                PyDict.get "url" ch = Some url
                /\ checked !! i = Some d
                /\ populated url d
                /\ PyDict.get "working" d = Some (VBool (answer_ok (net i)))
                /\ forall k, k = "url" \/ ~ In k probe_keys ->
                     PyDict.get k d = option_map VStr (PyDict.get k ch).
Proof.
  intros Hmax Hurl. split; [apply check_all_links_exists; auto|].
  intros r Hr.
  destruct (check_all_links_inv _ _ _ _ Hr ltac:(lia) Hurl) as (checked & -> & Hc).
  destruct (probe_all_returns _ net Hurl) as (c & Hc' & Hlen & Hidx).
  rewrite Hc in Hc'. injection Hc' as <-.
  rewrite record_checked_eq. do 2 eexists. split; [reflexivity|].
  split; [exact Hlen|]. split; [reflexivity|].
  intros i ch Hch. destruct (Hidx i ch Hch) as (url & result & Hu & Hres & Hi).
  destruct (StateFacts.merged_probe ch url 5 (net i) result Hres) as [Hp Hw].
  exists url. eexists. split; [exact Hu|]. split; [exact Hi|].
  split; [exact Hp|]. split; [exact Hw|].
  intros k Hk. eapply StateFacts.merged_fields; eauto.
Qed.

(** C10. With at least one slot and channels that carry a url,
    [check_all_links] returns, and whenever it returns, the element at
    position [i] of the list is the merge of the channel at position [i] with
    the result of the probe of its url on the answer given to task [i]. *)
Theorem check_all_links_in_order (self : analyzer) (max_concurrent : Z)
    (net : nat -> outcome) :
  0 < max_concurrent ->
  Forall has_url (channels self) ->
  (exists checked self', check_all_links max_concurrent net self (Ret (checked, self')))
  /\ forall r, check_all_links max_concurrent net self r ->
       exists checked self',
         r = Ret (checked, self')
         /\ forall i ch, channels self !! i = Some ch ->
              exists url result,
                PyDict.get "url" ch = Some url
                /\ check_link url 5 (net i) = Ret result
                /\ checked !! i = Some (PyDict.merge (inject ch) result).
Proof.
  intros Hmax Hurl. split; [apply check_all_links_exists; auto|].
  intros r Hr.
  destruct (check_all_links_inv _ _ _ _ Hr ltac:(lia) Hurl) as (checked & -> & Hc).
  destruct (probe_all_returns _ net Hurl) as (c & Hc' & _ & Hidx).
  rewrite Hc in Hc'. injection Hc' as <-.
  rewrite record_checked_eq. eauto.
Qed.

(** ** The samples *)

Lemma parsed_one_reachable : reachable parsed_one.
Proof.
  eapply (reach_parse init (Some one_channel_playlist)); [apply reach_init|].
  vm_compute. reflexivity.
Qed.

Lemma sample_run :
  rtc (Sched.step (channels parsed_one) all_time_out)
      (Sched.start (Z.to_nat 20) (channels parsed_one))
      (Sched.State 20 [Sched.Done (Ret timed_out_news)]).
Proof.
  eapply rtc_l.
  { exact (Sched.step_acquire (channels parsed_one) all_time_out
             0%nat 19%nat [Sched.Waiting] eq_refl). }
  eapply rtc_l; [|apply rtc_refl].
  exact (Sched.step_release (channels parsed_one) all_time_out
           0%nat 19%nat [Sched.InFlight] news_channel eq_refl eq_refl).
Qed.

Lemma sample_check :
  check_all_links 20 all_time_out parsed_one (Ret ([timed_out_news], checked_one)).
Proof.
  exact (check_barrier 20 all_time_out parsed_one
           (Sched.State 20 [Sched.Done (Ret timed_out_news)])
           (Ret [timed_out_news]) ltac:(lia) sample_run eq_refl).
Qed.

Lemma checked_one_reachable : reachable checked_one.
Proof.
  eapply reach_check; [apply parsed_one_reachable|apply sample_check].
Qed.

(** ** The report *)

(** The floats of two health percentages: 23 channels of 80 working give
    28.7, where the exact quotient would round to 28.8, and 1 of 2000 gives
    0.1, where the exact quotient would round to 0.0. *)
Example health_23_of_80 :
  health_of 23 80
  = Ret (VFloat (Finite (8078331831595827 # 281474976710656))).
Proof. vm_compute. reflexivity. Qed.

Example health_1_of_2000 :
  health_of 1 2000
  = Ret (VFloat (Finite (3602879701896397 # 36028797018963968))).
Proof. vm_compute. reflexivity. Qed.

(** C4, as amended. For every state in use the report is produced and its
    health_percentage lies in [0, 100]; it is
    round(working / total * 100, 1), computed on floats, when total > 0 and
    the int 0 when total is 0; and it is 0 whenever no channel is working,
    whatever the total. *)
Theorem health_percentage_range (self : analyzer) :
  reachable self ->
  exists report h q,
    get_detailed_report self = Ret (report, self)
    /\ summary_field "health_percentage" report = Some h
    /\ PyNum.value h = Some q
    /\ (0 <= q)%Q /\ (q <= 100)%Q
    /\ (0 < total_channels self ->
        exists quotient percentage,
          PyNum.truediv (working_channels self) (total_channels self)
          = Ret quotient
          /\ PyNum.mul_int quotient 100 = Ret percentage
          /\ h = VFloat (PyNum.round percentage 1))
    /\ (total_channels self = 0 -> h = VInt 0)
    /\ (working_channels self = 0 -> (q == 0)%Q).
Proof.
  intros Hreach. pose proof (StateFacts.reachable_consistent _ Hreach) as C.
  destruct (ReportFacts.report_returns self C) as [report Hrep].
  destruct (ReportFacts.report_health self report Hrep)
    as (_ & _ & _ & (h & Hh & Hf) & _).
  destruct (NumFacts.health_between _ _ (ReportFacts.counts_in_range self C))
    as (h' & q & Hh' & Hq & Hlo & Hhi).
  assert (h' = h) as -> by congruence.
  exists report, h, q.
  split; [exact Hrep|]. split; [exact Hf|]. split; [exact Hq|].
  split; [exact Hlo|]. split; [exact Hhi|]. split; [|split].
  - intros Hpos. rewrite NumFacts.health_unfold in Hh by exact Hpos.
    destruct (PyNum.truediv _ _) as [x|] eqn:Ex; [|discriminate].
    cbn [mbind res_bind] in Hh.
    destruct (PyNum.mul_int x 100) as [y|] eqn:Ey; [|discriminate].
    cbn [mbind res_bind] in Hh. injection Hh as <-.
    exists x, y. split; [reflexivity|]. split; [exact Ey|reflexivity].
  - intros Hz. rewrite Hz in Hh. injection Hh as <-. reflexivity.
  - intros Hz. rewrite Hz in Hh.
    destruct (NumFacts.health_zero_working (total_channels self)) as (h0 & E0 & V0).
    assert (h0 = h) as -> by congruence.
    assert (Some q = Some 0%Q) as [= ->] by congruence. reflexivity.
Qed.

(** C6, as amended. On a state in use whose [checked_channels] is empty
    the report is produced, has no dead_channels_list key and has
    summary.checked false; its summary still carries working_channels,
    dead_channels and the health_percentage computed from the counts. *)
Theorem unchecked_report (self : analyzer) :
  reachable self ->
  checked_channels self = [] ->
  exists report h,
    get_detailed_report self = Ret (report, self)
    /\ PyDict.get "dead_channels_list" report = None
    /\ summary_field "checked" report = Some (VBool false)
    /\ summary_field "working_channels" report = Some (VInt (working_channels self))
    /\ summary_field "dead_channels" report = Some (VInt (dead_channels self))
    /\ health_of (working_channels self) (total_channels self) = Ret h
    /\ summary_field "health_percentage" report = Some h.
Proof.
  intros Hreach Hnil.
  pose proof (StateFacts.reachable_consistent _ Hreach) as C.
  destruct (ReportFacts.report_returns self C) as [report Hrep].
  pose proof (ReportFacts.report_dead_list self report Hrep) as Hd.
  destruct (ReportFacts.report_health self report Hrep)
    as (_ & Hw & Hdd & (h & Hh & Hf) & Hc).
  rewrite Hnil in Hd, Hc. exists report, h. repeat split; auto.
Qed.

(** C8. On every state in use the report is produced and leaves the analyzer
    as it was, and a second report right after the first is equal to it and
    again leaves the analyzer as it was. *)
Theorem report_idempotent (self : analyzer) :
  reachable self ->
  exists report,
    get_detailed_report self = Ret (report, self)
    /\ report_twice self = Ret ((report, report), self).
Proof.
  intros Hreach. pose proof (StateFacts.reachable_consistent _ Hreach) as C.
  destruct (ReportFacts.report_returns self C) as [report Hrep].
  exists report. split; [exact Hrep|].
  unfold report_twice. cbv [mbind method_bind]. rewrite Hrep, Hrep. reflexivity.
Qed.

(** ** The parser *)

(** C7, as amended. Parsing a non-empty text returns and appends to
    [self.channels] the records [emitted]; each of them is the last metadata
    line with a comma seen before a URL line, with no URL line in between,
    completed with that URL line as its url, where other lines may stand
    between the two; and a text with no URL line emits nothing. *)
Theorem parse_emits_after_metadata (text : string) (self : analyzer) :
  text <> EmptyString ->
  exists stats self',
    parse_m3u (Some text) self = Ret (stats, self')
    /\ channels self' = channels self ++ emitted text
    /\ Forall (explained (seen_lines text)) (emitted text)
    /\ (Forall (fun l => is_url l = false) (seen_lines text) -> emitted text = []).
Proof.
  intros Hne. rewrite (StateFacts.parse_m3u_text text self Hne), get_basic_stats_eq.
  do 2 eexists. split; [reflexivity|]. split; [reflexivity|].
  split; [apply StateFacts.emitted_explained|].
  intros H. unfold emitted. apply ParseFacts.parse_lines_no_url. exact H.
Qed.

(** ** Instances and counterexamples *)

Lemma twin_parsed_urls : Forall has_url (channels twin_parsed).
Proof.
  vm_compute. constructor; [discriminate|]. constructor; [discriminate|].
  constructor.
Qed.

Lemma check_all_links_one_per_record_witness :
  0 < 20
  /\ Forall has_url (channels twin_parsed)
  /\ ((exists checked self',
         check_all_links 20 all_time_out twin_parsed (Ret (checked, self')))
      /\ forall r, check_all_links 20 all_time_out twin_parsed r ->
           exists checked self',
             r = Ret (checked, self')
             /\ length checked = length (channels twin_parsed)
             /\ checked_channels self' = checked
             /\ forall i ch, channels twin_parsed !! i = Some ch ->
                  exists url d,
                    PyDict.get "url" ch = Some url
                    /\ checked !! i = Some d
                    /\ populated url d
                    /\ PyDict.get "working" d
                       = Some (VBool (answer_ok (all_time_out i)))
                    /\ forall k, k = "url" \/ ~ In k probe_keys ->
                         PyDict.get k d = option_map VStr (PyDict.get k ch)).
Proof.
  split; [lia|]. split; [apply twin_parsed_urls|].
  apply (check_all_links_one_per_record twin_parsed 20 all_time_out);
    [lia|apply twin_parsed_urls].
Defined.

Lemma check_all_links_in_order_witness :
  0 < 20
  /\ Forall has_url (channels twin_parsed)
  /\ ((exists checked self',
         check_all_links 20 all_time_out twin_parsed (Ret (checked, self')))
      /\ forall r, check_all_links 20 all_time_out twin_parsed r ->
           exists checked self',
             r = Ret (checked, self')
             /\ forall i ch, channels twin_parsed !! i = Some ch ->
                  exists url result,
                    PyDict.get "url" ch = Some url
                    /\ check_link url 5 (all_time_out i) = Ret result
                    /\ checked !! i = Some (PyDict.merge (inject ch) result)).
Proof.
  split; [lia|]. split; [apply twin_parsed_urls|].
  apply (check_all_links_in_order twin_parsed 20 all_time_out);
    [lia|apply twin_parsed_urls].
Defined.

Lemma sample_acquired :
  rtc (Sched.step (channels parsed_one) all_time_out)
      (Sched.start (Z.to_nat 20) (channels parsed_one))
      (Sched.State 19 [Sched.InFlight]).
Proof.
  apply rtc_once.
  exact (Sched.step_acquire (channels parsed_one) all_time_out
           0%nat 19%nat [Sched.Waiting] eq_refl).
Qed.

Lemma in_flight_bounded_witness :
  0 <= 20
  /\ rtc (Sched.step (channels parsed_one) all_time_out)
         (Sched.start (Z.to_nat 20) (channels parsed_one))
         (Sched.State 19 [Sched.InFlight])
  /\ (Z.of_nat (Sched.in_flight (Sched.State 19 [Sched.InFlight])) <= 20
      /\ Z.of_nat (Sched.value (Sched.State 19 [Sched.InFlight]))
         + Z.of_nat (Sched.in_flight (Sched.State 19 [Sched.InFlight])) = 20).
Proof.
  split; [lia|]. split; [apply sample_acquired|].
  apply (in_flight_bounded parsed_one 20 all_time_out
           (Sched.State 19 [Sched.InFlight])); [lia|apply sample_acquired].
Defined.

Lemma health_percentage_range_witness :
  reachable checked_one
  /\ exists report h q,
       get_detailed_report checked_one = Ret (report, checked_one)
       /\ summary_field "health_percentage" report = Some h
       /\ PyNum.value h = Some q
       /\ (0 <= q)%Q /\ (q <= 100)%Q
       /\ (0 < total_channels checked_one ->
           exists quotient percentage,
             PyNum.truediv (working_channels checked_one)
               (total_channels checked_one)
             = Ret quotient
             /\ PyNum.mul_int quotient 100 = Ret percentage
             /\ h = VFloat (PyNum.round percentage 1))
       /\ (total_channels checked_one = 0 -> h = VInt 0)
       /\ (working_channels checked_one = 0 -> (q == 0)%Q).
Proof.
  split; [apply checked_one_reachable|].
  apply (health_percentage_range checked_one). apply checked_one_reachable.
Defined.

(** Counterexample to C4 as stated: after a batch in which the one channel
    timed out the total is 1 and health_percentage is 0. *)
Lemma health_zero_with_channels :
  reachable checked_one /\ ~ health_zero_only_without_channels checked_one.
Proof.
  split; [apply checked_one_reachable|]. intros H.
  destruct (ReportFacts.report_returns checked_one) as [report Hrep].
  { apply StateFacts.reachable_consistent, checked_one_reachable. }
  destruct (ReportFacts.report_health _ _ Hrep) as (_ & _ & _ & (h & Eh & Hh) & _).
  vm_compute in Eh. injection Eh as <-.
  destruct (H report _ 0%Q Hrep Hh eq_refl) as [Hz _].
  specialize (Hz ltac:(reflexivity)). discriminate Hz.
Qed.

Lemma unchecked_report_witness :
  reachable parsed_one
  /\ checked_channels parsed_one = []
  /\ exists report h,
       get_detailed_report parsed_one = Ret (report, parsed_one)
       /\ PyDict.get "dead_channels_list" report = None
       /\ summary_field "checked" report = Some (VBool false)
       /\ summary_field "working_channels" report
          = Some (VInt (working_channels parsed_one))
       /\ summary_field "dead_channels" report
          = Some (VInt (dead_channels parsed_one))
       /\ health_of (working_channels parsed_one) (total_channels parsed_one)
          = Ret h
       /\ summary_field "health_percentage" report = Some h.
Proof.
  split; [apply parsed_one_reachable|]. split; [reflexivity|].
  apply (unchecked_report parsed_one); [apply parsed_one_reachable|reflexivity].
Defined.

(** Counterexample to C6 as stated: the report of a playlist that was parsed
    and not checked has a health_percentage in its summary. *)
Lemma unchecked_report_has_health : ~ unchecked_report_omits_health parsed_one.
Proof.
  intros H.
  destruct (ReportFacts.report_returns parsed_one) as [report Hrep].
  { apply StateFacts.reachable_consistent, parsed_one_reachable. }
  destruct (H eq_refl report Hrep) as (_ & Hnone & _).
  destruct (ReportFacts.report_health _ _ Hrep) as (_ & _ & _ & (h & _ & Hh) & _).
  congruence.
Qed.

Lemma report_idempotent_witness :
  reachable checked_one
  /\ exists report,
       get_detailed_report checked_one = Ret (report, checked_one)
       /\ report_twice checked_one = Ret ((report, report), checked_one).
Proof.
  split; [apply checked_one_reachable|].
  apply (report_idempotent checked_one). apply checked_one_reachable.
Defined.

Lemma parse_emits_after_metadata_witness :
  playlist_with_option_line <> EmptyString
  /\ exists stats self',
       parse_m3u (Some playlist_with_option_line) init = Ret (stats, self')
       /\ channels self' = channels init ++ emitted playlist_with_option_line
       /\ Forall (explained (seen_lines playlist_with_option_line))
            (emitted playlist_with_option_line)
       /\ (Forall (fun l => is_url l = false) (seen_lines playlist_with_option_line) ->
           emitted playlist_with_option_line = []).
Proof.
  split; [discriminate|].
  apply (parse_emits_after_metadata playlist_with_option_line init). discriminate.
Defined.

(** Counterexample to C7 as stated: with an option line between the metadata
    line and the URL line the record is emitted all the same. *)
Lemma emitted_without_adjacent_metadata :
  emitted playlist_with_option_line = [news_channel]
  /\ ~ emitted_only_when_adjacent playlist_with_option_line.
Proof.
  split; [vm_compute; reflexivity|].
  unfold emitted_only_when_adjacent.
  assert (emitted playlist_with_option_line = [news_channel]) as ->
    by (vm_compute; reflexivity).
  assert (seen_lines playlist_with_option_line =
          ["#EXTINF:-1,News"; "#EXTVLCOPT:network-caching=1000";
           "http://a.example/live"]) as -> by (vm_compute; reflexivity).
  intros H. inversion H as [|? ? Hadj _]; subst.
  destruct Hadj as (before & m & u & after & E & Hm & Hu & _).
  destruct before as [|a [|b [|c before]]]; simpl in E.
  - injection E as <- <- _. vm_compute in Hu. discriminate.
  - injection E as _ <- _ _. vm_compute in Hm. discriminate.
  - injection E as _ _ _ E. discriminate.
  - injection E as _ _ _ E. destruct before; discriminate.
Qed.

(** * Further properties *)

(** ** Strings *)

Module StrFacts.

Lemma append_cons c s t : (String c s ++ t)%string = String c (s ++ t)%string.
Proof. reflexivity. Qed.

Lemma append_nil t : (EmptyString ++ t)%string = t.
Proof. reflexivity. Qed.

Lemma lstrip_head s :
  PyStr.lstrip s = EmptyString
  \/ exists c r, PyStr.lstrip s = String c r /\ PyStr.isspace c = false.
Proof.
  induction s as [|c r IH]; simpl; [left; reflexivity|].
  destruct (PyStr.isspace c) eqn:E; [exact IH|].
  right. exists c, r. auto.
Qed.

Lemma rstrip_idem s : PyStr.rstrip (PyStr.rstrip s) = PyStr.rstrip s.
Proof.
  induction s as [|c r IH]; simpl; [reflexivity|].
  destruct (PyStr.isspace c && PyStr.is_empty (PyStr.rstrip r)) eqn:E;
    [reflexivity|].
  simpl. rewrite IH, E. reflexivity.
Qed.

Lemma strip_idem s : PyStr.strip (PyStr.strip s) = PyStr.strip s.
Proof.
  unfold PyStr.strip.
  destruct (lstrip_head s) as [->|(c & r & -> & Hc)]; [reflexivity|].
  simpl. rewrite Hc. simpl. rewrite Hc. simpl. rewrite Hc. simpl.
  rewrite rstrip_idem. reflexivity.
Qed.

Lemma lstrip_blank s : blank s = true -> PyStr.lstrip s = EmptyString.
Proof.
  induction s as [|c r IH]; simpl; [reflexivity|].
  destruct (PyStr.isspace c); simpl; [exact IH|discriminate].
Qed.

Lemma strip_blank s : blank s = true -> PyStr.strip s = EmptyString.
Proof. intros H. unfold PyStr.strip. rewrite lstrip_blank by exact H. reflexivity. Qed.

Lemma prefix_drop p s :
  String.prefix p s = true -> s = (p ++ PyStr.drop (String.length p) s)%string.
Proof.
  revert s; induction p as [|a p IH]; intros s; [reflexivity|].
  destruct s as [|b s]; [discriminate|].
  cbn [String.prefix]. destruct (ascii_dec a b) as [<-|]; [|discriminate].
  intros H. cbn [String.length PyStr.drop]. rewrite append_cons. f_equal.
  apply IH. exact H.
Qed.

Lemma prefix_app p s : String.prefix p (p ++ s)%string = true.
Proof.
  induction p as [|a p IH]; [destruct s; reflexivity|].
  rewrite append_cons. cbn [String.prefix].
  destruct (ascii_dec a a); [exact IH|congruence].
Qed.

Lemma drop_app p s : PyStr.drop (String.length p) (p ++ s)%string = s.
Proof.
  induction p as [|a p IH]; [reflexivity|].
  rewrite append_cons. exact IH.
Qed.

Lemma until_quote_some s g :
  PyStr.until_quote s = Some g ->
  quote_free g = true
  /\ exists post, s = (g ++ String PyStr.dquote post)%string.
Proof.
  revert g; induction s as [|c r IH]; intros g; simpl; [discriminate|].
  destruct (Ascii.eqb c PyStr.dquote) eqn:E.
  - intros [= <-]. split; [reflexivity|]. exists r.
    apply Ascii.eqb_eq in E. subst c. reflexivity.
  - destruct (PyStr.until_quote r) as [g'|]; [|discriminate].
    intros [= <-]. destruct (IH g' eq_refl) as [Hq [post ->]].
    split; [simpl; rewrite E; exact Hq|]. exists post. reflexivity.
Qed.

Lemma until_quote_found x post :
  PyStr.until_quote (x ++ String PyStr.dquote post)%string <> None.
Proof.
  induction x as [|c x IH]; [rewrite append_nil|rewrite append_cons]; simpl.
  - rewrite ?Ascii.eqb_refl. discriminate.
  - destruct (Ascii.eqb c PyStr.dquote); [discriminate|].
    destruct (PyStr.until_quote _); [discriminate|exact IH].
Qed.

Lemma search_some lit s g :
  PyStr.re_search_quoted lit s = Some g ->
  quote_free g = true
  /\ exists pre post, s = (pre ++ lit ++ g ++ String PyStr.dquote post)%string.
Proof.
  revert g; induction s as [|c r IH]; intros g.
  - cbn [PyStr.re_search_quoted].
    destruct (PyStr.startswith lit EmptyString) eqn:Hp; [|discriminate].
    destruct (PyStr.until_quote _) as [g'|] eqn:Hu; [|discriminate].
    intros [= <-]. destruct (until_quote_some _ _ Hu) as [Hq [post Hpost]].
    split; [exact Hq|]. exists EmptyString, post.
    rewrite (prefix_drop _ _ Hp) at 1. rewrite Hpost. reflexivity.
  - cbn [PyStr.re_search_quoted].
    destruct (PyStr.startswith lit (String c r)) eqn:Hp.
    + destruct (PyStr.until_quote _) as [g'|] eqn:Hu.
      * intros [= <-]. destruct (until_quote_some _ _ Hu) as [Hq [post Hpost]].
        split; [exact Hq|]. exists EmptyString, post.
        rewrite (prefix_drop _ _ Hp) at 1. rewrite Hpost. reflexivity.
      * intros H. destruct (IH g H) as [Hq (pre & post & ->)].
        split; [exact Hq|]. exists (String c pre), post. reflexivity.
    + intros H. destruct (IH g H) as [Hq (pre & post & ->)].
      split; [exact Hq|]. exists (String c pre), post. reflexivity.
Qed.

Lemma search_found lit pre x post :
  PyStr.re_search_quoted lit (pre ++ lit ++ x ++ String PyStr.dquote post)%string
  <> None.
Proof.
  induction pre as [|c pre IH].
  - rewrite append_nil.
    assert (forall s, PyStr.startswith lit (lit ++ s)%string = true) as Hp
      by (intros; apply prefix_app).
    destruct (lit ++ x ++ String PyStr.dquote post)%string as [|c r] eqn:E;
      cbn [PyStr.re_search_quoted]; rewrite <- E, Hp, drop_app;
      destruct (PyStr.until_quote _) eqn:Hu; try discriminate;
      exfalso; eapply until_quote_found; eauto.
  - rewrite append_cons. cbn [PyStr.re_search_quoted].
    destruct (if PyStr.startswith lit _ then _ else None); [discriminate|exact IH].
Qed.
End StrFacts.

(** ** More on the parser *)

Module ParseMore.

Lemma split1_two s a b :
  PyStr.split1 PyStr.comma s = [a; b] ->
  s = (a ++ String PyStr.comma b)%string /\ comma_free a = true.
Proof.
  revert a; induction s as [|c r IH]; intros a; simpl; [discriminate|].
  destruct (Ascii.eqb c PyStr.comma) eqn:E.
  - intros [= <- <-]. apply Ascii.eqb_eq in E. subst c. split; reflexivity.
  - destruct (PyStr.split1 PyStr.comma r) as [|h [|h2 [|? ?]]] eqn:Hs;
      try discriminate.
    intros [= <- <-]. destruct (IH h eq_refl) as [-> Hc].
    split; [reflexivity|]. simpl. rewrite E. exact Hc.
Qed.

Lemma seen_stripped lines u : In u (seen lines) -> PyStr.strip u = u.
Proof.
  unfold seen. intros H. apply List.filter_In in H as [H _].
  apply List.in_map_iff in H as (raw & <- & _). apply StrFacts.strip_idem.
Qed.

Lemma extracted_search lit dflt a :
  extracted lit dflt a
    (match PyStr.re_search_quoted lit a with Some g => g | None => dflt end).
Proof.
  destruct (PyStr.re_search_quoted lit a) as [g|] eqn:E.
  - left. apply StrFacts.search_some in E. exact E.
  - right. split; [reflexivity|]. intros pre x post ->.
    eapply StrFacts.search_found; eauto.
Qed.

Lemma metadata_shape m c :
  metadata_of m = Some c ->
  exists attributes rest,
    m = ("#EXTINF:" ++ attributes ++ String PyStr.comma rest)%string
    /\ comma_free attributes = true
    /\ c = [ ("name", PyStr.strip rest);
             ("group",
              match PyStr.re_search_quoted group_title_re attributes with
              | Some g => g
              | None => "Uncategorized"
              end);
             ("logo",
              match PyStr.re_search_quoted tvg_logo_re attributes with
              | Some g => g
              | None => EmptyString
              end);
             ("attributes", attributes) ].
Proof.
  unfold metadata_of, parse_extinf. destruct (is_extinf m) eqn:Hp; [|discriminate].
  destruct (PyStr.split1 PyStr.comma (PyStr.drop 8 m)) as [|a [|b [|? ?]]] eqn:Hs;
    try discriminate.
  intros [= <-]. exists a, b. destruct (split1_two _ _ _ Hs) as [Hd Hc].
  split; [|split; [exact Hc|reflexivity]].
  unfold is_extinf, PyStr.startswith in Hp.
  apply StrFacts.prefix_drop in Hp. rewrite Hp at 1.
  change (String.length "#EXTINF:") with 8%nat. rewrite Hd. reflexivity.
Qed.
End ParseMore.

(** Every record [parse_m3u] adds has the keys name, group, logo, attributes
    and url, in this order; its url is one of the lines of the text, stripped,
    and begins with http:// or https://; its name and its url have no
    whitespace at either end. *)
Theorem emitted_record_shape (text : string) :
  Forall (fun ch =>
            exists name group logo attributes url,
              ch = [ ("name", name); ("group", group); ("logo", logo);
                     ("attributes", attributes); ("url", url) ]
              /\ In url (seen_lines text)
              /\ is_url url = true
              /\ PyStr.strip name = name
              /\ PyStr.strip url = url)
         (emitted text).
Proof.
  eapply Forall_impl; [apply StateFacts.emitted_explained|].
  intros ch (before & m & c & between & u & after & Hls & Hm & _ & Hu & ->).
  destruct (ParseMore.metadata_shape m c Hm) as (a & rest & _ & _ & ->).
  do 5 eexists. split; [reflexivity|].
  assert (In u (seen_lines text)) as Hin.
  { rewrite Hls. apply List.in_or_app. right. right.
    apply List.in_or_app. right. left. reflexivity. }
  repeat split; auto.
  - apply StrFacts.strip_idem.
  - eapply ParseMore.seen_stripped. exact Hin.
Qed.

(** Every record [parse_m3u] adds comes from a line of the text of the form
    #EXTINF: attributes , rest where the attributes have no comma: its
    attributes are these and its name is the rest, stripped. *)
Theorem emitted_record_metadata (text : string) :
  Forall (fun ch =>
            exists attributes rest,
              In ("#EXTINF:" ++ attributes ++ String PyStr.comma rest)%string
                 (seen_lines text)
              /\ comma_free attributes = true
              /\ PyDict.get "attributes" ch = Some attributes
              /\ PyDict.get "name" ch = Some (PyStr.strip rest))
         (emitted text).
Proof.
  eapply Forall_impl; [apply StateFacts.emitted_explained|].
  intros ch (before & m & c & between & u & after & Hls & Hm & _ & Hu & ->).
  destruct (ParseMore.metadata_shape m c Hm) as (a & rest & -> & Hc & ->).
  exists a, rest. split; [|repeat split; auto].
  rewrite Hls. apply List.in_or_app. right. left. reflexivity.
Qed.

(** The group of every record [parse_m3u] adds is the text between
    group-title= double quote and the next double quote in its attributes, or
    Uncategorized when the attributes have no such text; likewise its logo
    with tvg-logo= and the empty string. *)
Theorem emitted_group_and_logo (text : string) :
  Forall (fun ch =>
            exists attributes group logo,
              PyDict.get "attributes" ch = Some attributes
              /\ PyDict.get "group" ch = Some group
              /\ PyDict.get "logo" ch = Some logo
              /\ extracted group_title_re "Uncategorized" attributes group
              /\ extracted tvg_logo_re EmptyString attributes logo)
         (emitted text).
Proof.
  eapply Forall_impl; [apply StateFacts.emitted_explained|].
  intros ch (before & m & c & between & u & after & Hls & Hm & _ & Hu & ->).
  destruct (ParseMore.metadata_shape m c Hm) as (a & rest & _ & _ & ->).
  do 3 eexists. split; [reflexivity|]. split; [reflexivity|].
  split; [reflexivity|]. split; apply ParseMore.extracted_search.
Qed.

Module CountFacts.

Lemma parse_lines_count lines : forall cur new,
  (length (snd (parse_lines lines (cur, new)))
   <= length new + length (List.filter is_url (seen lines)))%nat
  /\ (length (snd (parse_lines lines (cur, new)))
      + (if PyDict.truthy (fst (parse_lines lines (cur, new))) then 1 else 0)
      <= length new + (if PyDict.truthy cur then 1 else 0)
         + length (List.filter is_metadata (seen lines)))%nat.
Proof.
  induction lines as [|raw lines IH]; intros cur new.
  - simpl. lia.
  - rewrite ParseFacts.seen_cons. unfold parse_lines in *. simpl.
    set (line := PyStr.strip raw).
    destruct (is_skipped line) eqn:Hskip; [apply IH|].
    cbn [List.filter]. unfold is_metadata at 1, metadata_of.
    destruct (is_extinf line) eqn:Hext.
    + rewrite (ParseFacts.extinf_not_url _ Hext).
      destruct (parse_extinf line) as [c|] eqn:Hp.
      * destruct (IH c new) as [A B]. split; [exact A|].
        assert (PyDict.truthy c = true) as Hc.
        { unfold parse_extinf in Hp.
          destruct (PyStr.split1 _ _) as [|a [|b [|? ?]]]; try discriminate.
          injection Hp as <-. reflexivity. }
        rewrite Hc in B. simpl. destruct (PyDict.truthy cur); lia.
      * apply IH.
    + destruct (is_url line) eqn:Hurl.
      * destruct (PyDict.truthy cur) eqn:Ht.
        -- destruct (IH [] (new ++ [PyDict.set "url" line cur])) as [A B].
           rewrite length_app in A, B. simpl in *. split; lia.
        -- destruct (IH cur new) as [A B]. rewrite Ht in B. simpl. split; lia.
      * apply IH.
Qed.
End CountFacts.

(** The records one [parse_m3u] adds are at most as many as the URL lines of
    the text, and at most as many as its metadata lines with a comma. *)
Theorem emitted_count (text : string) :
  (length (emitted text) <= length (List.filter is_url (seen_lines text)))%nat
  /\ (length (emitted text)
      <= length (List.filter is_metadata (seen_lines text)))%nat.
Proof.
  unfold emitted, seen_lines.
  destruct (CountFacts.parse_lines_count (lines_of text) [] []) as [A B].
  simpl in A, B. split; [exact A|].
  destruct (PyDict.truthy _) in B; lia.
Qed.

(** Two calls of [parse_m3u] in a row on non-empty texts: the channels of
    the first text are kept and those of the second come after them,
    [total_channels] counts them all, and what an earlier batch recorded
    (checked, working and dead channels) is left as it was. *)
Theorem parse_m3u_twice (first second : string) (self : analyzer) :
  first <> EmptyString ->
  second <> EmptyString ->
  exists stats1 stats2 self1 self2,
    parse_m3u (Some first) self = Ret (stats1, self1)
    /\ parse_m3u (Some second) self1 = Ret (stats2, self2)
    /\ channels self2 = channels self ++ emitted first ++ emitted second
    /\ total_channels self2 = len (channels self2)
    /\ PyDict.get "total_channels" stats2 = Some (VInt (len (channels self2)))
    /\ checked_channels self2 = checked_channels self
    /\ working_channels self2 = working_channels self
    /\ dead_channels self2 = dead_channels self.
Proof.
  intros H1 H2.
  rewrite (StateFacts.parse_m3u_text first self H1), get_basic_stats_eq.
  do 4 eexists. split; [reflexivity|].
  rewrite (StateFacts.parse_m3u_text second _ H2), get_basic_stats_eq.
  split; [reflexivity|]. simpl. rewrite <- app_assoc. repeat split.
Qed.

Lemma parse_m3u_twice_witness :
  one_channel_playlist <> EmptyString
  /\ playlist_with_option_line <> EmptyString
  /\ exists stats1 stats2 self1 self2,
       parse_m3u (Some one_channel_playlist) init = Ret (stats1, self1)
       /\ parse_m3u (Some playlist_with_option_line) self1 = Ret (stats2, self2)
       /\ channels self2
          = channels init ++ emitted one_channel_playlist
            ++ emitted playlist_with_option_line
       /\ total_channels self2 = len (channels self2)
       /\ PyDict.get "total_channels" stats2 = Some (VInt (len (channels self2)))
       /\ checked_channels self2 = checked_channels init
       /\ working_channels self2 = working_channels init
       /\ dead_channels self2 = dead_channels init.
Proof.
  split; [discriminate|]. split; [discriminate|].
  apply (parse_m3u_twice one_channel_playlist playlist_with_option_line init);
    discriminate.
Defined.

(** A text of nothing but whitespace is parsed, not refused: [parse_m3u]
    returns the statistics, without an error key, and adds no channel; only
    the empty text and a missing text give the error answer, and they leave
    the analyzer as it was. *)
Theorem parse_m3u_blank (text : string) (self : analyzer) :
  blank text = true ->
  exists answer self',
    parse_m3u (Some text) self = Ret (answer, self')
    /\ channels self' = channels self
    /\ (if PyStr.is_empty text
        then answer = [ ("error", VStr "No content provided") ] /\ self' = self
        else PyDict.get "error" answer = None
             /\ PyDict.get "total_channels" answer
                = Some (VInt (len (channels self)))
             /\ total_channels self' = len (channels self))
    /\ parse_m3u None self = Ret ([ ("error", VStr "No content provided") ], self).
Proof.
  intros Hb. destruct text as [|c r].
  - do 2 eexists. split; [reflexivity|]. repeat split.
  - assert (emitted (String c r) = []) as He.
    { unfold emitted, lines_of. rewrite (StrFacts.strip_blank _ Hb). reflexivity. }
    rewrite (StateFacts.parse_m3u_text (String c r) self) by discriminate.
    rewrite get_basic_stats_eq, He, app_nil_r.
    do 2 eexists. split; [reflexivity|]. repeat split.
Qed.

Lemma parse_m3u_blank_witness :
  blank "  " = true
  /\ exists answer self',
       parse_m3u (Some "  ") parsed_one = Ret (answer, self')
       /\ channels self' = channels parsed_one
       /\ (if PyStr.is_empty "  "
           then answer = [ ("error", VStr "No content provided") ]
                /\ self' = parsed_one
           else PyDict.get "error" answer = None
                /\ PyDict.get "total_channels" answer
                   = Some (VInt (len (channels parsed_one)))
                /\ total_channels self' = len (channels parsed_one))
       /\ parse_m3u None parsed_one
          = Ret ([ ("error", VStr "No content provided") ], parsed_one).
Proof.
  split; [reflexivity|]. apply (parse_m3u_blank "  " parsed_one). reflexivity.
Defined.

(** ** The histogram of [get_basic_stats] *)

Module StatsFacts.
Import DictFacts.

Lemma count_into_cons acc ch chans :
  count_into acc (ch :: chans)
  = count_into (PyDict.set (group_of ch)
                  (PyDict.get_default (group_of ch) 0 acc + 1) acc) chans.
Proof. reflexivity. Qed.

Lemma occurrences_cons g ch chans :
  occurrences g (ch :: chans)
  = (if String.eqb (group_of ch) g then 1 else 0) + occurrences g chans.
Proof.
  unfold occurrences, len. simpl. destruct (String.eqb (group_of ch) g); simpl; lia.
Qed.

Lemma occurrences_nonneg g chans : 0 <= occurrences g chans.
Proof. unfold occurrences, len. lia. Qed.

Lemma get_count_into g chans : forall acc : list (string * Z),
  PyDict.get g (count_into acc chans)
  = match PyDict.get g acc with
    | Some v => Some (v + occurrences g chans)%Z
    | None => if (occurrences g chans =? 0)%Z then None
              else Some (occurrences g chans)
    end.
Proof.
  induction chans as [|ch chans IH]; intros acc.
  - simpl. unfold occurrences, len. simpl.
    destruct (PyDict.get g acc) as [v|]; [f_equal; lia|reflexivity].
  - rewrite count_into_cons, IH, occurrences_cons.
    pose proof (occurrences_nonneg g chans) as Hn.
    destruct (String.eqb (group_of ch) g) eqn:E.
    + apply String.eqb_eq in E. subst g. rewrite get_set_eq.
      unfold PyDict.get_default.
      destruct (PyDict.get (group_of ch) acc) as [v|]; [f_equal; lia|].
      destruct (Z.eqb_spec (1 + occurrences (group_of ch) chans) 0); [lia|].
      f_equal; lia.
    + apply String.eqb_neq in E. rewrite get_set_ne by congruence.
      destruct (PyDict.get g acc); reflexivity.
Qed.

Lemma keys_set (k : string) (v : Z) d :
  List.map fst (PyDict.set k v d)
  = match PyDict.get k d with
    | Some _ => List.map fst d
    | None => List.map fst d ++ [k]
    end.
Proof.
  induction d as [|[k' v'] d IH]; simpl; [reflexivity|].
  destruct (String.eqb k k') eqn:E; simpl; [reflexivity|].
  rewrite IH. destruct (PyDict.get k d); reflexivity.
Qed.

Lemma get_none_keys (k : string) (d : list (string * Z)) :
  PyDict.get k d = None -> ~ In k (List.map fst d).
Proof.
  induction d as [|[k' v'] d IH]; simpl; [tauto|].
  destruct (String.eqb k k') eqn:E; [discriminate|].
  apply String.eqb_neq in E. intros H [H1|H2]; [congruence|]. apply IH; auto.
Qed.

Lemma keys_count_into chans : forall acc,
  List.NoDup (List.map fst acc) -> List.NoDup (List.map fst (count_into acc chans)).
Proof.
  induction chans as [|ch chans IH]; intros acc H; [exact H|].
  rewrite count_into_cons. apply IH. rewrite keys_set.
  destruct (PyDict.get (group_of ch) acc) eqn:E; [exact H|].
  apply List.NoDup_app_remove_l with (l := []). simpl.
  apply NoDup_ListNoDup. apply NoDup_app. repeat split.
  - apply NoDup_ListNoDup. exact H.
  - intros x Hx Hx'. apply list_elem_of_In in Hx. apply list_elem_of_In in Hx'.
    destruct Hx' as [<-|[]]. eapply get_none_keys; eauto.
  - apply NoDup_singleton.
Qed.

Lemma total_count_set g (d : list (string * Z)) :
  total_count (PyDict.set g (PyDict.get_default g 0 d + 1) d) = total_count d + 1.
Proof.
  unfold PyDict.get_default.
  induction d as [|[k v] d IH]; simpl; [lia|].
  destruct (String.eqb g k) eqn:E; simpl; [lia|].
  destruct (PyDict.get g d) eqn:G; simpl in *; lia.
Qed.

Lemma total_count_into chans : forall acc,
  total_count (count_into acc chans) = total_count acc + len chans.
Proof.
  induction chans as [|ch chans IH]; intros acc.
  - unfold len. simpl. lia.
  - rewrite count_into_cons, IH, total_count_set. unfold len. simpl length. lia.
Qed.

Lemma positive_count_into chans : forall acc,
  Forall (fun kv => 1 <= snd kv) acc ->
  Forall (fun kv => 1 <= snd kv) (count_into acc chans).
Proof.
  induction chans as [|ch chans IH]; intros acc H; [exact H|].
  rewrite count_into_cons. apply IH.
  assert (0 <= PyDict.get_default (group_of ch) 0 acc) as Hv.
  { unfold PyDict.get_default. clear IH.
    induction H as [|[k v] d Hk Hd IHd]; simpl; [lia|].
    destruct (String.eqb (group_of ch) k); simpl in *; [lia|exact IHd]. }
  revert Hv. generalize (PyDict.get_default (group_of ch) 0 acc). intros v Hv.
  clear IH. induction H as [|[k w] d Hk Hd IHd]; simpl.
  - constructor; [simpl; lia|constructor].
  - destruct (String.eqb (group_of ch) k); constructor; simpl in *; auto; lia.
Qed.

Lemma insert_desc_perm x l : insert_desc x l ≡ₚ x :: l.
Proof.
  induction l as [|y l IH]; simpl; [reflexivity|].
  destruct (snd y <=? snd x)%Z; [reflexivity|].
  rewrite IH. apply Permutation_swap.
Qed.

Lemma sorted_desc_perm l : sorted_desc l ≡ₚ l.
Proof.
  induction l as [|x l IH]; simpl; [reflexivity|].
  unfold sorted_desc in *. simpl. rewrite insert_desc_perm, IH. reflexivity.
Qed.

Lemma insert_desc_sorted x l :
  StronglySorted count_ge l -> StronglySorted count_ge (insert_desc x l).
Proof.
  induction 1 as [|y l Hl IH Hy]; simpl.
  - constructor; constructor.
  - destruct (Z.leb_spec (snd y) (snd x)) as [Hle|Hgt].
    + constructor; [constructor; assumption|].
      constructor; [exact Hle|].
      eapply Forall_impl; [exact Hy|]. unfold count_ge. intros; lia.
    + constructor; [exact IH|].
      rewrite insert_desc_perm. constructor; [unfold count_ge; lia|exact Hy].
Qed.

Lemma sorted_desc_sorted l : StronglySorted count_ge (sorted_desc l).
Proof.
  induction l as [|x l IH]; [constructor|].
  unfold sorted_desc in *. simpl. apply insert_desc_sorted. exact IH.
Qed.

Lemma insert_desc_same_count c x l :
  List.filter (fun kv => (snd kv =? c)%Z) (insert_desc x l)
  = List.filter (fun kv => (snd kv =? c)%Z) (x :: l).
Proof.
  induction l as [|y l IH]; [reflexivity|]. simpl in *.
  destruct (Z.leb_spec (snd y) (snd x)) as [Hle|Hgt]; [reflexivity|].
  simpl. rewrite IH.
  destruct (Z.eqb_spec (snd x) c), (Z.eqb_spec (snd y) c); try reflexivity. lia.
Qed.

Lemma sorted_desc_same_count c l :
  List.filter (fun kv => (snd kv =? c)%Z) (sorted_desc l)
  = List.filter (fun kv => (snd kv =? c)%Z) l.
Proof.
  induction l as [|x l IH]; [reflexivity|].
  unfold sorted_desc in *. simpl fold_right. rewrite insert_desc_same_count.
  simpl. rewrite IH. reflexivity.
Qed.

Lemma get_in (d : list (string * Z)) k v :
  List.NoDup (List.map fst d) -> (PyDict.get k d = Some v <-> In (k, v) d).
Proof.
  induction d as [|[k' v'] d IH]; simpl; intros H.
  - split; [discriminate|tauto].
  - inversion H as [|? ? Hnot Hd]; subst.
    destruct (String.eqb k k') eqn:E.
    + apply String.eqb_eq in E. subst k'. split.
      * intros [= ->]. left. reflexivity.
      * intros [[= ->]|Hin]; [reflexivity|].
        exfalso. apply Hnot. apply List.in_map_iff. exists (k, v). auto.
    + apply String.eqb_neq in E. rewrite (IH Hd). split; [tauto|].
      intros [[= -> ->]|Hin]; [congruence|exact Hin].
Qed.

Lemma get_perm (d d' : list (string * Z)) k :
  d ≡ₚ d' -> List.NoDup (List.map fst d) -> PyDict.get k d' = PyDict.get k d.
Proof.
  intros Hp Hd.
  assert (List.NoDup (List.map fst d')) as Hd'.
  { eapply Permutation_NoDup; [|exact Hd]. apply Permutation_map. exact Hp. }
  destruct (PyDict.get k d) as [v|] eqn:E.
  - apply get_in; [exact Hd'|]. apply get_in in E; [|exact Hd].
    eapply Permutation_in; eauto.
  - destruct (PyDict.get k d') as [v|] eqn:E'; [|reflexivity].
    apply get_in in E'; [|exact Hd'].
    assert (In (k, v) d) as Hin by (eapply Permutation_in; [symmetry|]; eauto).
    apply get_in in Hin; [congruence|exact Hd].
Qed.

Lemma total_count_perm (d d' : list (string * Z)) :
  d ≡ₚ d' -> total_count d = total_count d'.
Proof.
  induction 1 as [|x l l' _ IH|x y l|l l' l'' _ IH1 _ IH2]; simpl; lia.
Qed.
End StatsFacts.

(** The categories of [get_basic_stats] hold each group once, with the number
    of channels of that group ([channel.get('group', 'Uncategorized')]), which
    is at least 1; a group no channel has is not a key; the counts add up to
    the number of channels. *)
Theorem category_counts (self : analyzer) :
  exists stats cats,
    get_basic_stats self = Ret (stats, self)
    /\ PyDict.get "categories" stats = Some (int_dict cats)
    /\ List.NoDup (List.map fst cats)
    /\ (forall g,
          PyDict.get g cats
          = if (occurrences g (channels self) =? 0)%Z then None
            else Some (occurrences g (channels self)))
    /\ Forall (fun kv => 1 <= snd kv) cats
    /\ total_count cats = len (channels self).
Proof.
  rewrite get_basic_stats_eq. do 2 eexists. split; [reflexivity|].
  split; [reflexivity|].
  pose proof (StatsFacts.sorted_desc_perm (count_categories (channels self))) as Hp.
  assert (List.NoDup (List.map fst (count_categories (channels self)))) as Hnd.
  { apply (StatsFacts.keys_count_into (channels self) []). constructor. }
  split; [|split; [|split]].
  - eapply Permutation_NoDup; [|exact Hnd]. apply Permutation_map. symmetry. exact Hp.
  - intros g. rewrite (StatsFacts.get_perm _ _ g (symmetry Hp) Hnd).
    apply (StatsFacts.get_count_into g (channels self) []).
  - rewrite Hp. apply (StatsFacts.positive_count_into (channels self) []). constructor.
  - rewrite (StatsFacts.total_count_perm _ _ Hp).
    apply (StatsFacts.total_count_into (channels self) []).
Qed.

(** The categories of [get_basic_stats] are those the counting loop made, in
    the order of decreasing count, and categories of equal count stay in the
    order in which the loop made them. *)
Theorem categories_sorted (self : analyzer) :
  exists stats cats,
    get_basic_stats self = Ret (stats, self)
    /\ PyDict.get "categories" stats = Some (int_dict cats)
    /\ cats ≡ₚ count_categories (channels self)
    /\ StronglySorted count_ge cats
    /\ forall c,
         List.filter (fun kv => (snd kv =? c)%Z) cats
         = List.filter (fun kv => (snd kv =? c)%Z) (count_categories (channels self)).
Proof.
  rewrite get_basic_stats_eq. do 2 eexists. split; [reflexivity|].
  split; [reflexivity|]. split; [apply StatsFacts.sorted_desc_perm|].
  split; [apply StatsFacts.sorted_desc_sorted|].
  intros c. apply StatsFacts.sorted_desc_same_count.
Qed.

(** The top_5_categories of [get_basic_stats] are the first five categories,
    or all of them when there are fewer, and no category left out has a
    larger count than one of them. *)
Theorem top_five_categories (self : analyzer) :
  exists stats cats top,
    get_basic_stats self = Ret (stats, self)
    /\ PyDict.get "categories" stats = Some (int_dict cats)
    /\ PyDict.get "top_5_categories" stats = Some (int_dict top)
    /\ cats = top ++ skipn 5 cats
    /\ length top = Nat.min 5 (length cats)
    /\ forall a b, In a top -> In b (skipn 5 cats) -> snd b <= snd a.
Proof.
  rewrite get_basic_stats_eq. do 3 eexists. split; [reflexivity|].
  split; [reflexivity|]. split; [reflexivity|].
  set (cats := sorted_desc (count_categories (channels self))).
  split; [symmetry; apply List.firstn_skipn|].
  split; [apply List.length_firstn|].
  pose proof (StatsFacts.sorted_desc_sorted (count_categories (channels self))) as Hs.
  fold cats in Hs. rewrite <- (List.firstn_skipn 5 cats) in Hs.
  apply StronglySorted_app in Hs as (H & _ & _).
  intros a b Ha Hb. apply (H a b); apply list_elem_of_In; assumption.
Qed.

(** ** More on the batch *)

Module BatchFacts.
Import Sched.

Lemma nsteps_remaining chans net k st st' :
  nsteps (step chans net) k st st' -> (remaining st = k + remaining st')%nat.
Proof.
  induction 1 as [|k x y z Hs _ IH]; [reflexivity|].
  pose proof (SchedFacts.step_remaining _ _ _ _ Hs). lia.
Qed.

Lemma start_remaining n chans : remaining (start n chans) = (2 * length chans)%nat.
Proof.
  unfold remaining, waiting, in_flight, start; simpl.
  induction chans as [|ch chans IH]; simpl in *; lia.
Qed.

Lemma no_slot_stuck chans net st :
  rtc (step chans net) (start 0 chans) st -> st = start 0 chans.
Proof.
  intros H. revert st H. apply rtc_ind_r; [reflexivity|].
  intros y z _ Hs ->. exfalso. unfold start in Hs.
  inversion Hs as [i v ts Hi|i v ts ch Hi Hc]; subst.
  rewrite list_lookup_fmap in Hi. destruct (chans !! i); discriminate.
Qed.

Lemma merged_working (ch : sdict) url timeout (o : outcome) result :
  check_link url timeout o = Ret result ->
  py_truthy (PyDict.get_default "working" (VBool false)
               (PyDict.merge (inject ch) result))
  = answer_ok o.
Proof.
  intros Hres. unfold PyDict.get_default.
  destruct o as [[st el]|[c msg]]; [|destruct c]; simpl in Hres;
    injection Hres as <-; unfold PyDict.merge; cbn [fold_left fst snd];
    rewrite ?DictFacts.get_set_ne by discriminate;
    rewrite DictFacts.get_set_eq; reflexivity.
Qed.

Lemma filter_seq_shift (p : nat -> bool) a n :
  length (List.filter p (seq (S a) n))
  = length (List.filter (fun i => p (S i)) (seq a n)).
Proof.
  revert a; induction n as [|n IH]; intros a; [reflexivity|].
  simpl. destruct (p (S a)); simpl; rewrite IH; reflexivity.
Qed.

Lemma count_working_probe_all chans : forall net checked,
  Forall has_url chans ->
  for_each (fun r => r) (probe_all chans net) = Ret checked ->
  count_working checked
  = len (List.filter (fun i => answer_ok (net i)) (seq 0 (length chans))).
Proof.
  induction chans as [|ch chans IH]; intros net checked Hurl H.
  - injection H as <-. reflexivity.
  - inversion Hurl as [|? ? Hch Hrest]; subst.
    change (probe_all (ch :: chans) net)
      with (check_with_limit ch (net 0%nat)
            :: probe_all chans (fun i => net (S i))) in H.
    destruct (body_returns ch (net 0%nat) Hch) as (u & d & Hu & Hd & Hb).
    simpl in H. rewrite Hb in H. simpl in H.
    destruct (for_each (fun r => r) (probe_all chans (fun i => net (S i))))
      as [rest|] eqn:E; [|discriminate].
    injection H as <-. specialize (IH _ _ Hrest E).
    unfold count_working, len in *. simpl List.filter.
    rewrite (merged_working ch u 5 (net 0%nat) d Hd).
    cbn [length seq List.filter].
    pose proof (filter_seq_shift (fun i => answer_ok (net i)) 0 (length chans)) as Hs.
    destruct (answer_ok (net 0%nat)); cbn [length]; lia.
Qed.
End BatchFacts.

(** In every state in use the working and the dead channels add up to the
    checked ones, neither count is negative, the checked channels are at most
    as many as the channels, and [total_channels] is the number of
    channels. *)
Theorem counts_invariant (self : analyzer) :
  reachable self ->
  working_channels self + dead_channels self = len (checked_channels self)
  /\ 0 <= working_channels self
  /\ 0 <= dead_channels self
  /\ len (checked_channels self) <= total_channels self
  /\ total_channels self = len (channels self).
Proof.
  intros H. destruct (StateFacts.reachable_consistent _ H) as [C1 C2 C3 C4 C5 C6].
  pose proof (StateFacts.count_working_bounds (checked_channels self)).
  unfold len in *. lia.
Qed.

Lemma counts_invariant_witness :
  reachable checked_one
  /\ (working_channels checked_one + dead_channels checked_one
      = len (checked_channels checked_one)
      /\ 0 <= working_channels checked_one
      /\ 0 <= dead_channels checked_one
      /\ len (checked_channels checked_one) <= total_channels checked_one
      /\ total_channels checked_one = len (channels checked_one)).
Proof.
  split; [apply checked_one_reachable|].
  apply (counts_invariant checked_one). apply checked_one_reachable.
Defined.

(** Without a slot and with a channel to check, [check_all_links] gives no
    list: with 0 slots no task ever starts and the call never returns, and a
    negative number is refused with ValueError. *)
Theorem no_slot_no_result (max_concurrent : Z) (net : nat -> outcome)
    (self : analyzer) (r : res (list pydict * analyzer)) :
  max_concurrent <= 0 ->
  channels self <> [] ->
  check_all_links max_concurrent net self r ->
  max_concurrent < 0
  /\ r = Raise (Exn ValueError "Semaphore initial value must be >= 0").
Proof.
  intros Hmax Hne H. inversion H as [Hneg|st r' Hpos Hrun Hg]; [auto|].
  exfalso. assert (max_concurrent = 0) as -> by lia.
  apply BatchFacts.no_slot_stuck in Hrun. subst st.
  destruct (channels self) as [|ch chans]; [congruence|]. discriminate Hg.
Qed.

Lemma no_slot_no_result_witness :
  -1 <= 0
  /\ channels parsed_one <> []
  /\ check_all_links (-1) all_time_out parsed_one
       (Raise (Exn ValueError "Semaphore initial value must be >= 0"))
  /\ (-1 < 0
      /\ Raise (Exn ValueError "Semaphore initial value must be >= 0")
         = Raise (A := list pydict * analyzer)
             (Exn ValueError "Semaphore initial value must be >= 0")).
Proof.
  assert (check_all_links (-1) all_time_out parsed_one
            (Raise (Exn ValueError "Semaphore initial value must be >= 0"))) as H
    by (apply check_value_error; lia).
  split; [lia|]. split; [discriminate|]. split; [exact H|].
  apply (no_slot_no_result (-1) all_time_out parsed_one _); [lia|discriminate|exact H].
Defined.

(** With no channel, [check_all_links] returns the empty list for every
    number of slots that is not negative, 0 included, and records no checked,
    no working and no dead channel. *)
Theorem empty_batch (max_concurrent : Z) (net : nat -> outcome) (self : analyzer) :
  0 <= max_concurrent ->
  channels self = [] ->
  exists self',
    check_all_links max_concurrent net self (Ret ([], self'))
    /\ checked_channels self' = []
    /\ working_channels self' = 0
    /\ dead_channels self' = 0
    /\ total_channels self' = total_channels self
    /\ forall r, check_all_links max_concurrent net self r -> r = Ret ([], self').
Proof.
  intros Hmax Hnil. eexists. split; [|split; [|split; [|split; [|split]]]].
  - pose proof (check_barrier max_concurrent net self
                  (Sched.start (Z.to_nat max_concurrent) (channels self))
                  (Ret []) Hmax (rtc_refl _ _)) as B.
    cbv beta iota in B. rewrite record_checked_eq in B. apply B.
    rewrite Hnil. reflexivity.
  - reflexivity.
  - reflexivity.
  - reflexivity.
  - reflexivity.
  - intros r Hr.
    destruct (check_all_links_inv _ _ _ _ Hr Hmax) as (checked & -> & Hc).
    { rewrite Hnil. constructor. }
    rewrite Hnil in Hc. injection Hc as <-. rewrite record_checked_eq. reflexivity.
Qed.

Lemma empty_batch_witness :
  0 <= 0
  /\ channels init = []
  /\ exists self',
       check_all_links 0 all_time_out init (Ret ([], self'))
       /\ checked_channels self' = []
       /\ working_channels self' = 0
       /\ dead_channels self' = 0
       /\ total_channels self' = total_channels init
       /\ forall r, check_all_links 0 all_time_out init r -> r = Ret ([], self').
Proof.
  split; [lia|]. split; [reflexivity|].
  apply (empty_batch 0 all_time_out init); [lia|reflexivity].
Defined.

(** A run of the batch that has made [k] steps has [2 * n - k] steps left,
    [n] being the number of channels: every run ends within [2 * n] steps,
    whatever the order of the tasks. *)
Theorem run_length (chans : list sdict) (net : nat -> outcome)
    (slots k : nat) (st : Sched.state) :
  nsteps (Sched.step chans net) k (Sched.start slots chans) st ->
  (k + Sched.remaining st = 2 * length chans)%nat.
Proof.
  intros H. apply BatchFacts.nsteps_remaining in H.
  rewrite BatchFacts.start_remaining in H. lia.
Qed.

Lemma sample_one_step :
  nsteps (Sched.step [news_channel] all_time_out) 1
    (Sched.start 20 [news_channel]) (Sched.State 19 [Sched.InFlight]).
Proof.
  eapply nsteps_l; [|apply nsteps_O].
  exact (Sched.step_acquire [news_channel] all_time_out
           0%nat 19%nat [Sched.Waiting] eq_refl).
Qed.

Lemma run_length_witness :
  nsteps (Sched.step [news_channel] all_time_out) 1
    (Sched.start 20 [news_channel]) (Sched.State 19 [Sched.InFlight])
  /\ (1 + Sched.remaining (Sched.State 19 [Sched.InFlight])
      = 2 * length [news_channel])%nat.
Proof.
  split; [apply sample_one_step|].
  apply (run_length [news_channel] all_time_out 20 1 _ sample_one_step).
Defined.

(** After [check_all_links], [working_channels] is the number of tasks whose
    request was answered with a status among 200, 301, 302 and 403, and
    [dead_channels] is the number of the others. *)
Theorem working_counts_answers (max_concurrent : Z) (net : nat -> outcome)
    (self : analyzer) (checked : list pydict) (self' : analyzer) :
  Forall has_url (channels self) ->
  check_all_links max_concurrent net self (Ret (checked, self')) ->
  working_channels self'
  = len (List.filter (fun i => answer_ok (net i))
           (seq 0 (length (channels self))))
  /\ dead_channels self'
     = len (List.filter (fun i => negb (answer_ok (net i)))
              (seq 0 (length (channels self)))).
Proof.
  intros Hurl H.
  assert (0 <= max_concurrent) as Hmax by (inversion H; assumption).
  destruct (check_all_links_inv _ _ _ _ H Hmax Hurl) as (c & E & Hc).
  rewrite record_checked_eq in E. injection E as <- ->. simpl.
  destruct (probe_all_returns _ net Hurl) as (c' & Hc' & Hlen & _).
  rewrite Hc in Hc'. injection Hc' as <-.
  rewrite (BatchFacts.count_working_probe_all _ _ _ Hurl Hc).
  split; [reflexivity|]. unfold len. rewrite Hlen.
  pose proof (List.filter_length (fun i => answer_ok (net i))
                (seq 0 (length (channels self)))) as Hf.
  rewrite List.length_seq in Hf. lia.
Qed.

Lemma working_counts_answers_witness :
  Forall has_url (channels parsed_one)
  /\ check_all_links 20 all_time_out parsed_one (Ret ([timed_out_news], checked_one))
  /\ (working_channels checked_one
      = len (List.filter (fun i => answer_ok (all_time_out i))
               (seq 0 (length (channels parsed_one))))
      /\ dead_channels checked_one
         = len (List.filter (fun i => negb (answer_ok (all_time_out i)))
                  (seq 0 (length (channels parsed_one))))).
Proof.
  assert (Forall has_url (channels parsed_one)) as Hurl
    by (constructor; [discriminate|constructor]).
  split; [exact Hurl|]. split; [apply sample_check|].
  apply (working_counts_answers 20 all_time_out parsed_one [timed_out_news]
           checked_one Hurl sample_check).
Defined.

(** ** More on the report *)

Module ReportMore.

Lemma for_each_Forall2 {A B : Type} (f : A -> res B) (l : list A) : forall ys,
  for_each f l = Ret ys -> Forall2 (fun x y => f x = Ret y) l ys.
Proof.
  induction l as [|x l IH]; intros ys; simpl.
  - intros [= <-]. constructor.
  - destruct (f x) as [y|] eqn:E; [|discriminate]. simpl.
    destruct (for_each f l) as [ys'|]; [|discriminate]. simpl.
    intros [= <-]. constructor; auto.
Qed.

Lemma take_append_length (u : string) :
  (String.length (PyStr.take 60 u ++ "...") <= 63)%nat.
Proof.
  assert (forall a b, String.length (a ++ b)%string
                      = (String.length a + String.length b)%nat) as Happ.
  { induction a as [|c a IH]; intros b; [reflexivity|].
    rewrite StrFacts.append_cons. simpl. rewrite IH. reflexivity. }
  rewrite Happ. pose proof (take_length 60 u) as Ht.
  change (String.length "...") with 3%nat. lia.
Qed.

Lemma dead_entry_shape ch v :
  dead_entry ch = Ret v ->
  exists name shown error,
    v = VDict [ ("name", name); ("url", VStr shown); ("error", error) ]
    /\ (String.length shown <= 63)%nat.
Proof.
  unfold dead_entry, getitem.
  destruct (PyDict.get "name" ch) as [n|]; [|discriminate].
  destruct (PyDict.get "url" ch) as [[| | |u| |]|]; try discriminate.
  simpl. intros [= <-]. do 3 eexists. split; [reflexivity|].
  destruct (Z.ltb_spec 60 (Z.of_nat (String.length u))).
  - apply take_append_length.
  - lia.
Qed.

Lemma dead_count checked :
  len (List.filter is_dead checked) = len checked - count_working checked.
Proof.
  unfold count_working, len, is_dead.
  pose proof (List.filter_length
                (fun ch => py_truthy (PyDict.get_default "working" (VBool false) ch))
                checked). lia.
Qed.
End ReportMore.

(** When every channel is working, the report gives a health_percentage of
    100.0, no dead channel and an empty dead_channels_list. *)
Theorem all_working_report (self : analyzer) :
  reachable self ->
  0 < total_channels self ->
  working_channels self = total_channels self ->
  exists report,
    get_detailed_report self = Ret (report, self)
    /\ summary_field "health_percentage" report = Some (VFloat (Finite 100))
    /\ summary_field "dead_channels" report = Some (VInt 0)
    /\ summary_field "checked" report = Some (VBool true)
    /\ list_field "dead_channels_list" report = Some [].
Proof.
  intros Hreach Hpos Hall.
  pose proof (StateFacts.reachable_consistent _ Hreach) as C.
  destruct C as [C1 C2 C3 C4 C5 C6].
  pose proof (StateFacts.count_working_bounds (checked_channels self)) as Hb.
  assert (len (checked_channels self) = total_channels self) as Hlen
    by (unfold len in *; lia).
  assert (dead_channels self = 0) as Hdead by lia.
  assert (List.filter is_dead (checked_channels self) = []) as Hnone.
  { pose proof (ReportMore.dead_count (checked_channels self)) as Hd.
    destruct (List.filter is_dead (checked_channels self)); [reflexivity|].
    unfold len in *. simpl in Hd. lia. }
  assert (health_of (working_channels self) (total_channels self)
          = Ret (VFloat (Finite 100))) as Hh.
  { rewrite Hall. apply NumFacts.health_full. exact Hpos. }
  rewrite (report_eq_with _ _ Hh). unfold report_with. cbv zeta. rewrite Hnone.
  destruct (checked_channels self) as [|c cs] eqn:E.
  { unfold len in Hlen. simpl in Hlen. lia. }
  simpl for_each. eexists. split; [reflexivity|].
  unfold summary_field, list_field. simpl.
  rewrite Hdead. repeat split.
Qed.

(** The dead_channels_list of a report holds the first ten dead channels, or
    all of them when they are fewer, in the order of the checked channels;
    each entry has a name, a url of at most 63 characters and an error. *)
Theorem dead_channels_list_entries (self : analyzer) :
  reachable self ->
  checked_channels self <> [] ->
  exists report l,
    get_detailed_report self = Ret (report, self)
    /\ list_field "dead_channels_list" report = Some l
    /\ length l = Nat.min 10 (Z.to_nat (dead_channels self))
    /\ Forall2 (fun ch v => dead_entry ch = Ret v)
         (firstn 10 (List.filter is_dead (checked_channels self))) l
    /\ Forall (fun v =>
                 exists name shown error,
                   v = VDict [ ("name", name); ("url", VStr shown);
                               ("error", error) ]
                   /\ (String.length shown <= 63)%nat) l.
Proof.
  intros Hreach Hne.
  pose proof (StateFacts.reachable_consistent _ Hreach) as C.
  destruct (ReportFacts.dead_list_ret _ (checked_are_ok _ C)) as [dl Hdl].
  pose proof (ReportMore.for_each_Forall2 _ _ _ Hdl) as H2.
  destruct (ReportFacts.health_returns self C) as [h Hh].
  rewrite (report_eq_with _ _ Hh). unfold report_with. cbv zeta.
  destruct (checked_channels self) as [|c cs] eqn:E; [congruence|].
  rewrite Hdl. do 2 eexists. split; [reflexivity|].
  split; [reflexivity|]. split; [|split].
  - rewrite List.length_firstn. f_equal.
    rewrite <- (Forall2_length _ _ _ H2).
    pose proof (ReportMore.dead_count (c :: cs)) as Hd.
    rewrite (dead_is_rest _ C), (working_is_count _ C), E.
    unfold len in *. lia.
  - apply Forall2_take. exact H2.
  - apply Forall_take.
    eapply Forall2_Forall_r; [exact H2|].
    apply Forall_true. intros ch v Hv. eapply ReportMore.dead_entry_shape. exact Hv.
Qed.

Lemma live_run :
  rtc (Sched.step (channels parsed_one) all_ok)
      (Sched.start (Z.to_nat 20) (channels parsed_one))
      (Sched.State 20 [Sched.Done (Ret live_news)]).
Proof.
  eapply rtc_l.
  { exact (Sched.step_acquire (channels parsed_one) all_ok
             0%nat 19%nat [Sched.Waiting] eq_refl). }
  eapply rtc_l; [|apply rtc_refl].
  exact (Sched.step_release (channels parsed_one) all_ok
           0%nat 19%nat [Sched.InFlight] news_channel eq_refl eq_refl).
Qed.

Lemma live_check :
  check_all_links 20 all_ok parsed_one (Ret ([live_news], live_one)).
Proof.
  exact (check_barrier 20 all_ok parsed_one
           (Sched.State 20 [Sched.Done (Ret live_news)])
           (Ret [live_news]) ltac:(lia) live_run eq_refl).
Qed.

Lemma live_one_reachable : reachable live_one.
Proof. eapply reach_check; [apply parsed_one_reachable|apply live_check]. Qed.

Lemma all_working_report_witness :
  reachable live_one
  /\ 0 < total_channels live_one
  /\ working_channels live_one = total_channels live_one
  /\ exists report,
       get_detailed_report live_one = Ret (report, live_one)
       /\ summary_field "health_percentage" report = Some (VFloat (Finite 100))
       /\ summary_field "dead_channels" report = Some (VInt 0)
       /\ summary_field "checked" report = Some (VBool true)
       /\ list_field "dead_channels_list" report = Some [].
Proof.
  split; [apply live_one_reachable|]. split; [reflexivity|].
  split; [reflexivity|].
  apply (all_working_report live_one live_one_reachable); reflexivity.
Defined.

Lemma dead_channels_list_entries_witness :
  reachable checked_one
  /\ checked_channels checked_one <> []
  /\ exists report l,
       get_detailed_report checked_one = Ret (report, checked_one)
       /\ list_field "dead_channels_list" report = Some l
       /\ length l = Nat.min 10 (Z.to_nat (dead_channels checked_one))
       /\ Forall2 (fun ch v => dead_entry ch = Ret v)
            (firstn 10 (List.filter is_dead (checked_channels checked_one))) l
       /\ Forall (fun v =>
                    exists name shown error,
                      v = VDict [ ("name", name); ("url", VStr shown);
                                  ("error", error) ]
                      /\ (String.length shown <= 63)%nat) l.
Proof.
  split; [apply checked_one_reachable|]. split; [discriminate|].
  apply (dead_channels_list_entries checked_one checked_one_reachable).
  discriminate.
Defined.

(** The entry of the dead list for a channel with a name, a url and no error
    key of its own: the name, the url cut after 60 characters and followed by
    three dots when it is longer, and as error the text Timeout after a
    timeout, the first 50 characters of the message after another exception,
    and No response after a response, also when the server did answer with
    a status that does not count as working. *)
Theorem dead_entry_error (ch : sdict) (name url : string) (o : outcome) :
  PyDict.get "name" ch = Some name ->
  PyDict.get "url" ch = Some url ->
  PyDict.get "error" ch = None ->
  exists result,
    check_link url 5 o = Ret result
    /\ is_dead (PyDict.merge (inject ch) result) = negb (answer_ok o)
    /\ dead_entry (PyDict.merge (inject ch) result)
       = Ret (VDict
                [ ("name", VStr name);
                  ("url",
                   VStr (if (60 <? Z.of_nat (String.length url))%Z
                         then PyStr.take 60 url ++ "..." else url));
                  ("error",
                   VStr (match o with
                         | Ret _ => "No response"
                         | Raise e =>
                             if isinstance e ExceptTimeoutError then "Timeout"
                             else PyStr.take 50 (exn_str e)
                         end)) ]).
Proof.
  intros Hname Hurl Herr.
  destruct (check_link_ret url 5 o) as [result Hres]. exists result.
  split; [exact Hres|]. split.
  { unfold is_dead. rewrite (BatchFacts.merged_working ch url 5 o result Hres).
    reflexivity. }
  unfold dead_entry, getitem.
  rewrite (StateFacts.merged_fields ch url 5 o result "name" Hurl Hres), Hname
    by (right; simpl; intros [H|[H|[H|[H|[H|[]]]]]]; discriminate H).
  rewrite (StateFacts.merged_fields ch url 5 o result "url" Hurl Hres), Hurl
    by (left; reflexivity).
  assert (PyDict.get "error" (inject ch) = None) as He.
  { rewrite DictFacts.get_inject, Herr. reflexivity. }
  unfold PyDict.get_default.
  destruct o as [[st el]|[c msg]]; [|destruct c]; simpl in Hres;
    injection Hres as <-; unfold PyDict.merge; cbn [fold_left fst snd];
    rewrite ?DictFacts.get_set_ne by discriminate;
    rewrite ?DictFacts.get_set_eq, ?He; reflexivity.
Qed.

Lemma dead_entry_error_witness :
  PyDict.get "name" news_channel = Some "News"
  /\ PyDict.get "url" news_channel = Some "http://a.example/live"
  /\ PyDict.get "error" news_channel = None
  /\ exists result,
       check_link "http://a.example/live" 5 (Ret (Response 404 (1 # 4)))
       = Ret result
       /\ is_dead (PyDict.merge (inject news_channel) result)
          = negb (answer_ok (Ret (Response 404 (1 # 4))))
       /\ dead_entry (PyDict.merge (inject news_channel) result)
          = Ret (VDict
                   [ ("name", VStr "News");
                     ("url",
                      VStr (if (60 <? Z.of_nat
                                        (String.length "http://a.example/live"))%Z
                            then PyStr.take 60 "http://a.example/live" ++ "..."
                            else "http://a.example/live"));
                     ("error",
                      VStr (match Ret (Response 404 (1 # 4)) with
                            | Ret _ => "No response"
                            | Raise e =>
                                if isinstance e ExceptTimeoutError then "Timeout"
                                else PyStr.take 50 (exn_str e)
                            end)) ]).
Proof.
  split; [reflexivity|]. split; [reflexivity|]. split; [reflexivity|].
  apply (dead_entry_error news_channel "News" "http://a.example/live"
           (Ret (Response 404 (1 # 4)))); reflexivity.
Defined.

Lemma length_le_total_count (d : list (string * Z)) :
  Forall (fun kv => 1 <= snd kv) d -> len d <= total_count d.
Proof.
  unfold len. induction 1 as [|kv d Hk _ IH]; simpl; [lia|].
  simpl length. lia.
Qed.

(** The summary of a report gives as total_channels the number of channels,
    and as total_categories a number between 0 and that total which is 0
    only when there is no channel; channels_sample holds the first ten
    channels, or all of them when they are fewer. *)
Theorem report_totals (self : analyzer) :
  reachable self ->
  exists report n sample,
    get_detailed_report self = Ret (report, self)
    /\ summary_field "total_channels" report = Some (VInt (len (channels self)))
    /\ summary_field "total_categories" report = Some (VInt n)
    /\ 0 <= n <= len (channels self)
    /\ (n = 0 <-> channels self = [])
    /\ list_field "channels_sample" report = Some sample
    /\ sample = List.map channel_value (firstn 10 (channels self))
    /\ length sample = Nat.min 10 (length (channels self)).
Proof.
  intros Hreach. pose proof (StateFacts.reachable_consistent _ Hreach) as C.
  destruct (ReportFacts.report_returns self C) as [report Hrep].
  exists report. pose proof Hrep as Heq. rewrite report_eq in Heq.
  destruct (health_of _ _) as [h|]; [|discriminate].
  unfold report_with in Heq. cbv zeta in Heq.
  set (cats := sorted_desc (count_categories (channels self))) in *.
  assert (total_count cats = len (channels self)) as Hsum.
  { unfold cats.
    rewrite (StatsFacts.total_count_perm _ _ (StatsFacts.sorted_desc_perm _)).
    apply (StatsFacts.total_count_into (channels self) []). }
  assert (Forall (fun kv => 1 <= snd kv) cats) as Hpos.
  { unfold cats. rewrite StatsFacts.sorted_desc_perm.
    apply (StatsFacts.positive_count_into (channels self) []). constructor. }
  pose proof (length_le_total_count cats Hpos) as Hle.
  exists (len cats), (List.map channel_value (firstn 10 (channels self))).
  split; [exact Hrep|].
  assert (summary_field "total_channels" report = Some (VInt (len (channels self)))
          /\ summary_field "total_categories" report = Some (VInt (len cats))
          /\ list_field "channels_sample" report
             = Some (List.map channel_value (firstn 10 (channels self))))
    as (H1 & H2 & H3).
  { destruct (checked_channels self) as [|c cs].
    - injection Heq as <-. rewrite (total_is_len _ C).
      unfold summary_field, list_field, len. simpl. rewrite length_map. auto.
    - destruct (for_each dead_entry _) as [dl|]; [|discriminate].
      injection Heq as <-. rewrite (total_is_len _ C).
      unfold summary_field, list_field, len. simpl. rewrite length_map. auto. }
  repeat split; auto.
  - unfold len. lia.
  - lia.
  - intros Hz. clearbody cats.
    assert (cats = []) as -> by (destruct cats; [reflexivity|discriminate Hz]).
    destruct (channels self) as [|ch chans]; [reflexivity|discriminate Hsum].
  - intros Hnil. unfold cats. rewrite Hnil. reflexivity.
  - rewrite length_map, List.length_firstn. reflexivity.
Qed.

Lemma report_totals_witness :
  reachable checked_one
  /\ exists report n sample,
       get_detailed_report checked_one = Ret (report, checked_one)
       /\ summary_field "total_channels" report
          = Some (VInt (len (channels checked_one)))
       /\ summary_field "total_categories" report = Some (VInt n)
       /\ 0 <= n <= len (channels checked_one)
       /\ (n = 0 <-> channels checked_one = [])
       /\ list_field "channels_sample" report = Some sample
       /\ sample = List.map channel_value (firstn 10 (channels checked_one))
       /\ length sample = Nat.min 10 (length (channels checked_one)).
Proof.
  split; [apply checked_one_reachable|].
  apply (report_totals checked_one checked_one_reachable).
Defined.

(** ** [analyze_playlist] *)

Module AnalyzeFacts.

Lemma parse_from_init text :
  exists answer,
    parse_m3u (Some text) init
    = Ret (answer,
           {| channels := emitted text; total_channels := len (emitted text);
              working_channels := 0; dead_channels := 0;
              checked_channels := [] |}).
Proof.
  destruct text as [|c r]; [eexists; reflexivity|].
  rewrite (StateFacts.parse_m3u_text (String c r) init) by discriminate.
  rewrite get_basic_stats_eq. eexists. reflexivity.
Qed.

Lemma parse_file_readable fs path text :
  path <> EmptyString ->
  PyDict.get path fs = Some text ->
  parse_m3u_file fs (Some path) None init = parse_m3u (Some text) init.
Proof.
  intros Hne Hget. unfold parse_m3u_file.
  destruct path as [|c p]; [congruence|]. simpl PyStr.is_empty. cbv iota.
  unfold mbind, method_bind, lift, read_file. rewrite Hget. reflexivity.
Qed.

Lemma parse_file_missing fs path :
  path <> EmptyString ->
  PyDict.get path fs = None ->
  parse_m3u_file fs (Some path) None init
  = Raise (Exn OtherException "No such file or directory").
Proof.
  intros Hne Hget. unfold parse_m3u_file.
  destruct path as [|c p]; [congruence|]. simpl PyStr.is_empty. cbv iota.
  unfold mbind, method_bind, lift, read_file. rewrite Hget. reflexivity.
Qed.

Lemma parsed_reachable text answer self :
  parse_m3u (Some text) init = Ret (answer, self) -> reachable self.
Proof. intros H. eapply reach_parse; [apply reach_init|exact H]. Qed.

Lemma reachable_urls self : reachable self -> Forall has_url (channels self).
Proof.
  intros H. pose proof (StateFacts.reachable_consistent _ H) as C.
  eapply Forall_impl; [apply (channels_ok _ C)|].
  apply StateFacts.channel_ok_has_url.
Qed.

Lemma plain_report self :
  consistent self ->
  checked_channels self = [] ->
  exists report,
    get_detailed_report self = Ret (report, self)
    /\ PyDict.get "dead_channels_list" report = None
    /\ summary_field "total_channels" report = Some (VInt (total_channels self))
    /\ summary_field "checked" report = Some (VBool false)
    /\ summary_field "working_channels" report = Some (VInt (working_channels self))
    /\ summary_field "dead_channels" report = Some (VInt (dead_channels self))
    /\ exists h, summary_field "health_percentage" report = Some h
                 /\ PyNum.value h = Some 0%Q.
Proof.
  intros C Hnil.
  destruct (ReportFacts.report_returns self C) as [report Hrep].
  pose proof (ReportFacts.report_dead_list self report Hrep) as Hd.
  destruct (ReportFacts.report_health self report Hrep)
    as (Ht & Hw & Hdd & (h & Hh & Hf) & Hc).
  rewrite Hnil in Hd, Hc. exists report. repeat split; auto.
  exists h. split; [exact Hf|].
  rewrite (working_is_count _ C), Hnil in Hh. change (count_working []) with 0 in Hh.
  destruct (NumFacts.health_zero_working (total_channels self)) as (h0 & E0 & V0).
  congruence.
Qed.
End AnalyzeFacts.

(** Without link checking, [analyze_playlist] on a readable file returns a
    report, whatever the text, the empty one included: total_channels is the
    number of records the text gives, checked is false, there is no
    dead_channels_list, and working_channels, dead_channels and
    health_percentage are 0. *)
Theorem analyze_without_check (fs : files) (net : nat -> outcome)
    (path text : string) :
  path <> EmptyString ->
  PyDict.get path fs = Some text ->
  (exists report, analyze_playlist fs net path false (Ret report))
  /\ forall r, analyze_playlist fs net path false r ->
       exists report,
         r = Ret report
         /\ summary_field "total_channels" report = Some (VInt (len (emitted text)))
         /\ summary_field "checked" report = Some (VBool false)
         /\ summary_field "working_channels" report = Some (VInt 0)
         /\ summary_field "dead_channels" report = Some (VInt 0)
         /\ (exists h, summary_field "health_percentage" report = Some h
                       /\ PyNum.value h = Some 0%Q)
         /\ PyDict.get "dead_channels_list" report = None.
Proof.
  intros Hne Hget.
  pose proof (AnalyzeFacts.parse_file_readable fs path text Hne Hget) as Hfile.
  destruct (AnalyzeFacts.parse_from_init text) as [answer Hparse].
  set (A := {| channels := emitted text; total_channels := len (emitted text);
               working_channels := 0; dead_channels := 0;
               checked_channels := [] |}) in *.
  pose proof (StateFacts.reachable_consistent _
                (AnalyzeFacts.parsed_reachable _ _ _ Hparse)) as CA.
  destruct (AnalyzeFacts.plain_report A CA eq_refl)
    as (report & Hrep & Hd & Ht & Hc & Hw & Hdd & Hh).
  assert (forall r, analyze_playlist fs net path false r -> r = Ret report) as Huniq.
  { intros r Hr.
    inversion Hr as [e He|stats B Hp _|stats B r' Hp Hcond _].
    - rewrite Hfile, Hparse in He. discriminate He.
    - rewrite Hfile, Hparse in Hp. injection Hp as _ <-. rewrite Hrep. reflexivity.
    - discriminate Hcond. }
  split.
  - exists report.
    pose proof (analyze_unchecked fs net path false answer A) as Hc'.
    rewrite Hrep in Hc'. apply Hc'; [rewrite Hfile; exact Hparse|reflexivity].
  - intros r Hr. rewrite (Huniq r Hr). exists report.
    split; [reflexivity|]. split; [exact Ht|]. split; [exact Hc|].
    split; [exact Hw|]. split; [exact Hdd|]. split; [exact Hh|exact Hd].
Qed.

Lemma analyze_without_check_witness :
  "temp.m3u" <> EmptyString
  /\ PyDict.get "temp.m3u" [("temp.m3u", one_channel_playlist)]
     = Some one_channel_playlist
  /\ ((exists report,
         analyze_playlist [("temp.m3u", one_channel_playlist)] all_ok
           "temp.m3u" false (Ret report))
      /\ forall r,
           analyze_playlist [("temp.m3u", one_channel_playlist)] all_ok
             "temp.m3u" false r ->
           exists report,
             r = Ret report
             /\ summary_field "total_channels" report
                = Some (VInt (len (emitted one_channel_playlist)))
             /\ summary_field "checked" report = Some (VBool false)
             /\ summary_field "working_channels" report = Some (VInt 0)
             /\ summary_field "dead_channels" report = Some (VInt 0)
             /\ (exists h, summary_field "health_percentage" report = Some h
                           /\ PyNum.value h = Some 0%Q)
             /\ PyDict.get "dead_channels_list" report = None).
Proof.
  split; [discriminate|]. split; [reflexivity|].
  apply (analyze_without_check [("temp.m3u", one_channel_playlist)] all_ok
           "temp.m3u" one_channel_playlist); [discriminate|reflexivity].
Defined.

Module CheckedFacts.

Lemma checked_outcomes (fs : files) (net : nat -> outcome) (path text : string) :
  path <> EmptyString ->
  PyDict.get path fs = Some text ->
  forall r, analyze_playlist fs net path true r ->
    exists report working dead,
         r = Ret report
         /\ summary_field "total_channels" report = Some (VInt (len (emitted text)))
         /\ summary_field "working_channels" report = Some (VInt working)
         /\ summary_field "dead_channels" report = Some (VInt dead)
         /\ working
            = len (List.filter (fun i => answer_ok (net i))
                     (seq 0 (length (emitted text))))
         /\ working + dead = len (emitted text)
         /\ summary_field "checked" report
            = Some (VBool (len (emitted text) >? 0)%Z)
         /\ (PyDict.get "dead_channels_list" report = None <-> emitted text = []).
Proof.
  intros Hne Hget.
  pose proof (AnalyzeFacts.parse_file_readable fs path text Hne Hget) as Hfile.
  destruct (AnalyzeFacts.parse_from_init text) as [answer Hparse].
  set (A := {| channels := emitted text; total_channels := len (emitted text);
               working_channels := 0; dead_channels := 0;
               checked_channels := [] |}) in *.
  pose proof (AnalyzeFacts.parsed_reachable _ _ _ Hparse) as HA.
  pose proof (AnalyzeFacts.reachable_urls _ HA) as Hurl.
  intros r Hr.
  inversion Hr as [e He|stats B Hp Hcond|stats B r' Hp Hcond Hcheck].
  - rewrite Hfile, Hparse in He. discriminate He.
  - rewrite Hfile, Hparse in Hp. injection Hp as _ <-.
    simpl in Hcond.
    assert (emitted text = []) as Hnil.
    { destruct (emitted text); [reflexivity|discriminate Hcond]. }
    destruct (AnalyzeFacts.plain_report A (StateFacts.reachable_consistent _ HA)
                eq_refl)
      as (report & Hrep & Hd & Ht & Hc & Hw & Hdd & Hh).
    rewrite Hrep. exists report, 0, 0. simpl returned.
    split; [reflexivity|]. split; [exact Ht|]. split; [exact Hw|].
    split; [exact Hdd|]. split; [rewrite Hnil; reflexivity|].
    split; [rewrite Hnil; reflexivity|]. split; [rewrite Hnil; exact Hc|].
    split; auto.
  - rewrite Hfile, Hparse in Hp. injection Hp as _ <-.
    simpl in Hcond.
    destruct (check_all_links_inv _ _ _ _ Hcheck ltac:(lia) Hurl)
      as (checked & -> & Hc).
    rewrite record_checked_eq in *.
    pose proof (BatchFacts.count_working_probe_all _ _ _ Hurl Hc) as Hw.
    simpl in Hw.
    destruct (probe_all_returns _ net Hurl) as (c' & Hc' & Hlen & _).
    rewrite Hc in Hc'. injection Hc' as <-. simpl in Hlen.
    set (B := {| channels := channels A; total_channels := total_channels A;
                 working_channels := count_working checked;
                 dead_channels := len checked - count_working checked;
                 checked_channels := checked |}) in *.
    assert (reachable B) as HB by (eapply reach_check; eauto).
    pose proof (StateFacts.reachable_consistent _ HB) as CB.
    destruct (ReportFacts.report_returns B CB) as [report Hrep].
    destruct (ReportFacts.report_health B report Hrep) as (Ht & Hw' & Hd' & _ & Hck).
    pose proof (ReportFacts.report_dead_list B report Hrep) as Hdl.
    rewrite Hrep. exists report, (count_working checked),
                    (len checked - count_working checked).
    simpl in *. unfold len in *. rewrite Hlen in *.
    repeat split; auto; try lia.
    + destruct checked as [|x xs]; [|destruct Hdl as [l Hl]; congruence].
      destruct (emitted text); [reflexivity|discriminate Hlen].
    + intros Hnil. rewrite Hnil in Hcond. discriminate Hcond.
Qed.

Lemma checked_returns (fs : files) (net : nat -> outcome) (path text : string) :
  path <> EmptyString ->
  PyDict.get path fs = Some text ->
  exists report, analyze_playlist fs net path true (Ret report).
Proof.
  intros Hne Hget. pose proof (checked_outcomes fs net path text Hne Hget) as Hall.
  pose proof (AnalyzeFacts.parse_file_readable fs path text Hne Hget) as Hfile.
  destruct (AnalyzeFacts.parse_from_init text) as [answer Hparse].
  set (A := {| channels := emitted text; total_channels := len (emitted text);
               working_channels := 0; dead_channels := 0;
               checked_channels := [] |}) in *.
  pose proof (AnalyzeFacts.parsed_reachable _ _ _ Hparse) as HA.
  pose proof (AnalyzeFacts.reachable_urls _ HA) as Hurl.
  destruct (Z.gtb_spec (len (emitted text)) 0) as [Hpos|Hzero].
  - destruct (check_all_links_exists 20 net A ltac:(lia) Hurl) as (checked & A' & Hck).
    pose proof (analyze_checked fs net path true answer A (Ret (checked, A'))) as Hc.
    specialize (Hc ltac:(rewrite Hfile; exact Hparse)).
    assert (true && (total_channels A >? 0) = true) as Hcond.
    { simpl. apply Z.gtb_lt. lia. }
    specialize (Hc Hcond Hck). simpl in Hc.
    destruct (Hall _ Hc) as (report & _ & _ & E & _). rewrite E in Hc. eauto.
  - pose proof (analyze_unchecked fs net path true answer A) as Hc.
    specialize (Hc ltac:(rewrite Hfile; exact Hparse)).
    assert (true && (total_channels A >? 0) = false) as Hcond.
    { simpl. destruct (Z.gtb_spec (len (emitted text)) 0); [lia|reflexivity]. }
    specialize (Hc Hcond).
    destruct (Hall _ Hc) as (report & _ & _ & E & _). rewrite E in Hc. eauto.
Qed.
End CheckedFacts.

(** With link checking, [analyze_playlist] on a readable file returns a
    report: total_channels is the number of records the text gives,
    working_channels counts the requests answered with a working status,
    working and dead channels add up to the total, and checked is true and
    the dead_channels_list present exactly when the text gives a record. *)
Theorem analyze_with_check (fs : files) (net : nat -> outcome)
    (path text : string) :
  path <> EmptyString ->
  PyDict.get path fs = Some text ->
  (exists report, analyze_playlist fs net path true (Ret report))
  /\ forall r, analyze_playlist fs net path true r ->
       exists report working dead,
         r = Ret report
         /\ summary_field "total_channels" report = Some (VInt (len (emitted text)))
         /\ summary_field "working_channels" report = Some (VInt working)
         /\ summary_field "dead_channels" report = Some (VInt dead)
         /\ working
            = len (List.filter (fun i => answer_ok (net i))
                     (seq 0 (length (emitted text))))
         /\ working + dead = len (emitted text)
         /\ summary_field "checked" report
            = Some (VBool (len (emitted text) >? 0)%Z)
         /\ (PyDict.get "dead_channels_list" report = None <-> emitted text = []).
Proof.
  intros Hne Hget. split.
  - eapply CheckedFacts.checked_returns; eauto.
  - eapply CheckedFacts.checked_outcomes; eauto.
Qed.

Lemma analyze_with_check_witness :
  "temp.m3u" <> EmptyString
  /\ PyDict.get "temp.m3u" [("temp.m3u", one_channel_playlist)]
     = Some one_channel_playlist
  /\ ((exists report,
         analyze_playlist [("temp.m3u", one_channel_playlist)] all_ok
           "temp.m3u" true (Ret report))
      /\ forall r,
           analyze_playlist [("temp.m3u", one_channel_playlist)] all_ok
             "temp.m3u" true r ->
           exists report working dead,
             r = Ret report
             /\ summary_field "total_channels" report
                = Some (VInt (len (emitted one_channel_playlist)))
             /\ summary_field "working_channels" report = Some (VInt working)
             /\ summary_field "dead_channels" report = Some (VInt dead)
             /\ working
                = len (List.filter (fun i => answer_ok (all_ok i))
                         (seq 0 (length (emitted one_channel_playlist))))
             /\ working + dead = len (emitted one_channel_playlist)
             /\ summary_field "checked" report
                = Some (VBool (len (emitted one_channel_playlist) >? 0)%Z)
             /\ (PyDict.get "dead_channels_list" report = None
                 <-> emitted one_channel_playlist = [])).
Proof.
  split; [discriminate|]. split; [reflexivity|].
  apply (analyze_with_check [("temp.m3u", one_channel_playlist)] all_ok
           "temp.m3u" one_channel_playlist); [discriminate|reflexivity].
Defined.

(** On a path that names no file, [analyze_playlist] raises the error of
    [open] and gives no report, with or without link checking. *)
Theorem analyze_missing_file (fs : files) (net : nat -> outcome)
    (path : string) (check_links : bool) (r : res pydict) :
  path <> EmptyString ->
  PyDict.get path fs = None ->
  analyze_playlist fs net path check_links r ->
  r = Raise (Exn OtherException "No such file or directory").
Proof.
  intros Hne Hget Hr.
  pose proof (AnalyzeFacts.parse_file_missing fs path Hne Hget) as Hfile.
  inversion Hr as [e He|stats B Hp _|stats B r' Hp _ _].
  - rewrite Hfile in He. injection He as <-. reflexivity.
  - rewrite Hfile in Hp. discriminate Hp.
  - rewrite Hfile in Hp. discriminate Hp.
Qed.

Lemma analyze_missing_file_witness :
  "temp.m3u" <> EmptyString
  /\ PyDict.get "temp.m3u" ([] : files) = None
  /\ analyze_playlist [] all_ok "temp.m3u" true
       (Raise (Exn OtherException "No such file or directory"))
  /\ Raise (Exn OtherException "No such file or directory")
     = Raise (A := pydict) (Exn OtherException "No such file or directory").
Proof.
  assert (analyze_playlist [] all_ok "temp.m3u" true
            (Raise (Exn OtherException "No such file or directory"))) as H
    by (apply analyze_unreadable; reflexivity).
  split; [discriminate|]. split; [reflexivity|]. split; [exact H|].
  apply (analyze_missing_file [] all_ok "temp.m3u" true _);
    [discriminate|reflexivity|exact H].
Defined.

(** ** The endpoint *)

Module ApiFacts.

Lemma get_without_eq (p : string) (fs : files) :
  PyDict.get p (Api.without p fs) = None.
Proof.
  induction fs as [|[q t] fs IH]; [reflexivity|]. simpl.
  destruct (String.eqb p q) eqn:E; [exact IH|]. simpl. rewrite E. exact IH.
Qed.

Lemma get_without_ne (p q : string) (fs : files) :
  p <> q -> PyDict.get p (Api.without q fs) = PyDict.get p fs.
Proof.
  intros Hne. induction fs as [|[k t] fs IH]; [reflexivity|]. simpl.
  destruct (String.eqb q k) eqn:E.
  - apply String.eqb_eq in E. subst k.
    apply String.eqb_neq in Hne. rewrite Hne. exact IH.
  - simpl. destruct (String.eqb p k); [reflexivity|exact IH].
Qed.

Lemma analyze_same_file fs fs' net path check_links r :
  parse_m3u_file fs (Some path) None init
  = parse_m3u_file fs' (Some path) None init ->
  analyze_playlist fs net path check_links r ->
  analyze_playlist fs' net path check_links r.
Proof.
  intros E H. destruct H as [e He|stats B Hp Hcond|stats B r2 Hp Hcond Hck].
  - apply analyze_unreadable. rewrite <- E. exact He.
  - apply (analyze_unchecked fs' net path check_links stats B); [|exact Hcond].
    rewrite <- E. exact Hp.
  - apply (analyze_checked fs' net path check_links stats B r2);
      [|exact Hcond|exact Hck].
    rewrite <- E. exact Hp.
Qed.
End ApiFacts.

(** A request without a file named playlist is answered with status 400 and
    the error body, and the files are left as they were. *)
Theorem api_without_playlist (request_files : Api.uploads) (fs : files)
    (net : nat -> outcome) :
  PyDict.get "playlist" request_files = None ->
  Api.analyze request_files fs net
    (Ret (Api.Http (VDict [ ("error", VStr "No playlist file") ]) 400, fs))
  /\ forall r, Api.analyze request_files fs net r ->
       r = Ret (Api.Http (VDict [ ("error", VStr "No playlist file") ]) 400, fs).
Proof.
  intros Hnone. split; [apply Api.analyze_no_playlist; exact Hnone|].
  intros r Hr. inversion Hr as [_|upload saved r' Hsome _ _]; [reflexivity|congruence].
Qed.

Lemma api_without_playlist_witness :
  PyDict.get "playlist" ([("other", carriage_return_upload)] : Api.uploads) = None
  /\ (Api.analyze [("other", carriage_return_upload)] [] all_ok
        (Ret (Api.Http (VDict [ ("error", VStr "No playlist file") ]) 400, []))
      /\ forall r, Api.analyze [("other", carriage_return_upload)] [] all_ok r ->
           r = Ret (Api.Http (VDict [ ("error", VStr "No playlist file") ]) 400, [])).
Proof.
  split; [reflexivity|].
  apply (api_without_playlist [("other", carriage_return_upload)] [] all_ok).
  reflexivity.
Defined.

(** The file of an upload whose lines end with a lone carriage return reads
    with line feeds, and gives its channel. *)
Example carriage_return_read :
  PyFile.read_text carriage_return_upload = Some playlist_text
  /\ length (emitted playlist_text) = 1%nat.
Proof. split; vm_compute; reflexivity. Qed.

(** A request with a file named playlist is answered with status 200 and the
    report of [analyze_playlist], with link checking, on the text that the
    saved upload reads as: its bytes decoded as UTF-8 without the ones that
    do not decode, and its line ends translated. Afterwards temp.m3u is gone
    and every other file is as it was, whatever temp.m3u held before. *)
Theorem api_with_playlist (request_files : Api.uploads) (fs : files)
    (net : nat -> outcome) (upload : list Byte.byte) (text : string) :
  PyDict.get "playlist" request_files = Some upload ->
  PyFile.read_text upload = Some text ->
  (exists r, Api.analyze request_files fs net r)
  /\ forall r, Api.analyze request_files fs net r ->
       exists report fs',
         r = Ret (Api.Http (VDict report) 200, fs')
         /\ analyze_playlist [("temp.m3u", text)] net "temp.m3u" true (Ret report)
         /\ summary_field "total_channels" report
            = Some (VInt (len (emitted text)))
         /\ PyDict.get "temp.m3u" fs' = None
         /\ forall p, p <> "temp.m3u" -> PyDict.get p fs' = PyDict.get p fs.
Proof.
  intros Hsome Hread.
  set (fs1 := PyDict.set "temp.m3u" text fs).
  assert (Api.save upload "temp.m3u" fs = Some fs1) as Hsave
    by (unfold Api.save; rewrite Hread; reflexivity).
  assert (PyDict.get "temp.m3u" fs1 = Some text) as Hget
    by apply DictFacts.get_set_eq.
  destruct (CheckedFacts.checked_returns fs1 net "temp.m3u" text
              ltac:(discriminate) Hget) as [report0 Hex].
  pose proof (CheckedFacts.checked_outcomes fs1 net "temp.m3u" text
                ltac:(discriminate) Hget) as Hall.
  split.
  { eexists.
    eapply Api.analyze_playlist_file; [exact Hsome|exact Hsave|exact Hex]. }
  intros r Hr. inversion Hr as [Hnone|up saved r' Hup Hsaved Han]; [congruence|].
  assert (up = upload) as -> by congruence.
  assert (saved = fs1) as -> by congruence.
  destruct (Hall r' Han) as (report & w & d & -> & Ht & _).
  unfold Api.os_remove. rewrite Hget.
  exists report, (Api.without "temp.m3u" fs1).
  split; [reflexivity|]. split.
  - apply (ApiFacts.analyze_same_file fs1 _ net "temp.m3u" true _); [|exact Han].
    rewrite (AnalyzeFacts.parse_file_readable fs1 "temp.m3u" text)
      by (try discriminate; exact Hget).
    rewrite (AnalyzeFacts.parse_file_readable [("temp.m3u", text)]
               "temp.m3u" text) by (try discriminate; reflexivity).
    reflexivity.
  - split; [exact Ht|]. split; [apply ApiFacts.get_without_eq|].
    intros p Hp. rewrite ApiFacts.get_without_ne by exact Hp.
    apply DictFacts.get_set_ne. exact Hp.
Qed.

Lemma api_with_playlist_witness :
  PyDict.get "playlist" ([("playlist", carriage_return_upload)] : Api.uploads)
  = Some carriage_return_upload
  /\ PyFile.read_text carriage_return_upload = Some playlist_text
  /\ ((exists r,
         Api.analyze [("playlist", carriage_return_upload)]
           [("temp.m3u", "old"); ("notes.txt", "kept")] all_ok r)
      /\ forall r,
           Api.analyze [("playlist", carriage_return_upload)]
             [("temp.m3u", "old"); ("notes.txt", "kept")] all_ok r ->
           exists report fs',
             r = Ret (Api.Http (VDict report) 200, fs')
             /\ analyze_playlist [("temp.m3u", playlist_text)] all_ok
                  "temp.m3u" true (Ret report)
             /\ summary_field "total_channels" report
                = Some (VInt (len (emitted playlist_text)))
             /\ PyDict.get "temp.m3u" fs' = None
             /\ forall p, p <> "temp.m3u" ->
                  PyDict.get p fs'
                  = PyDict.get p [("temp.m3u", "old"); ("notes.txt", "kept")]).
Proof.
  split; [reflexivity|]. split; [vm_compute; reflexivity|].
  apply (api_with_playlist [("playlist", carriage_return_upload)]
           [("temp.m3u", "old"); ("notes.txt", "kept")] all_ok
           carriage_return_upload playlist_text);
    [reflexivity|vm_compute; reflexivity].
Defined.
